(** * Farmer loan management: ledger store and accrual calculator

    A shallow embedding of [loan_app.py]: the calendar arithmetic of
    [datetime.date], binary64 arithmetic for the [REAL] columns and the
    numbers typed into the forms, the two SQLite tables with the
    statements the program runs on them, and the functions of the
    program itself, under the names they have in the source. *)

From Stdlib Require Import ZArith List String Ascii Bool Lia.
From Stdlib Require Import Floats.SpecFloat.
From Stdlib Require Import Sorting.Sorted Sorting.Permutation.
Import ListNotations.

Local Open Scope Z_scope.

(** ** Calendar dates ([datetime.date])

    A date is a (year, month, day) triple.  Subtraction of two dates yields
    a [timedelta] whose [days] is the difference of the proleptic Gregorian
    ordinals, and comparison is lexicographic on the triple. *)

Module PyDate.

Record date := mkdate { year : Z; month : Z; day : Z }.

Definition is_leap (y : Z) : bool :=
  (y mod 4 =? 0) && (negb (y mod 100 =? 0) || (y mod 400 =? 0)).

Definition days_before_year (y : Z) : Z :=
  let y1 := y - 1 in
  y1 * 365 + y1 / 4 - y1 / 100 + y1 / 400.

Definition days_in_month (y m : Z) : Z :=
  if m =? 2 then (if is_leap y then 29 else 28)
  else if (m =? 4) || (m =? 6) || (m =? 9) || (m =? 11) then 30
  else 31.

(** The table [_DAYS_BEFORE_MONTH] of the standard library. *)
Definition days_before_month_table (m : Z) : Z :=
  match m with
  | 1 => 0 | 2 => 31 | 3 => 59 | 4 => 90 | 5 => 120 | 6 => 151
  | 7 => 181 | 8 => 212 | 9 => 243 | 10 => 273 | 11 => 304 | 12 => 334
  | _ => 0
  end.

Definition days_before_month (y m : Z) : Z :=
  days_before_month_table m + (if (2 <? m) && is_leap y then 1 else 0).

Definition toordinal (d : date) : Z :=
  days_before_year (year d) + days_before_month (year d) (month d) + day d.

(** What the constructor of [date] accepts. *)
Definition valid (d : date) : bool :=
  (1 <=? year d) && (year d <=? 9999) &&
  (1 <=? month d) && (month d <=? 12) &&
  (1 <=? day d) && (day d <=? days_in_month (year d) (month d)).

(** [(a - b).days] *)
Definition sub_days (a b : date) : Z := toordinal a - toordinal b.

Definition compare (a b : date) : comparison :=
  match year a ?= year b with
  | Eq => match month a ?= month b with
          | Eq => day a ?= day b
          | c => c
          end
  | c => c
  end.

Definition leb (a b : date) : bool :=
  match compare a b with Gt => false | _ => true end.

Definition ltb (a b : date) : bool :=
  match compare a b with Lt => true | _ => false end.

End PyDate.

Abbreviation date := PyDate.date.

(** ** Decimal rendering of integers *)

Module Decimal.

Definition digit_char (d : Z) : ascii :=
  ascii_of_nat (48 + Z.to_nat d).

Fixpoint digits_fuel (fuel : nat) (n : Z) (acc : string) : string :=
  match fuel with
  | O => acc
  | S k =>
      let acc' := String (digit_char (n mod 10)) acc in
      if n <? 10 then acc' else digits_fuel k (n / 10) acc'
  end.

(** [str(n)] for a non-negative [n].  The fuel is the bit length of [n],
    which bounds its number of decimal digits. *)
Definition of_nonneg (n : Z) : string :=
  digits_fuel (S (Z.to_nat (Z.log2 n))) n EmptyString.

Fixpoint zeros (k : nat) : string :=
  match k with O => EmptyString | S k' => String "0"%char (zeros k') end.

(** [%0wd] for a non-negative [n]. *)
Definition zero_pad (w : nat) (n : Z) : string :=
  let s := of_nonneg n in
  (zeros (w - String.length s) ++ s)%string.

(** Insert a comma before every group of three digits, as the [,]
    option of the format mini-language does. *)
Fixpoint group3 (s : string) : string :=
  match s with
  | EmptyString => EmptyString
  | String c rest =>
      let r := group3 rest in
      if (0 <? String.length rest)%nat && (Nat.eqb (String.length rest mod 3) 0)
      then String c (String ","%char r)
      else String c r
  end.

End Decimal.

(** [str(d)] for a date: ISO format. *)
Definition date_str (d : date) : string :=
  (Decimal.zero_pad 4 (PyDate.year d) ++ "-" ++
   Decimal.zero_pad 2 (PyDate.month d) ++ "-" ++
   Decimal.zero_pad 2 (PyDate.day d))%string.

(** ** Binary64 numbers ([float]) *)

Module PyFloat.

Definition prec : Z := 53.
Definition emax : Z := 1024.

Definition float := spec_float.

Definition mul : float -> float -> float := SFmul prec emax.
Definition div : float -> float -> float := SFdiv prec emax.
Definition add : float -> float -> float := SFadd prec emax.
Definition ltb : float -> float -> bool := SFltb.
Definition leb : float -> float -> bool := SFleb.
Definition valid (x : float) : bool := valid_binary prec emax x.

(** Conversion of a Python [int] that takes part in float arithmetic. *)
Definition of_int (z : Z) : float := binary_normalize prec emax z 0 false.

Definition zero : float := S754_zero false.

Definition is_nan (x : float) : bool :=
  match x with S754_nan => true | _ => false end.

(** Round half to even of the fraction [a / b], for [0 <= a] and [0 < b]. *)
Definition round_half_even_frac (a b : Z) : Z :=
  let q := a / b in
  let r := a mod b in
  match 2 * r ?= b with
  | Lt => q
  | Gt => q + 1
  | Eq => if Z.even q then q else q + 1
  end.

(** The magnitude [m * 2^e], scaled by 100 and rounded half to even to an
    integer: the number of hundredths in the correctly rounded two-place
    decimal of the binary value. *)
Definition hundredths (m : positive) (e : Z) : Z :=
  match e with
  | Zneg p => round_half_even_frac (Zpos m * 100) (Z.pow_pos 2 p)
  | _ => Zpos m * 100 * 2 ^ e
  end.

(** [round(x, 2)]: the exact binary value is rounded, half to even, to two
    decimal places, and the decimal is converted back to the nearest
    binary64; infinities, NaN and zeros are returned as they are, and the
    sign is kept. *)
Definition round2 (x : float) : float :=
  match x with
  | S754_finite s m e =>
      match hundredths m e with
      | Zpos n => div (S754_finite s n 0) (S754_finite false 100 0)
      | _ => S754_zero s
      end
  | _ => x
  end.

(** [format(x, ',.2f')] *)
Definition format_comma_2f (x : float) : string :=
  match x with
  | S754_nan => "nan"
  | S754_infinity s => if s then "-inf" else "inf"
  | S754_zero s => if s then "-0.00" else "0.00"
  | S754_finite s m e =>
      let n := hundredths m e in
      ((if s then "-" else "") ++
       Decimal.group3 (Decimal.of_nonneg (n / 100)) ++ "." ++
       Decimal.zero_pad 2 (n mod 100))%string
  end.

End PyFloat.

Abbreviation float := PyFloat.float.

(** ** Accrual calculator *)

(** [calculate_interest(amount, rate, start_date, end_date)] *)
Definition calculate_interest (amount rate : float) (start_date end_date : date)
  : float :=
  let days := PyDate.sub_days end_date start_date in
  let interest :=
    PyFloat.div (PyFloat.mul (PyFloat.mul amount rate) (PyFloat.of_int days))
                (PyFloat.of_int (100 * 365)) in
  PyFloat.round2 interest.

(** [calculate_days_remaining(end_date)]; the value of [date.today()] is the
    extra argument [today]. *)
Definition calculate_days_remaining (today end_date : date) : Z :=
  let remaining := PyDate.sub_days end_date today in
  Z.max remaining 0.

(** The colour attached to a loan in [get_all_loans]. *)
Definition status_color (x : Z) : string :=
  if x <=? 30 then "red" else if x <=? 90 then "yellow" else "green".

(** The three selections of the status summary of the dashboard (and of the
    risk analysis), as predicates on [days_remaining]. *)
Definition is_critical (x : Z) : bool := x <=? 30.
Definition is_warning (x : Z) : bool := (30 <? x) && (x <=? 90).
Definition is_healthy (x : Z) : bool := 90 <? x.

(** [color_remaining_days] of the loan table *)
Definition color_remaining_days (val : Z) : string :=
  if val <=? 30 then "color: red"
  else if val <=? 90 then "color: orange"
  else "color: green".

(** ** The database

    Two tables, rows in rowid order.  [NOT NULL] columns hold plain values;
    a timestamp is the reading of the clock, in seconds, that
    [CURRENT_TIMESTAMP] would render. *)

Definition timestamp := Z.

Module Loans.
Record row := mkrow {
  id : Z;
  farmer_name : string;
  father_name : string;
  loan_amount : float;
  interest_rate : float;
  start_date : date;
  end_date : date;
  status : string;
  created_at : timestamp
}.

Definition set_status (v : string) (r : row) : row :=
  mkrow (id r) (farmer_name r) (father_name r) (loan_amount r)
        (interest_rate r) (start_date r) (end_date r) v (created_at r).

Definition set_end_date (v : date) (r : row) : row :=
  mkrow (id r) (farmer_name r) (father_name r) (loan_amount r)
        (interest_rate r) (start_date r) v (status r) (created_at r).
End Loans.

Module LoanHistory.
Record row := mkrow {
  id : Z;
  loan_id : Z;
  action : string;
  action_timestamp : timestamp;
  details : string
}.
End LoanHistory.

(** The file [farmer_loans.db].  The two counters are the rows of
    [sqlite_sequence] that [AUTOINCREMENT] maintains. *)
Record database := mkdb {
  loans : list Loans.row;
  loan_history : list LoanHistory.row;
  loans_seq : Z;
  loan_history_seq : Z
}.

(** The state after [init_db] on a fresh file. *)
Definition init_db : database := mkdb [] [] 0 0.

(** *** Statements run on a cursor

    A statement either raises or returns a value and the database as the
    open transaction sees it. *)

Inductive exn :=
| IntegrityError (msg : string)
| OverflowError (msg : string).

Definition exn_str (e : exn) : string :=
  match e with IntegrityError m | OverflowError m => m end.

Definition sql (A : Type) : Type := database -> exn + (A * database).

Definition sql_ret {A} (a : A) : sql A := fun db => inr (a, db).

Definition sql_bind {A B} (c : sql A) (k : A -> sql B) : sql B :=
  fun db => match c db with
            | inl e => inl e
            | inr (a, db') => k a db'
            end.

Definition sql_raise {A} (e : exn) : sql A := fun _ => inl e.

Declare Scope sql_scope.
Delimit Scope sql_scope with sql.
Notation "x <- c ;; k" := (sql_bind c (fun x => k))
  (at level 100, c at next level, right associativity) : sql_scope.
Notation "c ;; k" := (sql_bind c (fun _ => k))
  (at level 100, right associativity) : sql_scope.

(** Binding a Python [int] to a parameter: it has to fit a 64-bit
    signed integer. *)
Definition sqlite_integer (z : Z) : bool :=
  (- 2 ^ 63 <=? z) && (z <? 2 ^ 63).

Definition bind_int (z : Z) : sql unit :=
  if sqlite_integer z then sql_ret tt
  else sql_raise (OverflowError "Python int too large to convert to SQLite INTEGER").

(** Binding a [float] to a [NOT NULL] column: SQLite stores NaN as NULL,
    which the constraint refuses. *)
Definition bind_real_not_null (column : string) (x : float) : sql unit :=
  if PyFloat.is_nan x
  then sql_raise (IntegrityError ("NOT NULL constraint failed: " ++ column))
  else sql_ret tt.

(** What a [REAL] column gives back for a value stored in it.  SQLite keeps
    a number without a fractional part as an integer and converts it when
    it is read: the negative zero comes back as the positive one, every
    other number as it was. *)
Definition sqlite_real (x : float) : float :=
  match x with
  | S754_zero _ => S754_zero false
  | _ => x
  end.

Definition max_rowid {R} (key : R -> Z) (rows : list R) : Z :=
  fold_right (fun r acc => Z.max (key r) acc) 0 rows.

(** The rowid that [AUTOINCREMENT] gives to the next row: one more than the
    largest the table has ever held. *)
Definition next_loan_id (db : database) : Z :=
  Z.max (loans_seq db) (max_rowid Loans.id (loans db)) + 1.

Definition next_history_id (db : database) : Z :=
  Z.max (loan_history_seq db) (max_rowid LoanHistory.id (loan_history db)) + 1.

(** [INSERT INTO loans (farmer_name, father_name, loan_amount,
    interest_rate, start_date, end_date) VALUES (?, ?, ?, ?, ?, ?)];
    returns [lastrowid]. *)
Definition insert_loan (now : timestamp) (farmer_name father_name : string)
    (amount rate : float) (start_date end_date : date) : sql Z :=
  (bind_real_not_null "loans.loan_amount" amount ;;
   bind_real_not_null "loans.interest_rate" rate ;;
   fun db =>
     let rowid := next_loan_id db in
     let r := Loans.mkrow rowid farmer_name father_name
                          (sqlite_real amount) (sqlite_real rate)
                          start_date end_date "Active" now in
     inr (rowid, mkdb (loans db ++ [r]) (loan_history db) rowid
                      (loan_history_seq db)))%sql.

(** [INSERT INTO loan_history (loan_id, action, details) VALUES (?, ?, ?)] *)
Definition insert_history (now : timestamp) (loan_id : Z) (action details : string)
  : sql unit :=
  (bind_int loan_id ;;
   fun db =>
     let rowid := next_history_id db in
     let h := LoanHistory.mkrow rowid loan_id action now details in
     inr (tt, mkdb (loans db) (loan_history db ++ [h]) (loans_seq db) rowid))%sql.

Definition update_where_id (f : Loans.row -> Loans.row) (loan_id : Z)
  : sql unit :=
  (bind_int loan_id ;;
   fun db =>
     inr (tt, mkdb (map (fun r => if Loans.id r =? loan_id then f r else r) (loans db))
                   (loan_history db) (loans_seq db) (loan_history_seq db)))%sql.

(** [UPDATE loans SET status = 'Inactive' WHERE id = ?] *)
Definition update_status_inactive (loan_id : Z) : sql unit :=
  update_where_id (Loans.set_status "Inactive") loan_id.

(** [UPDATE loans SET end_date = ? WHERE id = ?] *)
Definition update_end_date (new_end_date : date) (loan_id : Z) : sql unit :=
  update_where_id (Loans.set_end_date new_end_date) loan_id.

(** *** What the page shows *)

Inductive st_msg :=
| st_error (text : string)
| st_success (text : string).

(** The pattern shared by the three writers: run the statements, then
    [commit] and return [True]; on an exception report it, return [False]
    and close the connection with nothing committed. *)
Definition try_commit (prefix : string) (body : sql unit) (db : database)
  : bool * list st_msg * database :=
  match body db with
  | inr (_, db') => (true, [], db')
  | inl e => (false, [st_error (prefix ++ exn_str e)], db)
  end.

(** ** Ledger store *)

(** [add_loan(farmer_name, father_name, amount, rate, start_date, end_date)] *)
Definition add_loan (now : timestamp) (farmer_name father_name : string)
    (amount rate : float) (start_date end_date : date)
  : database -> bool * list st_msg * database :=
  try_commit "Error adding loan: "
    (loan_id <- insert_loan now farmer_name father_name amount rate
                            start_date end_date ;;
     insert_history now loan_id "CREATE"
       ("Loan created for " ++ farmer_name ++ " (s/o " ++ father_name ++
        ") with amount ₹" ++ PyFloat.format_comma_2f amount))%sql.

(** [delete_loan(loan_id, reason)] *)
Definition delete_loan (now : timestamp) (loan_id : Z) (reason : string)
  : database -> bool * list st_msg * database :=
  try_commit "Error deleting loan: "
    (update_status_inactive loan_id ;;
     insert_history now loan_id "DELETE"
       ("Loan marked as inactive. Reason: " ++ reason))%sql.

(** [update_loan_end_date(loan_id, new_end_date, reason)] *)
Definition update_loan_end_date (now : timestamp) (loan_id : Z)
    (new_end_date : date) (reason : string)
  : database -> bool * list st_msg * database :=
  try_commit "Error updating loan: "
    (update_end_date new_end_date loan_id ;;
     insert_history now loan_id "UPDATE"
       ("End date updated to " ++ date_str new_end_date ++ ". Reason: " ++ reason))%sql.

(** A row of the frame that [get_all_loans] returns: the columns of the
    table and the four computed ones. *)
Record loan_view := mkview {
  view_row : Loans.row;
  current_interest : float;
  total_amount : float;
  days_remaining : Z;
  view_status_color : string
}.

Definition active (r : Loans.row) : bool :=
  String.eqb (Loans.status r) "Active".

(** The frame that [get_all_loans()] returns:
    [SELECT * FROM loans WHERE status = 'Active'], then the computed
    columns, with [today] the value of [date.today()].  The conversion of
    the two date columns, which can raise before the columns are computed,
    is in [call_get_all_loans] below. *)
Definition get_all_loans (today : date) (db : database) : list loan_view :=
  map (fun x =>
         let current_interest :=
           calculate_interest (Loans.loan_amount x) (Loans.interest_rate x)
                              (Loans.start_date x) today in
         let days_remaining := calculate_days_remaining today (Loans.end_date x) in
         mkview x current_interest
                (PyFloat.add (Loans.loan_amount x) current_interest)
                days_remaining (status_color days_remaining))
      (filter active (loans db)).

(** A row of the frame that [get_loan_history] returns. *)
Record history_view := mkhview {
  h_action_timestamp : timestamp;
  h_farmer_name : string;
  h_father_name : string;
  h_action : string;
  h_details : string
}.

(** The rows that one history entry contributes to the join: one for each
    loan whose id it carries. *)
Definition joined (rows : list Loans.row) (h : LoanHistory.row)
  : list history_view :=
  map (fun l => mkhview (LoanHistory.action_timestamp h)
                        (Loans.farmer_name l) (Loans.father_name l)
                        (LoanHistory.action h) (LoanHistory.details h))
      (filter (fun l => LoanHistory.loan_id h =? Loans.id l) rows).

(** [loan_history h JOIN loans l ON h.loan_id = l.id] *)
Definition join_history (db : database) : list history_view :=
  flat_map (joined (loans db)) (loan_history db).

(** [ORDER BY h.action_timestamp DESC], as a stable insertion sort: rows of
    one timestamp stay in the order of the join. *)
Fixpoint insert_desc (x : history_view) (l : list history_view)
  : list history_view :=
  match l with
  | [] => [x]
  | y :: l' =>
      if h_action_timestamp y <=? h_action_timestamp x
      then x :: y :: l'
      else y :: insert_desc x l'
  end.

Definition order_by_timestamp_desc (l : list history_view) : list history_view :=
  fold_right insert_desc [] l.

(** [get_loan_history()] *)
Definition get_loan_history (db : database) : list history_view :=
  order_by_timestamp_desc (join_history db).

(** ** The pages that call the store *)

(** The submitted form of the page "Add New Loan". *)
Definition add_new_loan_submitted (now : timestamp)
    (farmer_name father_name : string) (loan_amount interest_rate : float)
    (start_date end_date : date) (db : database) : list st_msg * database :=
  if PyDate.leb end_date start_date then
    ([st_error "End date must be after start date!"], db)
  else if PyFloat.leb loan_amount PyFloat.zero then
    ([st_error "Loan amount must be greater than 0!"], db)
  else if String.eqb farmer_name "" || String.eqb father_name "" then
    ([st_error "Farmer name and father's name are required!"], db)
  else
    match add_loan now farmer_name father_name loan_amount interest_rate
                   start_date end_date db with
    | (true, msgs, db') => (msgs ++ [st_success "Loan added successfully!"], db')
    | (false, msgs, db') => (msgs, db')
    end.

(** The three counters of the "Loan Status Summary" of the dashboard. *)
Definition count_by (p : Z -> bool) (views : list loan_view) : nat :=
  List.length (filter (fun v => p (days_remaining v)) views).

Definition critical_loans := count_by is_critical.
Definition warning_loans := count_by is_warning.
Definition healthy_loans := count_by is_healthy.

(** The three writers under one type, with the action each is to log. *)
Inductive mutation :=
| AddLoan (farmer_name father_name : string) (amount rate : float)
          (start_date end_date : date)
| UpdateEndDate (loan_id : Z) (new_end_date : date) (reason : string)
| SoftDelete (loan_id : Z) (reason : string).

Definition run_mutation (now : timestamp) (m : mutation)
  : database -> bool * list st_msg * database :=
  match m with
  | AddLoan farmer father amount rate start_date end_date =>
      add_loan now farmer father amount rate start_date end_date
  | UpdateEndDate loan_id new_end_date reason =>
      update_loan_end_date now loan_id new_end_date reason
  | SoftDelete loan_id reason => delete_loan now loan_id reason
  end.

Definition action_tag (m : mutation) : string :=
  match m with
  | AddLoan _ _ _ _ _ _ => "CREATE"
  | UpdateEndDate _ _ _ => "UPDATE"
  | SoftDelete _ _ => "DELETE"
  end.

Definition loan_ids (db : database) : list Z := map Loans.id (loans db).

(** A small ledger used in the examples: one loan, created at second 1000. *)
Definition ten_thousand : float := S754_finite false 5497558138880000 (-39).
Definition ten_percent : float := S754_finite false 5629499534213120 (-49).

Definition sample_db : database :=
  snd (add_loan 1000 "Asha" "Devi" ten_thousand ten_percent
                (PyDate.mkdate 2024 1 1) (PyDate.mkdate 2024 12 31) init_db).

(** What the two statements of [delete_loan] leave behind when the id can
    be bound. *)
Definition deleted (now : timestamp) (loan_id : Z) (reason : string)
    (db : database) : database :=
  mkdb (map (fun r => if Loans.id r =? loan_id
                      then Loans.set_status "Inactive" r else r) (loans db))
       (loan_history db ++
          [LoanHistory.mkrow (next_history_id db) loan_id "DELETE" now
             ("Loan marked as inactive. Reason: " ++ reason)])
       (loans_seq db) (next_history_id db).

(** The same for [update_loan_end_date]. *)
Definition end_date_updated (now : timestamp) (loan_id : Z) (new_end_date : date)
    (reason : string) (db : database) : database :=
  mkdb (map (fun r => if Loans.id r =? loan_id
                      then Loans.set_end_date new_end_date r else r) (loans db))
       (loan_history db ++
          [LoanHistory.mkrow (next_history_id db) loan_id "UPDATE" now
             ("End date updated to " ++ date_str new_end_date ++
              ". Reason: " ++ reason)])
       (loans_seq db) (next_history_id db).

(** The sample ledger after loan 7, which does not exist, was "deleted". *)
Definition orphaned_db : database :=
  snd (delete_loan 2000 7 "gone" sample_db).

(** ** More of the pages *)

(** What the two select boxes of the page "Manage Loans" offer:
    [loans_df['id'].tolist()] of the frame of [get_all_loans]. *)
Definition offered_ids (today : date) (db : database) : list Z :=
  map (fun v => Loans.id (view_row v)) (get_all_loans today db).

(** [(loan['end_date'] - loan['start_date']).days]: the height of a bar of
    the loan timeline and the [loan_duration] column of the analytics. *)
Definition loan_duration (r : Loans.row) : Z :=
  PyDate.sub_days (Loans.end_date r) (Loans.start_date r).

(** The column [monthly_interest] of the analytics:
    [x['loan_amount'] * (x['interest_rate']/100) / 12]. *)
Definition monthly_interest (loan_amount interest_rate : float) : float :=
  PyFloat.div
    (PyFloat.mul loan_amount (PyFloat.div interest_rate (PyFloat.of_int 100)))
    (PyFloat.of_int 12).

(** [Series.unique()]: the distinct values, in order of first appearance. *)
Fixpoint unique (l : list string) : list string :=
  match l with
  | [] => []
  | x :: l' => x :: filter (fun y => negb (String.eqb x y)) (unique l')
  end.

(** [Series.isin(values)] on one element. *)
Definition isin (x : string) (values : list string) : bool :=
  existsb (String.eqb x) values.

(** The rows of the page "Loan History" under the two multiselects. *)
Definition filtered_history (selected_actions selected_farmers : list string)
    (history_df : list history_view) : list history_view :=
  filter (fun row => isin (h_action row) selected_actions &&
                     isin (h_farmer_name row) selected_farmers)
         history_df.

(** The defaults of the two multiselects: every value of the column. *)
Definition default_actions (history_df : list history_view) : list string :=
  unique (map h_action history_df).

Definition default_farmers (history_df : list history_view) : list string :=
  unique (map h_farmer_name history_df).

(** The states of the database that the program can produce: the fresh
    file after [init_db], and whatever a writer leaves behind, whether it
    committed or not. *)
Inductive reachable : database -> Prop :=
| reachable_init : reachable init_db
| reachable_step (now : timestamp) (m : mutation) (db : database) :
    reachable db -> reachable (snd (run_mutation now m db)).

(** The order of [ORDER BY h.action_timestamp DESC]. *)
Definition newer_or_same (x y : history_view) : Prop :=
  h_action_timestamp y <= h_action_timestamp x.

(** The well-formedness of a loan that the form is to guarantee. *)
Definition well_formed (r : Loans.row) : Prop :=
  PyDate.ltb (Loans.start_date r) (Loans.end_date r) = true /\
  PyFloat.leb (Loans.loan_amount r) PyFloat.zero = false /\
  Loans.farmer_name r <> ""%string /\
  Loans.father_name r <> ""%string.

(** What every state of the database that the program produces satisfies:
    ids are positive, distinct and not above the counter of their table,
    a status is one of the two the program writes, and every loan has the
    CREATE entry that was written with it. *)
Definition consistent (db : database) : Prop :=
  NoDup (loan_ids db) /\
  (forall i, In i (loan_ids db) -> 1 <= i <= loans_seq db) /\
  NoDup (map LoanHistory.id (loan_history db)) /\
  (forall h, In h (loan_history db) ->
             1 <= LoanHistory.id h <= loan_history_seq db) /\
  (forall r, In r (loans db) ->
             Loans.status r = "Active"%string \/
             Loans.status r = "Inactive"%string) /\
  (forall r, In r (loans db) ->
             exists h, In h (loan_history db) /\
                       LoanHistory.loan_id h = Loans.id r /\
                       LoanHistory.action h = "CREATE"%string).

(** The dictionary [action_colors] of the history page; [None] stands for
    the [KeyError] of a lookup. *)
Definition action_colors (action : string) : option string :=
  if String.eqb action "CREATE" then Some "success"%string
  else if String.eqb action "UPDATE" then Some "warning"%string
  else if String.eqb action "DELETE" then Some "error"%string
  else None.

Definition newline : string := String (ascii_of_nat 10) EmptyString.

(** The text that the history page writes for a row, when the lookup of
    the colour succeeds. *)
Definition history_markdown (row : history_view) : option string :=
  match action_colors (h_action row) with
  | Some colour =>
      Some ("**" ++ h_farmer_name row ++ "** (s/o " ++ h_father_name row ++
            ") - :" ++ colour ++ ": " ++ h_action row ++ newline ++ newline ++
            h_details row)%string
  | None => None
  end.

(** ** The conversions of [get_all_loans]

    [pd.to_datetime] on the two date columns of a frame that is not empty
    raises [OutOfBoundsDatetime] when a date cannot be held by a
    nanosecond timestamp, that is outside 1677-09-22 .. 2262-04-11.  The
    frame of [get_all_loans] above is what the function returns when both
    conversions go through; [call_get_all_loans] is the call with its two
    ways out. *)

Definition timestamp_min : date := PyDate.mkdate 1677 9 22.
Definition timestamp_max : date := PyDate.mkdate 2262 4 11.

Definition in_timestamp_range (d : date) : bool :=
  PyDate.leb timestamp_min d && PyDate.leb d timestamp_max.

(** [pd.to_datetime(column)] goes through. *)
Definition to_datetime_ok (column : list date) : bool :=
  forallb in_timestamp_range column.

Inductive outcome (A : Type) : Type :=
| Raises (error : string)
| Returns (value : A).

Arguments Raises {A} error.
Arguments Returns {A} value.

Definition call_get_all_loans (today : date) (db : database)
  : outcome (list loan_view) :=
  let loans_df := filter active (loans db) in
  if negb (to_datetime_ok (map Loans.start_date loans_df))
  then Raises "OutOfBoundsDatetime"
  else if negb (to_datetime_ok (map Loans.end_date loans_df))
  then Raises "OutOfBoundsDatetime"
  else Returns (get_all_loans today db).

(** ** Classes of binary64 numbers *)

Module FloatSign.

(** [math.isfinite] *)
Definition is_finite (x : float) : bool :=
  match x with
  | S754_zero _ | S754_finite _ _ _ => true
  | _ => false
  end.

Definition is_zero (x : float) : bool :=
  match x with S754_zero _ => true | _ => false end.

(** The sign bit, as [math.copysign(1, x) < 0] reads it; [false] for NaN. *)
Definition sign_bit (x : float) : bool :=
  match x with
  | S754_zero s | S754_infinity s | S754_finite s _ _ => s
  | S754_nan => false
  end.

(** A number that does not compare below zero: NaN, a zero of either sign,
    or a number whose sign bit is clear. *)
Definition not_negative (x : float) : bool := is_zero x || negb (sign_bit x).

(** A number that does not compare above zero. *)
Definition not_positive (x : float) : bool :=
  is_zero x || PyFloat.is_nan x || sign_bit x.

(** Unary minus. *)
Definition neg (x : float) : float := SFopp x.

End FloatSign.

(** ** Rounding to binary64, in integers

    The arithmetic of [SpecFloat] rounds a truncated mantissa with a
    location.  The definitions below describe the same rounding directly on
    a fraction [a / b] of integers scaled by a power of two. *)

Module Round.

(** The position of the fraction [a / b] in the unit interval that starts
    at its floor, as a shift record: the floor, whether the fraction is at
    or above the middle, and whether it is off the floor and the middle. *)
Definition rec_frac (a b : Z) : shr_record :=
  {| shr_m := a / b;
     shr_r := b <=? 2 * (a mod b);
     shr_s := negb (a mod b =? 0) && negb (2 * (a mod b) =? b) |}.

Definition loc_frac (a b : Z) : location :=
  if a mod b =? 0 then loc_Exact else loc_Inexact (2 * (a mod b) ?= b).

(** The exponent of the binary64 grid around [(a / b) * 2^e]. *)
Definition grid_exp (a b e : Z) : Z :=
  fexp PyFloat.prec PyFloat.emax (Zdigits2 (a / b) + e).

(** The truncated mantissa [a / b] at exponent [e] carries enough bits
    for a correct rounding. *)
Definition fine (a b e : Z) : Prop := e <= grid_exp a b e.

(** A mantissa that reached [2^53] moves to the next binade. *)
Definition renorm (m e : Z) : Z * Z :=
  if m =? 2 ^ PyFloat.prec then (2 ^ (PyFloat.prec - 1), e + 1) else (m, e).

Definition pack (s : bool) (me : Z * Z) : float :=
  match fst me with
  | Z0 => S754_zero s
  | Zpos m =>
      if snd me <=? PyFloat.emax - PyFloat.prec
      then S754_finite s m (snd me) else S754_infinity s
  | Zneg _ => S754_nan
  end.

(** [(a / b) * 2^e] rounded to the nearest binary64, ties to even, with
    sign [s]. *)
Definition round_frac (s : bool) (a b e : Z) : float :=
  let E := grid_exp a b e in
  pack s (renorm (PyFloat.round_half_even_frac a (b * 2 ^ (E - e))) E).

End Round.

(** The order of the values [m1 * 2^e1] and [m2 * 2^e2], in integers. *)
Definition val_le (m1 e1 m2 e2 : Z) : Prop :=
  m1 * 2 ^ (e1 - Z.min e1 e2) <= m2 * 2 ^ (e2 - Z.min e1 e2).

(** The numbers the accrual calculator works on: zeros, infinities and
    canonical finite numbers; no NaN. *)
Definition ordered (x : float) : bool :=
  PyFloat.valid x && negb (PyFloat.is_nan x).

(** Two numbers of the calculator, neither below zero, in ascending
    order. *)
Definition ascending (x y : float) : Prop :=
  ordered x = true /\ ordered y = true /\
  FloatSign.not_negative x = true /\ FloatSign.not_negative y = true /\
  PyFloat.leb x y = true.

(** The accrual as a function of the product [amount * rate] and of the
    day count: what [calculate_interest] does after its first two
    steps. *)
Definition accrue (c : float) (days : Z) : float :=
  PyFloat.round2
    (PyFloat.div (PyFloat.mul c (PyFloat.of_int days))
                 (PyFloat.of_int (100 * 365))).

(** ** The accrual as the specification words it

    [accruedInterest] with the day count clamped at zero: "never negative;
    if asOfDate < startDate, treat as 0 days".  It is compared with
    [calculate_interest] below. *)
Definition spec_accrued_interest (principal rate_percent : float)
    (start_date as_of_date : date) : float :=
  let days_elapsed := Z.max (PyDate.sub_days as_of_date start_date) 0 in
  PyFloat.round2
    (PyFloat.div
       (PyFloat.mul (PyFloat.mul principal rate_percent)
                    (PyFloat.of_int days_elapsed))
       (PyFloat.of_int (100 * 365))).

(** ** Facts about the calendar *)

Module PyDateFacts.
Import PyDate.

(** Evaluate the month tables at a literal month, leaving sums alone. *)
Ltac month_table :=
  cbv [days_before_month_table Z.ltb Z.eqb Z.leb Z.compare Pos.compare
       Pos.compare_cont Pos.eqb andb orb].

Lemma is_leap_cases y :
  is_leap y = true \/ is_leap y = false.
Proof. destruct (is_leap y); auto. Qed.

Lemma days_before_year_succ y :
  days_before_year (y + 1) =
  days_before_year y + 365 + (if is_leap y then 1 else 0).
Proof.
  unfold days_before_year, is_leap.
  replace (y + 1 - 1) with y by lia.
  destruct (y mod 4 =? 0) eqn:H4; destruct (y mod 100 =? 0) eqn:H100;
    destruct (y mod 400 =? 0) eqn:H400; simpl;
    rewrite ?Z.eqb_eq, ?Z.eqb_neq in *;
    Z.div_mod_to_equations; lia.
Qed.

Lemma days_before_year_mono y1 y2 :
  y1 <= y2 -> days_before_year y1 <= days_before_year y2.
Proof.
  unfold days_before_year. intros. Z.div_mod_to_equations. lia.
Qed.

Lemma month_cases m :
  1 <= m <= 12 ->
  m = 1 \/ m = 2 \/ m = 3 \/ m = 4 \/ m = 5 \/ m = 6 \/
  m = 7 \/ m = 8 \/ m = 9 \/ m = 10 \/ m = 11 \/ m = 12.
Proof. lia. Qed.

Lemma days_before_month_succ y m :
  1 <= m <= 11 ->
  days_before_month y (m + 1) = days_before_month y m + days_in_month y m.
Proof.
  intros Hm. unfold days_before_month, days_in_month.
  destruct (is_leap y);
    destruct (month_cases m ltac:(lia)) as [->|[->|[->|[->|[->|[->|[->|[->|[->|[->|[->| -> ]]]]]]]]]]];
    try reflexivity; lia.
Qed.

Lemma days_before_month_mono y m1 m2 :
  1 <= m1 -> m1 <= m2 -> m2 <= 12 ->
  days_before_month y m1 <= days_before_month y m2.
Proof.
  intros H1 H2 H3. unfold days_before_month.
  destruct (is_leap y);
    destruct (month_cases m1 ltac:(lia)) as [->|[->|[->|[->|[->|[->|[->|[->|[->|[->|[->| -> ]]]]]]]]]]];
    destruct (month_cases m2 ltac:(lia)) as [->|[->|[->|[->|[->|[->|[->|[->|[->|[->|[->| -> ]]]]]]]]]]];
    month_table; lia.
Qed.

Lemma days_in_month_pos y m : 28 <= days_in_month y m <= 31.
Proof.
  unfold days_in_month.
  destruct (m =? 2); [destruct (is_leap y); lia|].
  destruct ((m =? 4) || (m =? 6) || (m =? 9) || (m =? 11)); lia.
Qed.

(** The last day of a year is numbered 365, or 366 in a leap year. *)
Lemma day_of_year_bound d :
  valid d = true ->
  1 <= days_before_month (year d) (month d) + day d
    <= 365 + (if is_leap (year d) then 1 else 0).
Proof.
  unfold valid. rewrite !andb_true_iff, !Z.leb_le.
  intros [[[[[Hy1 Hy2] Hm1] Hm2] Hd1] Hd2].
  revert Hd2. unfold days_before_month, days_in_month.
  destruct (is_leap (year d));
    destruct (month_cases (month d) ltac:(lia)) as [->|[->|[->|[->|[->|[->|[->|[->|[->|[->|[->| -> ]]]]]]]]]]];
    month_table; intros; lia.
Qed.

Lemma valid_bounds d :
  valid d = true ->
  1 <= year d <= 9999 /\ 1 <= month d <= 12 /\
  1 <= day d <= days_in_month (year d) (month d).
Proof.
  unfold valid. rewrite !andb_true_iff, !Z.leb_le. tauto.
Qed.

(** The ordinal follows the order of the triples. *)
Lemma toordinal_lt a b :
  valid a = true -> valid b = true ->
  compare a b = Lt -> toordinal a < toordinal b.
Proof.
  intros Va Vb. pose proof (valid_bounds a Va) as (Hya & Hma & Hda).
  pose proof (valid_bounds b Vb) as (Hyb & Hmb & Hdb).
  unfold compare, toordinal.
  destruct (year a ?= year b) eqn:Hy; try discriminate.
  - apply Z.compare_eq in Hy.
    destruct (month a ?= month b) eqn:Hm; try discriminate.
    + apply Z.compare_eq in Hm. rewrite Hy, Hm.
      rewrite Z.compare_lt_iff. lia.
    + intros _. rewrite Z.compare_lt_iff in Hm. rewrite Hy.
      pose proof (days_before_month_succ (year b) (month a) ltac:(lia)).
      pose proof (days_before_month_mono (year b) (month a + 1) (month b)
                    ltac:(lia) ltac:(lia) ltac:(lia)).
      rewrite Hy in Hda. lia.
  - intros _. rewrite Z.compare_lt_iff in Hy.
    pose proof (day_of_year_bound a Va).
    pose proof (day_of_year_bound b Vb).
    pose proof (days_before_year_succ (year a)).
    pose proof (days_before_year_mono (year a + 1) (year b) ltac:(lia)).
    lia.
Qed.

Lemma compare_antisym a b : compare b a = CompOpp (compare a b).
Proof.
  unfold compare.
  rewrite (Z.compare_antisym (year a) (year b)),
          (Z.compare_antisym (month a) (month b)),
          (Z.compare_antisym (day a) (day b)).
  destruct (year a ?= year b), (month a ?= month b), (day a ?= day b);
    reflexivity.
Qed.

Lemma compare_eq a b : compare a b = Eq -> a = b.
Proof.
  unfold compare. destruct a as [ya ma da], b as [yb mb db]; simpl.
  destruct (ya ?= yb) eqn:Hy; try discriminate.
  destruct (ma ?= mb) eqn:Hm; try discriminate.
  intros Hd. apply Z.compare_eq in Hy, Hm, Hd. congruence.
Qed.

Lemma toordinal_le a b :
  valid a = true -> valid b = true ->
  leb a b = true -> toordinal a <= toordinal b.
Proof.
  intros Va Vb. unfold leb.
  destruct (compare a b) eqn:Hc; try discriminate; intros _.
  - apply compare_eq in Hc. subst. lia.
  - apply Z.lt_le_incl, toordinal_lt; assumption.
Qed.

Lemma ltb_toordinal a b :
  valid a = true -> valid b = true ->
  ltb a b = true -> toordinal a < toordinal b.
Proof.
  intros Va Vb. unfold ltb.
  destruct (compare a b) eqn:Hc; try discriminate; intros _.
  apply toordinal_lt; assumption.
Qed.

End PyDateFacts.

(** ** Facts about the store *)

Section StoreFacts.

Lemma update_rows_absent (f : Loans.row -> Loans.row) loan_id rows :
  ~ In loan_id (map Loans.id rows) ->
  map (fun r => if Loans.id r =? loan_id then f r else r) rows = rows.
Proof.
  induction rows as [|r rows IH]; simpl; intros Hn; [reflexivity|].
  destruct (Loans.id r =? loan_id) eqn:E.
  - apply Z.eqb_eq in E. tauto.
  - f_equal. apply IH. tauto.
Qed.

Lemma update_rows_ids (f : Loans.row -> Loans.row) loan_id rows :
  (forall r, Loans.id (f r) = Loans.id r) ->
  map Loans.id (map (fun r => if Loans.id r =? loan_id then f r else r) rows)
  = map Loans.id rows.
Proof.
  intros Hf. rewrite map_map. apply map_ext. intros r.
  destruct (Loans.id r =? loan_id); auto.
Qed.



Lemma delete_loan_bound now loan_id reason db :
  sqlite_integer loan_id = true ->
  delete_loan now loan_id reason db = (true, [], deleted now loan_id reason db).
Proof.
  intros H. unfold delete_loan, try_commit, update_status_inactive,
    update_where_id, insert_history, sql_bind, bind_int.
  rewrite H. reflexivity.
Qed.

Lemma delete_loan_unbound now loan_id reason db :
  sqlite_integer loan_id = false ->
  delete_loan now loan_id reason db =
  (false,
   [st_error "Error deleting loan: Python int too large to convert to SQLite INTEGER"],
   db).
Proof.
  intros H. unfold delete_loan, try_commit, update_status_inactive,
    update_where_id, insert_history, sql_bind, bind_int.
  rewrite H. reflexivity.
Qed.

Lemma update_loan_end_date_bound now loan_id d reason db :
  sqlite_integer loan_id = true ->
  update_loan_end_date now loan_id d reason db =
  (true, [], end_date_updated now loan_id d reason db).
Proof.
  intros H. unfold update_loan_end_date, try_commit, update_end_date,
    update_where_id, insert_history, sql_bind, bind_int.
  rewrite H. reflexivity.
Qed.

Lemma update_loan_end_date_unbound now loan_id d reason db :
  sqlite_integer loan_id = false ->
  update_loan_end_date now loan_id d reason db =
  (false,
   [st_error "Error updating loan: Python int too large to convert to SQLite INTEGER"],
   db).
Proof.
  intros H. unfold update_loan_end_date, try_commit, update_end_date,
    update_where_id, insert_history, sql_bind, bind_int.
  rewrite H. reflexivity.
Qed.

End StoreFacts.

Section HistoryFacts.

Lemma insert_desc_In x y l : In y (insert_desc x l) <-> y = x \/ In y l.
Proof.
  induction l as [|z l IH]; simpl.
  - intuition congruence.
  - destruct (h_action_timestamp z <=? h_action_timestamp x); simpl.
    + intuition congruence.
    + rewrite IH. intuition congruence.
Qed.

Lemma order_by_timestamp_desc_In y l :
  In y (order_by_timestamp_desc l) <-> In y l.
Proof.
  induction l as [|x l IH]; simpl; [tauto|].
  rewrite insert_desc_In, IH. intuition congruence.
Qed.


Lemma joined_orphan rows h :
  ~ In (LoanHistory.loan_id h) (map Loans.id rows) -> joined rows h = [].
Proof.
  unfold joined. induction rows as [|l rows IH]; simpl; intros Hn; [reflexivity|].
  destruct (LoanHistory.loan_id h =? Loans.id l) eqn:E.
  - apply Z.eqb_eq in E. exfalso. apply Hn. left. congruence.
  - apply IH. tauto.
Qed.

(** An update of the loans that keeps ids and names does not change what
    an entry joins to. *)
Lemma joined_update (f : Loans.row -> Loans.row) loan_id rows h :
  (forall r, Loans.id (f r) = Loans.id r) ->
  (forall r, Loans.farmer_name (f r) = Loans.farmer_name r) ->
  (forall r, Loans.father_name (f r) = Loans.father_name r) ->
  joined (map (fun r => if Loans.id r =? loan_id then f r else r) rows) h
  = joined rows h.
Proof.
  intros Hid Hfa Hfb. unfold joined.
  induction rows as [|r rows IH]; simpl; [reflexivity|].
  assert (Loans.id (if Loans.id r =? loan_id then f r else r) = Loans.id r) as ->
    by (destruct (Loans.id r =? loan_id); auto).
  destruct (LoanHistory.loan_id h =? Loans.id r); simpl; rewrite IH; [|reflexivity].
  f_equal. destruct (Loans.id r =? loan_id); [|reflexivity].
  rewrite Hfa, Hfb. reflexivity.
Qed.

Lemma join_history_deleted now loan_id reason db :
  join_history (deleted now loan_id reason db) =
  join_history db ++
  joined (loans db)
    (LoanHistory.mkrow (next_history_id db) loan_id "DELETE" now
       ("Loan marked as inactive. Reason: " ++ reason)).
Proof.
  unfold join_history, deleted; simpl.
  rewrite flat_map_app; simpl. rewrite app_nil_r.
  rewrite joined_update by reflexivity. f_equal.
  apply flat_map_ext. intros h. apply joined_update; reflexivity.
Qed.

Lemma join_history_end_date_updated now loan_id d reason db :
  join_history (end_date_updated now loan_id d reason db) =
  join_history db ++
  joined (loans db)
    (LoanHistory.mkrow (next_history_id db) loan_id "UPDATE" now
       ("End date updated to " ++ date_str d ++ ". Reason: " ++ reason)).
Proof.
  unfold join_history, end_date_updated; simpl.
  rewrite flat_map_app; simpl. rewrite app_nil_r.
  rewrite joined_update by reflexivity. f_equal.
  apply flat_map_ext. intros h. apply joined_update; reflexivity.
Qed.

Lemma joined_app rows rows' h :
  joined (rows ++ rows') h = joined rows h ++ joined rows' h.
Proof. unfold joined. rewrite filter_app, map_app. reflexivity. Qed.

Lemma join_history_In db h l :
  In h (loan_history db) -> In l (loans db) ->
  LoanHistory.loan_id h = Loans.id l ->
  In (mkhview (LoanHistory.action_timestamp h)
              (Loans.farmer_name l) (Loans.father_name l)
              (LoanHistory.action h) (LoanHistory.details h))
     (get_loan_history db).
Proof.
  intros Hh Hl E. unfold get_loan_history.
  apply order_by_timestamp_desc_In. unfold join_history.
  apply in_flat_map. exists h. split; [assumption|].
  unfold joined. apply in_map_iff. exists l. split; [reflexivity|].
  apply filter_In. split; [assumption|]. apply Z.eqb_eq. assumption.
Qed.

End HistoryFacts.

(** ** Facts about the sign of binary64 results *)

Module FloatSignFacts.
Import FloatSign.

Abbreviation round_aux := (binary_round_aux PyFloat.prec PyFloat.emax).

Lemma shr_1_m_nonneg mrs : 0 <= shr_m mrs -> 0 <= shr_m (shr_1 mrs).
Proof.
  destruct mrs as [m r s]. simpl.
  destruct m as [|[p|p|]|p]; simpl; lia.
Qed.

Lemma iter_pos_shr_1_m_nonneg p : forall mrs,
  0 <= shr_m mrs -> 0 <= shr_m (iter_pos shr_1 p mrs).
Proof.
  induction p as [p IH|p IH|]; intros mrs H; simpl.
  - apply IH, IH, shr_1_m_nonneg, H.
  - apply IH, IH, H.
  - apply shr_1_m_nonneg, H.
Qed.

Lemma shr_fexp_m_nonneg m e l :
  0 <= m -> 0 <= shr_m (fst (shr_fexp PyFloat.prec PyFloat.emax m e l)).
Proof.
  intros Hm. unfold shr_fexp, shr.
  assert (H0 : 0 <= shr_m (shr_record_of_loc m l))
    by (destruct l as [|[]]; simpl; exact Hm).
  destruct (fexp PyFloat.prec PyFloat.emax (Zdigits2 m + e) - e); simpl;
    [assumption|apply iter_pos_shr_1_m_nonneg; assumption|assumption].
Qed.

Lemma round_nearest_even_nonneg m l : 0 <= m -> 0 <= round_nearest_even m l.
Proof.
  intros Hm. destruct l as [|[]]; simpl; try lia.
  destruct (Z.even m); lia.
Qed.

(** The result of a rounding carries the sign it was given. *)
Lemma round_aux_sign s m e l :
  0 <= m ->
  match round_aux s m e l with
  | S754_nan => False
  | S754_zero s' | S754_infinity s' | S754_finite s' _ _ => s' = s
  end.
Proof.
  intros Hm. unfold binary_round_aux.
  pose proof (shr_fexp_m_nonneg m e l Hm) as H1.
  destruct (shr_fexp PyFloat.prec PyFloat.emax m e l) as [mrs' e'].
  simpl in H1.
  pose proof (shr_fexp_m_nonneg
                (round_nearest_even (shr_m mrs') (loc_of_shr_record mrs')) e'
                loc_Exact (round_nearest_even_nonneg _ _ H1)) as H2.
  destruct (shr_fexp PyFloat.prec PyFloat.emax _ e' loc_Exact) as [mrs'' e''].
  simpl in H2.
  destruct (shr_m mrs'') as [|p|p]; [reflexivity| |lia].
  destruct (e'' <=? PyFloat.emax - PyFloat.prec); reflexivity.
Qed.

Lemma round_aux_not_negative m e l :
  0 <= m -> not_negative (round_aux false m e l) = true.
Proof.
  intros Hm. pose proof (round_aux_sign false m e l Hm) as H.
  destruct (round_aux false m e l); simpl in *; subst; try reflexivity; tauto.
Qed.

(** Rounding commutes with the change of sign. *)
Lemma round_aux_opp s m e l :
  round_aux (negb s) m e l = SFopp (round_aux s m e l).
Proof.
  unfold binary_round_aux.
  destruct (shr_fexp PyFloat.prec PyFloat.emax m e l) as [mrs' e'].
  destruct (shr_fexp PyFloat.prec PyFloat.emax _ e' loc_Exact) as [mrs'' e''].
  destruct (shr_m mrs''); [reflexivity| |reflexivity].
  destruct (e'' <=? PyFloat.emax - PyFloat.prec); reflexivity.
Qed.

Lemma div_core_nonneg m1 e1 m2 e2 :
  0 <= fst (fst (SFdiv_core_binary PyFloat.prec PyFloat.emax
                   (Zpos m1) e1 (Zpos m2) e2)).
Proof.
  unfold SFdiv_core_binary.
  set (e' := Z.min _ _). set (s := e1 - e2 - e').
  set (m' := match s with Z0 => Zpos m1 | Zpos _ => Z.shiftl (Zpos m1) s
                     | Zneg _ => 0 end).
  assert (Hm' : 0 <= m').
  { unfold m'. destruct s; [lia| |lia]. apply Z.shiftl_nonneg. lia. }
  pose proof (Z.div_pos m' (Zpos m2) Hm' ltac:(lia)) as Hq.
  unfold Z.div in Hq.
  destruct (Z.div_eucl m' (Zpos m2)) as [q r]. simpl. exact Hq.
Qed.

Lemma leb_zero_not_negative x :
  PyFloat.leb PyFloat.zero x = true ->
  not_negative x = true /\ PyFloat.is_nan x = false.
Proof.
  destruct x as [s|[|]| |[|] m e]; simpl; intros H;
    try discriminate H; auto.
Qed.

Lemma not_negative_not_below_zero x :
  not_negative x = true -> PyFloat.ltb x PyFloat.zero = false.
Proof.
  destruct x as [s|[|]| |[|] m e]; simpl; intros H;
    try discriminate H; reflexivity.
Qed.

Lemma not_positive_not_above_zero x :
  not_positive x = true -> PyFloat.ltb PyFloat.zero x = false.
Proof.
  destruct x as [s|[|]| |[|] m e]; simpl; intros H;
    try discriminate H; reflexivity.
Qed.

Lemma neg_not_negative x :
  not_negative x = true -> not_positive (neg x) = true.
Proof.
  destruct x as [s|[|]| |[|] m e]; simpl; intros H;
    try discriminate H; reflexivity.
Qed.

Lemma mul_not_negative x y :
  not_negative x = true -> not_negative y = true ->
  not_negative (PyFloat.mul x y) = true.
Proof.
  destruct x as [sx|[|]| |[|] mx ex], y as [sy|[|]| |[|] my ey];
    simpl; intros Hx Hy; try discriminate; try reflexivity.
  apply round_aux_not_negative. lia.
Qed.

Lemma div_not_negative x my ey :
  not_negative x = true ->
  not_negative (PyFloat.div x (S754_finite false my ey)) = true.
Proof.
  destruct x as [sx|[|]| |[|] mx ex];
    simpl; intros Hx; try discriminate; try reflexivity.
  unfold PyFloat.div, SFdiv.
  pose proof (div_core_nonneg mx ex my ey) as Hq.
  destruct (SFdiv_core_binary PyFloat.prec PyFloat.emax (Zpos mx) ex (Zpos my) ey)
    as [[mz ez] lz].
  apply round_aux_not_negative. exact Hq.
Qed.

Lemma of_int_not_negative z :
  0 <= z -> not_negative (PyFloat.of_int z) = true.
Proof.
  intros Hz. destruct z as [|p|p]; [reflexivity| |lia].
  unfold PyFloat.of_int, binary_normalize, binary_round.
  destruct (shl_align p 0 _) as [mz ez].
  apply round_aux_not_negative. lia.
Qed.

Lemma round2_not_negative x :
  not_negative x = true -> not_negative (PyFloat.round2 x) = true.
Proof.
  destruct x as [s|[|]| |[|] m e]; simpl; intros H;
    try discriminate; try reflexivity.
  destruct (PyFloat.hundredths m e) as [|n|n]; try reflexivity.
  apply (div_not_negative (S754_finite false n 0) 100 0). reflexivity.
Qed.

(** *** The change of sign passes through every operation *)

Lemma mul_neg_r x y : PyFloat.mul x (neg y) = neg (PyFloat.mul x y).
Proof.
  destruct x as [sx|sx| |sx mx ex], y as [sy|sy| |sy my ey];
    simpl; try reflexivity;
    try (destruct sx, sy; reflexivity).
  replace (xorb sx (negb sy)) with (negb (xorb sx sy))
    by (destruct sx, sy; reflexivity).
  apply round_aux_opp.
Qed.

Lemma div_neg_l x y : PyFloat.div (neg x) y = neg (PyFloat.div x y).
Proof.
  destruct x as [sx|sx| |sx mx ex], y as [sy|sy| |sy my ey];
    simpl; try reflexivity;
    try (destruct sx, sy; reflexivity).
  unfold PyFloat.div, SFdiv.
  destruct (SFdiv_core_binary PyFloat.prec PyFloat.emax (Zpos mx) ex (Zpos my) ey)
    as [[mz ez] lz].
  replace (xorb (negb sx) sy) with (negb (xorb sx sy))
    by (destruct sx, sy; reflexivity).
  apply round_aux_opp.
Qed.

Lemma round2_neg x : PyFloat.round2 (neg x) = neg (PyFloat.round2 x).
Proof.
  destruct x as [s|s| |s m e]; simpl; try reflexivity.
  destruct (PyFloat.hundredths m e) as [|n|n]; try reflexivity.
  apply (div_neg_l (S754_finite s n 0) (S754_finite false 100 0)).
Qed.

Lemma of_int_neg z : z <> 0 -> PyFloat.of_int (- z) = neg (PyFloat.of_int z).
Proof.
  intros Hz. destruct z as [|p|p]; [contradiction| |];
    cbn [Z.opp]; unfold PyFloat.of_int; cbn [binary_normalize];
    unfold binary_round;
    destruct (shl_align p 0 _) as [mz ez].
  - apply (round_aux_opp false).
  - rewrite (round_aux_opp false). unfold neg.
    destruct (round_aux false (Zpos mz) ez loc_Exact) as [[|]|[|]| |[|] ? ?];
      reflexivity.
Qed.

Lemma of_int_36500 :
  PyFloat.of_int (100 * 365) = S754_finite false 5016521801728000 (-37).
Proof. vm_compute. reflexivity. Qed.

End FloatSignFacts.

(** ** Facts about the rounding to binary64 *)

Module DigitFacts.

Lemma digits2_pos_size p : digits2_pos p = Pos.size p.
Proof. induction p; simpl; congruence. Qed.

Lemma digits2_pos_bounds p :
  2 ^ (Zpos (digits2_pos p) - 1) <= Zpos p < 2 ^ Zpos (digits2_pos p).
Proof.
  rewrite digits2_pos_size. split.
  - pose proof (Pos.size_le p) as Hs.
    apply Pos2Z.pos_le_pos in Hs. rewrite Pos2Z.inj_pow in Hs.
    change (Z.pos p~0) with (2 * Z.pos p) in Hs.
    replace (Z.pos (Pos.size p)) with (Z.pos (Pos.size p) - 1 + 1) in Hs by lia.
    rewrite Z.pow_add_r, Z.pow_1_r in Hs by lia. lia.
  - pose proof (Pos.size_gt p) as H.
    apply Pos2Z.pos_lt_pos in H. rewrite Pos2Z.inj_pow in H. exact H.
Qed.

Lemma Zdigits2_nonneg m : 0 <= Zdigits2 m.
Proof. destruct m; simpl; lia. Qed.

Lemma Zdigits2_bounds m :
  0 < m -> 2 ^ (Zdigits2 m - 1) <= m < 2 ^ Zdigits2 m.
Proof.
  destruct m as [|p|p]; try lia. intros _. apply digits2_pos_bounds.
Qed.

Lemma Zdigits2_lt_pow m : 0 <= m -> m < 2 ^ Zdigits2 m.
Proof.
  intros Hm. destruct (Z.eq_dec m 0) as [->|Hn].
  - reflexivity.
  - apply Zdigits2_bounds. lia.
Qed.

Lemma Zdigits2_pos m : 0 < m -> 0 < Zdigits2 m.
Proof. destruct m; simpl; lia. Qed.

Lemma Zdigits2_unique m d :
  2 ^ (d - 1) <= m < 2 ^ d -> 0 < m -> Zdigits2 m = d.
Proof.
  intros [Hlo Hhi] Hm.
  destruct (Zdigits2_bounds m Hm) as [Hlo' Hhi'].
  pose proof (Zdigits2_pos m Hm) as Hd.
  assert (Hd0 : 0 < d).
  { destruct (Z_lt_le_dec 0 d) as [|Hneg]; [assumption|].
    destruct (Z.eq_dec d 0) as [->|]; [simpl in Hhi; lia|].
    rewrite Z.pow_neg_r in Hhi by lia. lia. }
  assert (H1 : Zdigits2 m - 1 < d).
  { apply (Z.pow_lt_mono_r_iff 2); lia. }
  assert (H2 : d - 1 < Zdigits2 m).
  { apply (Z.pow_lt_mono_r_iff 2); lia. }
  lia.
Qed.

Lemma Zdigits2_le m1 m2 : 0 <= m1 <= m2 -> Zdigits2 m1 <= Zdigits2 m2.
Proof.
  intros [H1 H12].
  destruct (Z.eq_dec m1 0) as [->|Hn]; [apply Zdigits2_nonneg|].
  destruct (Zdigits2_bounds m1 ltac:(lia)) as [Hlo _].
  destruct (Zdigits2_bounds m2 ltac:(lia)) as [_ Hhi].
  pose proof (Zdigits2_pos m2 ltac:(lia)) as Hd.
  assert (Zdigits2 m1 - 1 < Zdigits2 m2).
  { apply (Z.pow_lt_mono_r_iff 2); lia. }
  lia.
Qed.

Lemma Zdigits2_mul_pow2 m k :
  0 < m -> 0 <= k -> Zdigits2 (m * 2 ^ k) = Zdigits2 m + k.
Proof.
  intros Hm Hk.
  destruct (Zdigits2_bounds m Hm) as [Hlo Hhi].
  pose proof (Zdigits2_pos m Hm) as Hd.
  assert (Hp : 0 < 2 ^ k) by (apply Z.pow_pos_nonneg; lia).
  apply Zdigits2_unique; [|nia].
  replace (Zdigits2 m + k - 1) with (Zdigits2 m - 1 + k) by lia.
  rewrite !Z.pow_add_r by lia. nia.
Qed.

End DigitFacts.

Module ShiftFacts.
Import Round.

(** Case analysis on every integer comparison of the goal. *)
Ltac zbool :=
  repeat (match goal with
          | |- context [?x <=? ?y] => destruct (Z.leb_spec x y)
          | |- context [?x <? ?y] => destruct (Z.ltb_spec x y)
          | |- context [?x =? ?y] => destruct (Z.eqb_spec x y)
          | |- context [?x ?= ?y] => destruct (Z.compare_spec x y)
          end; cbn [negb andb orb shr_record_of_loc]);
  try reflexivity; try lia.

Lemma shr_record_of_loc_frac a b :
  0 < b ->
  shr_record_of_loc (a / b) (loc_frac a b) = rec_frac a b.
Proof.
  intros Hb. unfold loc_frac, rec_frac.
  pose proof (Z.mod_pos_bound a b Hb) as Hr.
  zbool.
Qed.

Lemma loc_of_rec_frac a b :
  0 < b -> loc_of_shr_record (rec_frac a b) = loc_frac a b.
Proof.
  intros Hb. rewrite <- shr_record_of_loc_frac by assumption.
  destruct (loc_frac a b) as [|[]]; reflexivity.
Qed.

Lemma half_xI p : Z.pos p~1 / 2 = Z.pos p.
Proof.
  symmetry. apply Z.div_unique with (r := 1); lia.
Qed.

Lemma half_xO p : Z.pos p~0 / 2 = Z.pos p.
Proof.
  symmetry. apply Z.div_unique with (r := 0); lia.
Qed.

(** One shift step on a non-negative mantissa: halve, keep the bit shifted
    out, and remember whether anything was shifted out before. *)
Lemma shr_1_nonneg m r s :
  0 <= m ->
  shr_1 {| shr_m := m; shr_r := r; shr_s := s |} =
  {| shr_m := m / 2; shr_r := Z.odd m; shr_s := r || s |}.
Proof.
  intros Hm. destruct m as [|[p|p|]|p]; try lia; cbn [shr_1].
  - reflexivity.
  - rewrite half_xI. reflexivity.
  - rewrite half_xO. reflexivity.
  - reflexivity.
Qed.

Lemma shr_1_frac a b :
  0 <= a -> 0 < b -> shr_1 (rec_frac a b) = rec_frac a (2 * b).
Proof.
  intros Ha Hb. unfold rec_frac.
  rewrite shr_1_nonneg by (apply Z.div_pos; lia).
  pose proof (Z.div_mod a b ltac:(lia)) as Hab.
  pose proof (Z.mod_pos_bound a b Hb) as Hr.
  set (q := a / b) in *. set (r := a mod b) in *.
  pose proof (Z.div_mod q 2 ltac:(lia)) as Hq.
  pose proof (Z.mod_pos_bound q 2 ltac:(lia)) as Hq2.
  assert (Hdiv : a / (2 * b) = q / 2).
  { symmetry. apply Z.div_unique with (r := (q mod 2) * b + r); nia. }
  assert (Hmod : a mod (2 * b) = (q mod 2) * b + r).
  { symmetry. apply Z.mod_unique with (q := q / 2); nia. }
  rewrite Hdiv, Hmod.
  assert (Hodd : Z.odd q = (q mod 2 =? 1)).
  { rewrite Zmod_odd. destruct (Z.odd q); reflexivity. }
  rewrite Hodd.
  assert (Hc : q mod 2 = 0 \/ q mod 2 = 1) by lia.
  destruct Hc as [Hc|Hc]; rewrite Hc; zbool.
Qed.

Lemma iter_pos_shr_1_frac p : forall a b,
  0 <= a -> 0 < b ->
  iter_pos shr_1 p (rec_frac a b) = rec_frac a (b * 2 ^ Zpos p).
Proof.
  induction p as [p IH|p IH|]; intros a b Ha Hb; cbn [iter_pos].
  - assert (Hp : 0 < 2 ^ Z.pos p) by (apply Z.pow_pos_nonneg; lia).
    rewrite shr_1_frac, IH, IH by (try assumption; nia).
    f_equal. rewrite Pos2Z.inj_xI.
    replace (2 * Z.pos p + 1) with (Z.pos p + Z.pos p + 1) by lia.
    rewrite !Z.pow_add_r by lia. rewrite Z.pow_1_r. ring.
  - assert (Hp : 0 < 2 ^ Z.pos p) by (apply Z.pow_pos_nonneg; lia).
    rewrite IH, IH by (try assumption; nia).
    f_equal. change (Z.pos p~0) with (2 * Z.pos p).
    replace (2 * Z.pos p) with (Z.pos p + Z.pos p) by lia.
    rewrite !Z.pow_add_r by lia. ring.
  - rewrite shr_1_frac by assumption. f_equal. rewrite Z.pow_1_r. ring.
Qed.

Lemma shr_frac a b e n :
  0 <= a -> 0 < b -> 0 <= n ->
  shr (rec_frac a b) e n = (rec_frac a (b * 2 ^ n), e + n).
Proof.
  intros Ha Hb Hn. destruct n as [|p|p]; try lia; cbn [shr].
  - rewrite Z.mul_1_r, Z.add_0_r. reflexivity.
  - rewrite iter_pos_shr_1_frac by assumption. reflexivity.
Qed.

Lemma round_nearest_even_frac a b :
  0 < b ->
  round_nearest_even (a / b) (loc_frac a b) = PyFloat.round_half_even_frac a b.
Proof.
  intros Hb. unfold loc_frac, PyFloat.round_half_even_frac.
  pose proof (Z.mod_pos_bound a b Hb) as Hr.
  destruct (Z.eqb_spec (a mod b) 0) as [H0|H0]; cbn [round_nearest_even].
  - rewrite H0. destruct (Z.compare_spec (2 * 0) b); lia.
  - destruct (2 * (a mod b) ?= b); reflexivity.
Qed.

End ShiftFacts.

Module RheFacts.

Abbreviation rhe := PyFloat.round_half_even_frac.

(** The rounded quotient is the floor or the floor plus one, and it is at
    most half a unit away from the fraction. *)
Lemma rhe_cases a b :
  0 < b ->
  (rhe a b = a / b /\ 2 * (a mod b) <= b) \/
  (rhe a b = a / b + 1 /\ b <= 2 * (a mod b)).
Proof.
  intros Hb. unfold PyFloat.round_half_even_frac.
  destruct (Z.compare_spec (2 * (a mod b)) b).
  - destruct (Z.even (a / b)); [left|right]; split; lia.
  - left. split; lia.
  - right. split; lia.
Qed.

Lemma rhe_mono a1 a2 b :
  0 < b -> a1 <= a2 -> rhe a1 b <= rhe a2 b.
Proof.
  intros Hb Hle.
  pose proof (Z.div_le_mono a1 a2 b Hb Hle) as Hq.
  pose proof (Z.div_mod a1 b ltac:(lia)) as E1.
  pose proof (Z.div_mod a2 b ltac:(lia)) as E2.
  pose proof (Z.mod_pos_bound a1 b Hb) as B1.
  pose proof (Z.mod_pos_bound a2 b Hb) as B2.
  unfold PyFloat.round_half_even_frac.
  set (q1 := a1 / b) in *. set (q2 := a2 / b) in *.
  set (r1 := a1 mod b) in *. set (r2 := a2 mod b) in *.
  destruct (Z.eq_dec q1 q2) as [Eq|Hne].
  - assert (Hr : r1 <= r2) by nia. rewrite <- Eq.
    destruct (Z.compare_spec (2 * r1) b), (Z.compare_spec (2 * r2) b);
      try lia; destruct (Z.even q1); lia.
  - assert (Hlt : q1 + 1 <= q2) by lia.
    destruct (2 * r1 ?= b), (2 * r2 ?= b);
      try destruct (Z.even q1); try destruct (Z.even q2); lia.
Qed.

Lemma rhe_scale a b c :
  0 < b -> 0 < c -> rhe (a * c) (b * c) = rhe a b.
Proof.
  intros Hb Hc. unfold PyFloat.round_half_even_frac.
  rewrite Z.div_mul_cancel_r by lia.
  rewrite Z.mul_mod_distr_r by lia.
  replace (2 * (a mod b * c) ?= b * c) with (2 * (a mod b) ?= b); [reflexivity|].
  destruct (Z.compare_spec (2 * (a mod b)) b) as [E|E|E];
    symmetry; [apply Z.compare_eq_iff|apply Z.compare_lt_iff|apply Z.compare_gt_iff];
    nia.
Qed.

Lemma rhe_exact n b : 0 < b -> rhe (n * b) b = n.
Proof.
  intros Hb. unfold PyFloat.round_half_even_frac.
  rewrite Z.div_mul, Z.mod_mul by lia.
  destruct (Z.compare_spec (2 * 0) b); lia.
Qed.

Lemma rhe_le a b n : 0 < b -> a <= n * b -> rhe a b <= n.
Proof.
  intros Hb H. rewrite <- (rhe_exact n b Hb). apply rhe_mono; assumption.
Qed.

Lemma rhe_ge a b n : 0 < b -> n * b <= a -> n <= rhe a b.
Proof.
  intros Hb H. rewrite <- (rhe_exact n b Hb). apply rhe_mono; assumption.
Qed.

End RheFacts.

Module RoundFacts.
Import Round DigitFacts ShiftFacts RheFacts.

Abbreviation round_aux := (binary_round_aux PyFloat.prec PyFloat.emax).

Lemma fexp_eq x : fexp PyFloat.prec PyFloat.emax x = Z.max (x - 53) (-1074).
Proof. reflexivity. Qed.

Lemma grid_exp_eq a b e :
  grid_exp a b e = Z.max (Zdigits2 (a / b) + e - 53) (-1074).
Proof. reflexivity. Qed.

Lemma pow2_pos k : 0 <= k -> 0 < 2 ^ k.
Proof. intros. apply Z.pow_pos_nonneg; lia. Qed.

(** Under [fine], the scaled fraction lies below [2^53]. *)
Lemma fine_below a b e :
  0 <= a -> 0 < b -> fine a b e ->
  a < b * 2 ^ (grid_exp a b e - e) * 2 ^ 53.
Proof.
  intros Ha Hb Hf. unfold fine in Hf.
  pose proof (grid_exp_eq a b e) as HE.
  set (E := grid_exp a b e) in *.
  pose proof (Z.div_pos a b Ha Hb) as Hq.
  pose proof (Zdigits2_lt_pow (a / b) Hq) as Hd.
  pose proof (Zdigits2_nonneg (a / b)) as Hd0.
  pose proof (Z.div_mod a b ltac:(lia)) as Hab.
  pose proof (Z.mod_pos_bound a b Hb) as Hr.
  assert (Hpow : 2 ^ Zdigits2 (a / b) <= 2 ^ (E - e) * 2 ^ 53).
  { rewrite <- Z.pow_add_r by lia. apply Z.pow_le_mono_r; lia. }
  nia.
Qed.

Lemma rhe_le_pow53 a b e :
  0 <= a -> 0 < b -> fine a b e ->
  0 <= rhe a (b * 2 ^ (grid_exp a b e - e)) <= 2 ^ 53.
Proof.
  intros Ha Hb Hf.
  pose proof (fine_below a b e Ha Hb Hf) as H.
  assert (Hp : 0 < 2 ^ (grid_exp a b e - e)) by (apply pow2_pos; unfold fine in Hf; lia).
  split.
  - apply rhe_ge; nia.
  - apply rhe_le; nia.
Qed.

Lemma Zdigits2_below m : 0 <= m < 2 ^ 53 -> Zdigits2 m <= 53.
Proof.
  intros [H0 H1]. destruct (Z.eq_dec m 0) as [->|Hn]; [simpl; lia|].
  destruct (Zdigits2_bounds m ltac:(lia)) as [Hlo _].
  pose proof (Zdigits2_pos m ltac:(lia)).
  assert (Zdigits2 m - 1 < 53) by (apply (Z.pow_lt_mono_r_iff 2); lia).
  lia.
Qed.

(** The rounding of [SpecFloat] on a truncated fraction is the rounding of
    the fraction. *)
Lemma round_aux_frac s a b e :
  0 <= a -> 0 < b -> fine a b e ->
  round_aux s (a / b) e (loc_frac a b) = round_frac s a b e.
Proof.
  intros Ha Hb Hf.
  pose proof (rhe_le_pow53 a b e Ha Hb Hf) as [HM0 HM].
  pose proof (grid_exp_eq a b e) as HE.
  unfold round_frac, binary_round_aux, shr_fexp.
  rewrite shr_record_of_loc_frac by assumption.
  fold (grid_exp a b e). unfold fine in Hf.
  set (E := grid_exp a b e) in *.
  rewrite shr_frac by lia.
  assert (HB : 0 < b * 2 ^ (E - e)).
  { pose proof (pow2_pos (E - e) ltac:(lia)). nia. }
  rewrite loc_of_rec_frac by assumption.
  change (shr_m (rec_frac a (b * 2 ^ (E - e)))) with (a / (b * 2 ^ (E - e))).
  rewrite round_nearest_even_frac by assumption.
  set (M := rhe a (b * 2 ^ (E - e))) in *.
  replace (e + (E - e)) with E by lia.
  rewrite fexp_eq. unfold renorm.
  change (2 ^ PyFloat.prec) with (2 ^ 53).
  change (2 ^ (PyFloat.prec - 1)) with (2 ^ 52).
  destruct (Z.eqb_spec M (2 ^ 53)) as [EM|NM].
  - rewrite EM. change (Zdigits2 (2 ^ 53)) with 54.
    replace (Z.max (54 + E - 53) (-1074) - E) with 1 by lia.
    reflexivity.
  - pose proof (Zdigits2_below M ltac:(lia)) as Hd.
    assert (Hs : Z.max (Zdigits2 M + E - 53) (-1074) - E <= 0) by lia.
    destruct (Z.max (Zdigits2 M + E - 53) (-1074) - E) as [|p|p];
      [reflexivity|lia|reflexivity].
Qed.

End RoundFacts.

Module GridFacts.
Import Round DigitFacts ShiftFacts RheFacts RoundFacts.

(** Above the smallest exponent, the rounded mantissa has 53 bits. *)
Lemma rhe_ge_pow52 a b e :
  0 <= a -> 0 < b -> fine a b e -> -1074 < grid_exp a b e ->
  2 ^ 52 <= rhe a (b * 2 ^ (grid_exp a b e - e)).
Proof.
  intros Ha Hb Hf Hn. unfold fine in Hf.
  pose proof (grid_exp_eq a b e) as HE.
  set (E := grid_exp a b e) in *.
  pose proof (Z.div_pos a b Ha Hb) as Hq.
  assert (Hq0 : 0 < a / b).
  { destruct (Z.eq_dec (a / b) 0) as [E0|]; [|lia].
    rewrite E0 in HE. simpl in HE. lia. }
  destruct (Zdigits2_bounds (a / b) Hq0) as [Hlo _].
  pose proof (Z.div_mod a b ltac:(lia)) as Hab.
  pose proof (Z.mod_pos_bound a b Hb) as Hr.
  assert (HEe : E - e = Zdigits2 (a / b) - 53) by lia.
  assert (Hp : 0 < 2 ^ (E - e)) by (apply pow2_pos; lia).
  assert (Hpow : 2 ^ (Zdigits2 (a / b) - 1) = 2 ^ 52 * 2 ^ (E - e)).
  { rewrite <- Z.pow_add_r by lia. f_equal. lia. }
  apply rhe_ge; nia.
Qed.

(** The result of the rounding is a canonical number. *)
Lemma round_frac_valid s a b e :
  0 <= a -> 0 < b -> fine a b e ->
  PyFloat.valid (round_frac s a b e) = true.
Proof.
  intros Ha Hb Hf.
  pose proof (rhe_le_pow53 a b e Ha Hb Hf) as [HM0 HM].
  pose proof (rhe_ge_pow52 a b e Ha Hb Hf) as HM52.
  pose proof (grid_exp_eq a b e) as HE.
  unfold round_frac, renorm, pack.
  set (E := grid_exp a b e) in *.
  set (M := rhe a (b * 2 ^ (E - e))) in *.
  change (2 ^ PyFloat.prec) with (2 ^ 53).
  change (2 ^ (PyFloat.prec - 1)) with (2 ^ 52).
  change (PyFloat.emax - PyFloat.prec) with 971.
  destruct (Z.eqb_spec M (2 ^ 53)) as [EM|NM]; cbn [fst snd].
  - change (2 ^ 52) with (Zpos (2 ^ 52)).
    destruct (Z.leb_spec (E + 1) 971) as [Hle|Hgt]; [|reflexivity].
    unfold PyFloat.valid, valid_binary, bounded, canonical_mantissa.
    change (PyFloat.emax - PyFloat.prec) with 971.
    rewrite fexp_eq. change (Z.pos (digits2_pos (2 ^ 52))) with 53.
    apply andb_true_iff. split; [apply Z.eqb_eq|apply Z.leb_le]; lia.
  - destruct M as [|m|m] eqn:EqM; [reflexivity| |reflexivity].
    destruct (Z.leb_spec E 971) as [Hle|Hgt]; [|reflexivity].
    unfold PyFloat.valid, valid_binary, bounded, canonical_mantissa.
    change (PyFloat.emax - PyFloat.prec) with 971.
    rewrite fexp_eq.
    change (Z.pos (digits2_pos m)) with (Zdigits2 (Zpos m)).
    pose proof (Zdigits2_below (Zpos m) ltac:(lia)) as Hd.
    apply andb_true_iff. split; [apply Z.eqb_eq|apply Z.leb_le; lia].
    destruct (Z.eq_dec E (-1074)) as [Emin|Hne]; [lia|].
    assert (H52 : 2 ^ 52 <= Zpos m) by (apply HM52; lia).
    assert (Zdigits2 (Zpos m) = 53).
    { apply Zdigits2_unique; lia. }
    lia.
Qed.

(** Scaling the numerator by a power of two against the exponent does not
    move the grid, nor the result. *)
Lemma grid_exp_scale a b e k :
  0 <= a -> 0 < b -> 0 <= k -> fine a b e ->
  grid_exp (a * 2 ^ k) b (e - k) = grid_exp a b e.
Proof.
  intros Ha Hb Hk Hf. unfold fine in Hf.
  rewrite !grid_exp_eq in *.
  pose proof (Z.div_pos a b Ha Hb) as Hq.
  pose proof (pow2_pos k Hk) as Hp.
  pose proof (Z.div_mod a b ltac:(lia)) as Hab.
  pose proof (Z.mod_pos_bound a b Hb) as Hr.
  assert (Hlo : a / b * 2 ^ k <= a * 2 ^ k / b).
  { apply Z.div_le_lower_bound; nia. }
  assert (Hhi : a * 2 ^ k / b < (a / b + 1) * 2 ^ k).
  { apply Z.div_lt_upper_bound; nia. }
  destruct (Z.eq_dec (a / b) 0) as [E0|Hn].
  - rewrite E0 in *. simpl Zdigits2 in *.
    assert (Hd : Zdigits2 (a * 2 ^ k / b) <= k).
    { destruct (Z.eq_dec (a * 2 ^ k / b) 0) as [->|Hn']; [simpl; lia|].
      destruct (Zdigits2_bounds (a * 2 ^ k / b) ltac:(lia)) as [Hl _].
      pose proof (Zdigits2_pos (a * 2 ^ k / b) ltac:(lia)).
      assert (Zdigits2 (a * 2 ^ k / b) - 1 < k)
        by (apply (Z.pow_lt_mono_r_iff 2); lia).
      lia. }
    lia.
  - destruct (Zdigits2_bounds (a / b) ltac:(lia)) as [Hl Hh].
    pose proof (Zdigits2_pos (a / b) ltac:(lia)) as Hd.
    assert (Hdig : Zdigits2 (a * 2 ^ k / b) = Zdigits2 (a / b) + k).
    { apply Zdigits2_unique; [|nia].
      replace (Zdigits2 (a / b) + k - 1) with (Zdigits2 (a / b) - 1 + k) by lia.
      rewrite !Z.pow_add_r by lia. nia. }
    rewrite Hdig. f_equal. lia.
Qed.

Lemma fine_scale a b e k :
  0 <= a -> 0 < b -> 0 <= k -> fine a b e -> fine (a * 2 ^ k) b (e - k).
Proof.
  intros Ha Hb Hk Hf. unfold fine.
  rewrite grid_exp_scale by assumption. unfold fine in Hf. lia.
Qed.

Lemma round_frac_scale s a b e k :
  0 <= a -> 0 < b -> 0 <= k -> fine a b e ->
  round_frac s (a * 2 ^ k) b (e - k) = round_frac s a b e.
Proof.
  intros Ha Hb Hk Hf. unfold round_frac.
  rewrite grid_exp_scale by assumption.
  unfold fine in Hf. set (E := grid_exp a b e) in *.
  replace (E - (e - k)) with (E - e + k) by lia.
  rewrite Z.pow_add_r by lia.
  replace (b * (2 ^ (E - e) * 2 ^ k)) with (b * 2 ^ (E - e) * 2 ^ k) by ring.
  pose proof (pow2_pos (E - e) ltac:(lia)).
  rewrite rhe_scale by (try apply pow2_pos; nia).
  reflexivity.
Qed.

(** The order of two packed numbers. *)
Lemma pack_le m1 e1 m2 e2 :
  0 <= m1 -> 0 <= m2 ->
  m1 = 0 \/ (0 < m2 /\ (e1 < e2 \/ (e1 = e2 /\ m1 <= m2))) ->
  PyFloat.leb (pack false (m1, e1)) (pack false (m2, e2)) = true.
Proof.
  intros H1 H2 H. unfold pack; cbn [fst snd].
  change (PyFloat.emax - PyFloat.prec) with 971.
  destruct m1 as [|p1|p1]; [|clear H1|lia].
  - destruct m2 as [|p2|p2]; [reflexivity| |lia].
    destruct (e2 <=? 971); reflexivity.
  - destruct H as [H|[Hm2 H]]; [discriminate|].
    destruct m2 as [|p2|p2]; try lia.
    destruct (Z.leb_spec e1 971), (Z.leb_spec e2 971); try reflexivity; try lia.
    unfold PyFloat.leb, SFleb, SFcompare.
    destruct H as [Hlt|[-> Hle]].
    + apply Z.compare_lt_iff in Hlt. rewrite Hlt. reflexivity.
    + rewrite Z.compare_refl.
      change (Pos.compare_cont Eq p1 p2) with (Pos.compare p1 p2).
      destruct (Pos.compare_spec p1 p2); try reflexivity. lia.
Qed.

(** At one exponent, the rounding follows the order of the numerators. *)
Lemma round_frac_mono_num a1 a2 b e :
  0 <= a1 <= a2 -> 0 < b -> fine a1 b e -> fine a2 b e ->
  PyFloat.leb (round_frac false a1 b e) (round_frac false a2 b e) = true.
Proof.
  intros [Ha1 Ha12] Hb Hf1 Hf2.
  assert (Ha2 : 0 <= a2) by lia.
  pose proof (rhe_le_pow53 a1 b e Ha1 Hb Hf1) as [HM10 HM1].
  pose proof (rhe_le_pow53 a2 b e Ha2 Hb Hf2) as [HM20 HM2].
  pose proof (rhe_ge_pow52 a2 b e Ha2 Hb Hf2) as HM52.
  pose proof (grid_exp_eq a1 b e) as HE1.
  pose proof (grid_exp_eq a2 b e) as HE2.
  assert (Hd : Zdigits2 (a1 / b) <= Zdigits2 (a2 / b)).
  { apply Zdigits2_le. split; [apply Z.div_pos; lia|].
    apply Z.div_le_mono; lia. }
  assert (Hmono : grid_exp a1 b e = grid_exp a2 b e ->
                  rhe a1 (b * 2 ^ (grid_exp a1 b e - e))
                  <= rhe a2 (b * 2 ^ (grid_exp a2 b e - e))).
  { intros ->. unfold fine in Hf2.
    pose proof (pow2_pos (grid_exp a2 b e - e) ltac:(lia)).
    apply rhe_mono; nia. }
  unfold round_frac, renorm.
  set (E1 := grid_exp a1 b e) in *. set (E2 := grid_exp a2 b e) in *.
  set (M1 := rhe a1 (b * 2 ^ (E1 - e))) in *.
  set (M2 := rhe a2 (b * 2 ^ (E2 - e))) in *.
  change (2 ^ PyFloat.prec) with (2 ^ 53).
  change (2 ^ (PyFloat.prec - 1)) with (2 ^ 52).
  assert (HE : E1 <= E2) by lia.
  destruct (Z.eqb_spec M1 (2 ^ 53)), (Z.eqb_spec M2 (2 ^ 53));
    apply pack_le; lia.
Qed.

(** The order of the values is independent of the exponent it is taken at. *)
Lemma val_le_at m1 e1 m2 e2 k :
  k <= e1 -> k <= e2 ->
  (val_le m1 e1 m2 e2 <-> m1 * 2 ^ (e1 - k) <= m2 * 2 ^ (e2 - k)).
Proof.
  intros H1 H2. unfold val_le.
  set (m := Z.min e1 e2).
  assert (Hm : k <= m) by (unfold m; lia).
  replace (e1 - k) with (e1 - m + (m - k)) by lia.
  replace (e2 - k) with (e2 - m + (m - k)) by lia.
  rewrite !Z.pow_add_r by (unfold m; lia).
  pose proof (pow2_pos (m - k) ltac:(lia)).
  split; intros; nia.
Qed.

(** The rounding follows the order of the values. *)
Theorem round_frac_mono a1 e1 a2 e2 b :
  0 <= a1 -> 0 <= a2 -> 0 < b ->
  fine a1 b e1 -> fine a2 b e2 ->
  val_le a1 e1 a2 e2 ->
  PyFloat.leb (round_frac false a1 b e1) (round_frac false a2 b e2) = true.
Proof.
  intros Ha1 Ha2 Hb Hf1 Hf2 Hv.
  set (k := Z.min e1 e2).
  rewrite <- (round_frac_scale false a1 b e1 (e1 - k)) by (unfold k; lia || assumption).
  rewrite <- (round_frac_scale false a2 b e2 (e2 - k)) by (unfold k; lia || assumption).
  replace (e1 - (e1 - k)) with k by lia.
  replace (e2 - (e2 - k)) with k by lia.
  pose proof (pow2_pos (e1 - k) ltac:(unfold k; lia)).
  apply round_frac_mono_num.
  - split; [nia|]. exact Hv.
  - assumption.
  - replace k with (e1 - (e1 - k)) at 2 by lia.
    apply fine_scale; (unfold k; lia) || assumption.
  - replace k with (e2 - (e2 - k)) at 2 by lia.
    apply fine_scale; (unfold k; lia) || assumption.
Qed.

End GridFacts.

Module StageFacts.
Import Round DigitFacts ShiftFacts RheFacts RoundFacts GridFacts FloatSign.

Lemma round_aux_exact s a e :
  0 <= a -> fine a 1 e ->
  round_aux s a e loc_Exact = round_frac s a 1 e.
Proof.
  intros Ha Hf.
  rewrite <- (round_aux_frac s a 1 e Ha ltac:(lia) Hf).
  rewrite Z.div_1_r. unfold loc_frac. rewrite Z.mod_1_r. reflexivity.
Qed.

(** What [bounded] says of a mantissa and an exponent. *)
Lemma bounded_spec m e :
  bounded PyFloat.prec PyFloat.emax m e = true ->
  -1074 <= e <= 971 /\ Zdigits2 (Zpos m) <= 53 /\
  (-1074 < e -> Zdigits2 (Zpos m) = 53).
Proof.
  unfold bounded, canonical_mantissa. rewrite fexp_eq.
  change (PyFloat.emax - PyFloat.prec) with 971.
  change (Z.pos (digits2_pos m)) with (Zdigits2 (Zpos m)).
  intros H. apply andb_true_iff in H as [H1 H2].
  apply Z.eqb_eq in H1. apply Z.leb_le in H2. lia.
Qed.

Lemma bounded_range m e :
  bounded PyFloat.prec PyFloat.emax m e = true ->
  Zpos m < 2 ^ 53 /\ (-1074 < e -> 2 ^ 52 <= Zpos m).
Proof.
  intros H. destruct (bounded_spec m e H) as (He & Hd & Hn).
  destruct (Zdigits2_bounds (Zpos m) ltac:(lia)) as [Hlo Hhi].
  split.
  - assert (2 ^ Zdigits2 (Zpos m) <= 2 ^ 53) by (apply Z.pow_le_mono_r; lia).
    lia.
  - intros Hgt. rewrite (Hn Hgt) in Hlo. exact Hlo.
Qed.

(** On canonical numbers the comparison is the order of the values. *)
Lemma leb_val_le m1 e1 m2 e2 :
  bounded PyFloat.prec PyFloat.emax m1 e1 = true ->
  bounded PyFloat.prec PyFloat.emax m2 e2 = true ->
  PyFloat.leb (S754_finite false m1 e1) (S754_finite false m2 e2) = true ->
  val_le (Zpos m1) e1 (Zpos m2) e2.
Proof.
  intros B1 B2 H.
  destruct (bounded_spec m1 e1 B1) as (He1 & _ & _).
  destruct (bounded_spec m2 e2 B2) as (He2 & _ & _).
  destruct (bounded_range m1 e1 B1) as (Hm1 & _).
  destruct (bounded_range m2 e2 B2) as (_ & Hm2).
  unfold PyFloat.leb, SFleb, SFcompare in H.
  destruct (Z.compare_spec e1 e2) as [Eq|Hlt|Hgt]; [| |discriminate H].
  - subst e2. unfold val_le. rewrite Z.min_id, Z.sub_diag.
    change (Pos.compare_cont Eq m1 m2) with (Pos.compare m1 m2) in H.
    destruct (Pos.compare_spec m1 m2); try discriminate H; simpl; lia.
  - apply (val_le_at _ _ _ _ e1); [lia|lia|].
    rewrite Z.sub_diag.
    replace (e2 - e1) with (e2 - e1 - 1 + 1) by lia.
    rewrite Z.pow_add_r by lia.
    pose proof (pow2_pos (e2 - e1 - 1) ltac:(lia)).
    specialize (Hm2 ltac:(lia)). simpl (2 ^ 0). nia.
Qed.

Lemma val_le_mul_l c ec m1 e1 m2 e2 :
  0 <= c -> val_le m1 e1 m2 e2 -> val_le (c * m1) (ec + e1) (c * m2) (ec + e2).
Proof.
  intros Hc H. unfold val_le in *.
  replace (Z.min (ec + e1) (ec + e2)) with (ec + Z.min e1 e2) by lia.
  replace (ec + e1 - (ec + Z.min e1 e2)) with (e1 - Z.min e1 e2) by lia.
  replace (ec + e2 - (ec + Z.min e1 e2)) with (e2 - Z.min e1 e2) by lia.
  nia.
Qed.

(** Numbers that are ordered and not below zero. *)
Lemma leb_zero_l s y :
  ordered y = true -> not_negative y = true ->
  PyFloat.leb (S754_zero s) y = true.
Proof.
  destruct y as [sy|[|]| |[|] my ey]; simpl; intros H1 H2;
    try discriminate; reflexivity.
Qed.

Lemma ascending_zero_l s y :
  ordered y = true -> not_negative y = true -> ascending (S754_zero s) y.
Proof.
  intros H1 H2. unfold ascending. repeat split; try assumption.
  apply leb_zero_l; assumption.
Qed.

Lemma round_frac_ordered a b e :
  0 <= a -> 0 < b -> fine a b e ->
  ordered (round_frac false a b e) = true /\
  not_negative (round_frac false a b e) = true.
Proof.
  intros Ha Hb Hf.
  pose proof (round_frac_valid false a b e Ha Hb Hf) as Hv.
  pose proof (rhe_le_pow53 a b e Ha Hb Hf) as [HM0 _].
  unfold ordered. rewrite Hv.
  unfold round_frac, renorm, pack in *.
  destruct (_ =? _); cbn [fst snd] in *.
  - change (2 ^ (PyFloat.prec - 1)) with (Zpos (2 ^ 52)).
    cbv iota. destruct (_ <=? _); split; reflexivity.
  - destruct (PyFloat.round_half_even_frac a _) as [|m|m]; [split; reflexivity| |lia].
    destruct (_ <=? _); split; reflexivity.
Qed.

Lemma round_frac_ascending a1 e1 a2 e2 b :
  0 <= a1 -> 0 <= a2 -> 0 < b ->
  fine a1 b e1 -> fine a2 b e2 ->
  val_le a1 e1 a2 e2 ->
  ascending (round_frac false a1 b e1) (round_frac false a2 b e2).
Proof.
  intros Ha1 Ha2 Hb Hf1 Hf2 Hv.
  destruct (round_frac_ordered a1 b e1 Ha1 Hb Hf1) as [O1 N1].
  destruct (round_frac_ordered a2 b e2 Ha2 Hb Hf2) as [O2 N2].
  unfold ascending. repeat split; try assumption.
  apply round_frac_mono; assumption.
Qed.

(** *** Multiplication by a fixed number *)

Lemma Zdigits2_mul_ge m1 m2 :
  0 < m1 -> 0 < m2 -> Zdigits2 m1 + Zdigits2 m2 - 1 <= Zdigits2 (m1 * m2).
Proof.
  intros H1 H2.
  destruct (Zdigits2_bounds m1 H1) as [L1 _].
  destruct (Zdigits2_bounds m2 H2) as [L2 _].
  pose proof (Zdigits2_pos m1 H1). pose proof (Zdigits2_pos m2 H2).
  destruct (Zdigits2_bounds (m1 * m2) ltac:(nia)) as [_ U].
  assert (Hp : 2 ^ (Zdigits2 m1 - 1 + (Zdigits2 m2 - 1)) <= m1 * m2).
  { rewrite Z.pow_add_r by lia. nia. }
  assert (Zdigits2 m1 - 1 + (Zdigits2 m2 - 1) < Zdigits2 (m1 * m2)).
  { apply (Z.pow_lt_mono_r_iff 2); [lia| |lia].
    pose proof (Zdigits2_nonneg (m1 * m2)). lia. }
  lia.
Qed.

Lemma mul_fine mc ec mx ex :
  bounded PyFloat.prec PyFloat.emax mc ec = true ->
  bounded PyFloat.prec PyFloat.emax mx ex = true ->
  fine (Zpos mc * Zpos mx) 1 (ec + ex).
Proof.
  intros Bc Bx.
  destruct (bounded_spec mc ec Bc) as (Hec & Hdc & Hnc).
  destruct (bounded_spec mx ex Bx) as (Hex & Hdx & Hnx).
  unfold fine. rewrite grid_exp_eq, Z.div_1_r.
  pose proof (Zdigits2_mul_ge (Zpos mc) (Zpos mx) ltac:(lia) ltac:(lia)) as Hd.
  pose proof (Zdigits2_pos (Zpos mc) ltac:(lia)).
  pose proof (Zdigits2_pos (Zpos mx) ltac:(lia)).
  destruct (Z.eq_dec ec (-1074)) as [Ec|Nc]; [|specialize (Hnc ltac:(lia)); lia].
  destruct (Z.eq_dec ex (-1074)) as [Ex|Nx]; [lia|specialize (Hnx ltac:(lia)); lia].
Qed.

Lemma mul_finite sc mc ec sx mx ex :
  bounded PyFloat.prec PyFloat.emax mc ec = true ->
  bounded PyFloat.prec PyFloat.emax mx ex = true ->
  PyFloat.mul (S754_finite sc mc ec) (S754_finite sx mx ex)
  = round_frac (xorb sc sx) (Zpos mc * Zpos mx) 1 (ec + ex).
Proof.
  intros Bc Bx. unfold PyFloat.mul, SFmul.
  change (Z.pos (mc * mx)) with (Zpos mc * Zpos mx).
  apply round_aux_exact; [lia|]. apply mul_fine; assumption.
Qed.

Lemma ordered_finite s m e :
  ordered (S754_finite s m e) = true ->
  bounded PyFloat.prec PyFloat.emax m e = true.
Proof.
  unfold ordered, PyFloat.valid; simpl. rewrite andb_true_r. tauto.
Qed.

(** Multiplication by a finite number that is not below zero keeps the
    order of finite numbers that are not below zero. *)
Lemma mul_ascending c x1 x2 :
  ordered c = true -> not_negative c = true -> is_finite c = true ->
  is_finite x1 = true -> is_finite x2 = true ->
  ascending x1 x2 ->
  ascending (PyFloat.mul c x1) (PyFloat.mul c x2).
Proof.
  intros Oc Nc Fc F1 F2 (O1 & O2 & N1 & N2 & Hle).
  destruct c as [sc|sc| |[|] mc ec]; try discriminate.
  - (* c is a zero *)
    destruct x1 as [s1|s1| |s1 m1 e1]; try discriminate;
      destruct x2 as [s2|s2| |s2 m2 e2]; try discriminate;
      apply ascending_zero_l; reflexivity.
  - pose proof (ordered_finite _ _ _ Oc) as Bc.
    destruct x1 as [s1|s1| |[|] m1 e1]; try discriminate;
      destruct x2 as [s2|s2| |[|] m2 e2]; try discriminate.
    + apply ascending_zero_l; reflexivity.
    + pose proof (ordered_finite _ _ _ O2) as B2.
      change (PyFloat.mul (S754_finite false mc ec) (S754_zero s1))
        with (S754_zero s1).
      rewrite mul_finite by assumption. cbn [xorb].
      apply ascending_zero_l;
        apply round_frac_ordered; try lia; apply mul_fine; assumption.
    + pose proof (ordered_finite _ _ _ O1) as B1.
      pose proof (ordered_finite _ _ _ O2) as B2.
      rewrite !mul_finite by assumption. cbn [xorb].
      apply round_frac_ascending; try lia; try (apply mul_fine; assumption).
      apply val_le_mul_l; [lia|]. apply leb_val_le; assumption.
Qed.

End StageFacts.

Module DivFacts.
Import Round DigitFacts ShiftFacts RheFacts RoundFacts GridFacts FloatSign StageFacts.

Lemma div_eucl_eq a b : Z.div_eucl a b = (a / b, a mod b).
Proof.
  unfold Z.div, Z.modulo. destruct (Z.div_eucl a b). reflexivity.
Qed.

Lemma odd_decompose b : Z.even b = false -> b = 2 * (b / 2) + 1.
Proof.
  intros E. rewrite Zeven_mod in E. apply Z.eqb_neq in E.
  pose proof (Z.mod_pos_bound b 2 ltac:(lia)).
  pose proof (Z.div_mod b 2 ltac:(lia)). lia.
Qed.

Lemma new_location_frac a b :
  0 < b -> new_location b (a mod b) = loc_frac a b.
Proof.
  intros Hb. unfold new_location, new_location_even, new_location_odd, loc_frac.
  pose proof (Z.mod_pos_bound a b Hb) as Hr.
  destruct (Z.even b) eqn:Ev; destruct (a mod b =? 0); try reflexivity.
  apply odd_decompose in Ev. f_equal.
  destruct (Z.compare_spec (2 * (a mod b) + 1) b),
           (Z.compare_spec (2 * (a mod b)) b); try reflexivity; lia.
Qed.

(** The quotient that [SFdiv] hands to the rounding is a truncated
    fraction with enough bits. *)
Lemma div_core_frac m1 e1 m2 e2 :
  exists a e',
    SFdiv_core_binary PyFloat.prec PyFloat.emax (Zpos m1) e1 (Zpos m2) e2
      = (a / Zpos m2, e', loc_frac a (Zpos m2)) /\
    e' <= e1 - e2 /\
    a = Zpos m1 * 2 ^ (e1 - e2 - e') /\
    fine a (Zpos m2) e'.
Proof.
  unfold SFdiv_core_binary. rewrite fexp_eq.
  set (d1 := Zdigits2 (Zpos m1)). set (d2 := Zdigits2 (Zpos m2)).
  set (e' := Z.min (Z.max (d1 + e1 - (d2 + e2) - 53) (-1074)) (e1 - e2)).
  set (s := e1 - e2 - e').
  assert (Hs : 0 <= s) by (unfold s, e'; lia).
  set (m' := match s with
             | 0 => Zpos m1 | Zpos _ => Z.shiftl (Zpos m1) s | Zneg _ => 0
             end).
  assert (Hm' : m' = Zpos m1 * 2 ^ s).
  { unfold m'. destruct s as [|p|p] eqn:Es; [simpl; lia| |lia].
    apply Z.shiftl_mul_pow2. lia. }
  exists m', e'. rewrite div_eucl_eq.
  rewrite new_location_frac by lia.
  split; [reflexivity|]. split; [unfold e'; lia|]. split; [exact Hm'|].
  (* enough bits *)
  unfold fine. rewrite grid_exp_eq.
  destruct (Z_le_gt_dec e' (-1074)) as [Hmin|Hgt]; [lia|].
  assert (Hn : 53 <= d1 + s - d2) by (unfold s, e' in *; lia).
  destruct (Zdigits2_bounds (Zpos m1) ltac:(lia)) as [L1 _].
  destruct (Zdigits2_bounds (Zpos m2) ltac:(lia)) as [_ U2].
  fold d1 in L1. fold d2 in U2.
  pose proof (Zdigits2_pos (Zpos m1) ltac:(lia)) as P1. fold d1 in P1.
  pose proof (Zdigits2_pos (Zpos m2) ltac:(lia)) as P2. fold d2 in P2.
  pose proof (pow2_pos s Hs) as Hps.
  assert (Hq : 2 ^ (d1 + s - d2 - 1) <= m' / Zpos m2).
  { apply Z.div_le_lower_bound; [lia|].
    assert (Hpow : 2 ^ (d1 + s - d2 - 1) * 2 ^ d2 = 2 ^ (d1 - 1) * 2 ^ s).
    { rewrite <- !Z.pow_add_r by lia. f_equal. lia. }
    pose proof (pow2_pos (d1 + s - d2 - 1) ltac:(lia)).
    rewrite Hm'. nia. }
  assert (Hq0 : 0 < m' / Zpos m2).
  { pose proof (pow2_pos (d1 + s - d2 - 1) ltac:(lia)). lia. }
  destruct (Zdigits2_bounds (m' / Zpos m2) Hq0) as [_ Uq].
  assert (d1 + s - d2 - 1 < Zdigits2 (m' / Zpos m2)).
  { apply (Z.pow_lt_mono_r_iff 2); [lia| |lia].
    apply Zdigits2_nonneg. }
  unfold s, e' in *. lia.
Qed.

Lemma div_finite s1 m1 e1 s2 m2 e2 :
  exists a e',
    PyFloat.div (S754_finite s1 m1 e1) (S754_finite s2 m2 e2)
      = round_frac (xorb s1 s2) a (Zpos m2) e' /\
    e' <= e1 - e2 /\
    a = Zpos m1 * 2 ^ (e1 - e2 - e') /\
    fine a (Zpos m2) e'.
Proof.
  destruct (div_core_frac m1 e1 m2 e2) as (a & e' & Hc & He & Ha & Hf).
  exists a, e'. split; [|auto].
  unfold PyFloat.div, SFdiv. rewrite Hc.
  apply round_aux_frac; [|lia|assumption].
  rewrite Ha. pose proof (pow2_pos (e1 - e2 - e') ltac:(lia)). nia.
Qed.

(** Division by a fixed number above zero keeps the order of the values. *)
Lemma div_val_ascending m1 e1 m2 e2 mk ek :
  val_le (Zpos m1) e1 (Zpos m2) e2 ->
  ascending (PyFloat.div (S754_finite false m1 e1) (S754_finite false mk ek))
            (PyFloat.div (S754_finite false m2 e2) (S754_finite false mk ek)).
Proof.
  intros Hv.
  destruct (div_finite false m1 e1 false mk ek) as (a1 & e1' & -> & He1 & Ha1 & Hf1).
  destruct (div_finite false m2 e2 false mk ek) as (a2 & e2' & -> & He2 & Ha2 & Hf2).
  pose proof (pow2_pos (e1 - ek - e1') ltac:(lia)).
  pose proof (pow2_pos (e2 - ek - e2') ltac:(lia)).
  cbn [xorb]. apply round_frac_ascending; try nia; try assumption.
  set (K := Z.min e1' e2').
  apply (val_le_at _ _ _ _ K); [unfold K; lia|unfold K; lia|].
  apply (val_le_at _ _ _ _ (K + ek)) in Hv; [|unfold K; lia|unfold K; lia].
  rewrite Ha1, Ha2, <- !Z.mul_assoc, <- !Z.pow_add_r by (unfold K; lia).
  replace (e1 - ek - e1' + (e1' - K)) with (e1 - (K + ek)) by lia.
  replace (e2 - ek - e2' + (e2' - K)) with (e2 - (K + ek)) by lia.
  exact Hv.
Qed.

Lemma div_finite_ordered m e mk ek :
  ordered (PyFloat.div (S754_finite false m e) (S754_finite false mk ek)) = true /\
  not_negative (PyFloat.div (S754_finite false m e) (S754_finite false mk ek)) = true.
Proof.
  destruct (div_finite false m e false mk ek) as (a & e' & -> & He & Ha & Hf).
  pose proof (pow2_pos (e - ek - e') ltac:(lia)).
  apply round_frac_ordered; try nia; assumption.
Qed.

Lemma leb_infinity_r x :
  ordered x = true -> PyFloat.leb x (S754_infinity false) = true.
Proof.
  destruct x as [s|[|]| |[|] m e]; simpl; intros H; try discriminate; reflexivity.
Qed.

Lemma div_ascending x1 x2 mk ek :
  ascending x1 x2 ->
  ascending (PyFloat.div x1 (S754_finite false mk ek))
            (PyFloat.div x2 (S754_finite false mk ek)).
Proof.
  intros (O1 & O2 & N1 & N2 & Hle).
  destruct x1 as [s1|[|]| |[|] m1 e1]; try discriminate;
    destruct x2 as [s2|[|]| |[|] m2 e2]; try discriminate.
  - apply ascending_zero_l; reflexivity.
  - apply ascending_zero_l; reflexivity.
  - apply ascending_zero_l; apply div_finite_ordered.
  - unfold ascending. repeat split; reflexivity.
  - destruct (div_finite_ordered m1 e1 mk ek) as [Od Nd].
    unfold ascending. repeat split; try assumption; try reflexivity.
    apply leb_infinity_r. assumption.
  - apply div_val_ascending. apply leb_val_le; try assumption;
      apply ordered_finite with (s := false); assumption.
Qed.

End DivFacts.

Module PipelineFacts.
Import Round DigitFacts ShiftFacts RheFacts RoundFacts GridFacts FloatSign
       StageFacts DivFacts.

(** A canonical number is its own rounding. *)
Lemma round_frac_canonical s m e :
  bounded PyFloat.prec PyFloat.emax m e = true ->
  fine (Zpos m) 1 e /\ round_frac s (Zpos m) 1 e = S754_finite s m e.
Proof.
  intros B. destruct (bounded_spec m e B) as (He & Hd & Hn).
  destruct (bounded_range m e B) as (Hm & _).
  assert (HE : grid_exp (Zpos m) 1 e = e).
  { rewrite grid_exp_eq, Z.div_1_r.
    destruct (Z.eq_dec e (-1074)); [lia|]. rewrite Hn by lia. lia. }
  split; [unfold fine; lia|].
  unfold round_frac. rewrite HE, Z.sub_diag.
  change (1 * 2 ^ 0) with 1.
  replace (PyFloat.round_half_even_frac (Zpos m) 1) with (Zpos m)
    by (symmetry; rewrite <- (Z.mul_1_r (Zpos m)) at 1; apply rhe_exact; lia).
  unfold renorm. change (2 ^ PyFloat.prec) with (2 ^ 53).
  destruct (Z.eqb_spec (Zpos m) (2 ^ 53)) as [E|_]; [lia|].
  unfold pack; cbn [fst snd]. change (PyFloat.emax - PyFloat.prec) with 971.
  destruct (Z.leb_spec e 971); [reflexivity|lia].
Qed.

(** On canonical numbers the order of the values is the comparison. *)
Lemma canonical_ascending m1 e1 m2 e2 :
  bounded PyFloat.prec PyFloat.emax m1 e1 = true ->
  bounded PyFloat.prec PyFloat.emax m2 e2 = true ->
  val_le (Zpos m1) e1 (Zpos m2) e2 ->
  ascending (S754_finite false m1 e1) (S754_finite false m2 e2).
Proof.
  intros B1 B2 Hv.
  destruct (round_frac_canonical false m1 e1 B1) as [F1 <-].
  destruct (round_frac_canonical false m2 e2 B2) as [F2 <-].
  apply round_frac_ascending; try lia; assumption.
Qed.

(** *** The conversion of the day count *)

Lemma iter_xO_pow m d : Zpos (Pos.iter xO m d) = Zpos m * 2 ^ Zpos d.
Proof.
  induction d as [|d IH] using Pos.peano_ind.
  - cbn [Pos.iter]. rewrite Z.pow_1_r. lia.
  - rewrite Pos.iter_succ, Pos2Z.inj_succ, Z.pow_succ_r by lia.
    change (Z.pos (Pos.iter xO m d)~0) with (2 * Zpos (Pos.iter xO m d)).
    rewrite IH. ring.
Qed.

Lemma shl_align_spec m e e' :
  e' <= e ->
  exists m', shl_align m e e' = (m', e') /\ Zpos m' = Zpos m * 2 ^ (e - e').
Proof.
  intros H. unfold shl_align.
  destruct (e' - e) as [|p|p] eqn:E; try lia.
  - exists m. assert (e' = e) as -> by lia.
    rewrite Z.sub_diag. split; [reflexivity|simpl; lia].
  - exists (Pos.iter xO m p). split; [reflexivity|].
    rewrite iter_xO_pow. f_equal. f_equal. lia.
Qed.

Lemma of_int_small z :
  0 < z < 2 ^ 53 ->
  exists m e,
    PyFloat.of_int z = S754_finite false m e /\
    bounded PyFloat.prec PyFloat.emax m e = true /\
    e <= 0 /\ Zpos m = z * 2 ^ (- e).
Proof.
  intros [Hz0 Hz]. destruct z as [|p|p]; try lia.
  unfold PyFloat.of_int, binary_normalize, binary_round.
  rewrite fexp_eq.
  change (Z.pos (digits2_pos p)) with (Zdigits2 (Zpos p)).
  pose proof (Zdigits2_below (Zpos p) ltac:(lia)) as Hd.
  pose proof (Zdigits2_pos (Zpos p) ltac:(lia)) as Hd0.
  set (d := Zdigits2 (Zpos p)) in *.
  replace (Z.max (d + 0 - 53) (-1074)) with (d - 53) by lia.
  destruct (shl_align_spec p 0 (d - 53) ltac:(lia)) as (m' & -> & Hm').
  assert (Hdig : Zdigits2 (Zpos m') = 53).
  { rewrite Hm'. rewrite Zdigits2_mul_pow2 by lia. fold d. lia. }
  assert (B : bounded PyFloat.prec PyFloat.emax m' (d - 53) = true).
  { unfold bounded, canonical_mantissa. rewrite fexp_eq.
    change (PyFloat.emax - PyFloat.prec) with 971.
    change (Z.pos (digits2_pos m')) with (Zdigits2 (Zpos m')).
    rewrite Hdig. apply andb_true_iff.
    split; [apply Z.eqb_eq|apply Z.leb_le]; lia. }
  destruct (round_frac_canonical false m' (d - 53) B) as [F E].
  exists m', (d - 53). split; [|split; [exact B|split; [lia|]]].
  - rewrite round_aux_exact by (lia || assumption). exact E.
  - rewrite Hm'. replace (0 - (d - 53)) with (- (d - 53)) by lia. reflexivity.
Qed.

Lemma of_int_ascending z1 z2 :
  0 <= z1 <= z2 -> z2 < 2 ^ 53 ->
  ascending (PyFloat.of_int z1) (PyFloat.of_int z2) /\
  is_finite (PyFloat.of_int z1) = true /\
  is_finite (PyFloat.of_int z2) = true.
Proof.
  intros [H1 H12] H2.
  destruct (Z.eq_dec z2 0) as [->|N2].
  { assert (z1 = 0) as -> by lia. repeat split; reflexivity. }
  destruct (of_int_small z2 ltac:(lia)) as (m2 & e2 & -> & B2 & He2 & Hm2).
  destruct (Z.eq_dec z1 0) as [->|N1].
  { split; [|split; reflexivity].
    apply ascending_zero_l; unfold ordered, PyFloat.valid; simpl;
      [rewrite B2|]; reflexivity. }
  destruct (of_int_small z1 ltac:(lia)) as (m1 & e1 & -> & B1 & He1 & Hm1).
  split; [|split; reflexivity].
  apply canonical_ascending; try assumption.
  set (K := Z.min e1 e2).
  apply (val_le_at _ _ _ _ K); [unfold K; lia|unfold K; lia|].
  rewrite Hm1, Hm2, <- !Z.mul_assoc, <- !Z.pow_add_r by (unfold K; lia).
  replace (- e1 + (e1 - K)) with (- K) by lia.
  replace (- e2 + (e2 - K)) with (- K) by lia.
  pose proof (pow2_pos (- K) ltac:(unfold K; lia)). nia.
Qed.

(** *** The rounding to two places *)

Lemma hundredths_scaled m e K :
  K <= e -> K <= 0 ->
  PyFloat.hundredths m e = rhe (Zpos m * 100 * 2 ^ (e - K)) (2 ^ (- K)).
Proof.
  intros H1 H2. unfold PyFloat.hundredths.
  pose proof (pow2_pos (e - K) ltac:(lia)) as Hp.
  destruct e as [|p|p].
  - rewrite Z.pow_0_r, Z.mul_1_r. replace (0 - K) with (- K) by lia.
    symmetry. apply rhe_exact. apply pow2_pos. lia.
  - replace (2 ^ (Zpos p - K)) with (2 ^ Zpos p * 2 ^ (- K))
      by (rewrite <- Z.pow_add_r by lia; f_equal; lia).
    rewrite Z.mul_assoc. symmetry. apply rhe_exact. apply pow2_pos. lia.
  - change (Z.pow_pos 2 p) with (2 ^ Zpos p).
    replace (2 ^ (- K)) with (2 ^ Zpos p * 2 ^ (Zneg p - K))
      by (rewrite <- Z.pow_add_r by lia; f_equal; lia).
    symmetry. apply rhe_scale; [apply pow2_pos; lia|assumption].
Qed.

Lemma hundredths_mono m1 e1 m2 e2 :
  val_le (Zpos m1) e1 (Zpos m2) e2 ->
  PyFloat.hundredths m1 e1 <= PyFloat.hundredths m2 e2.
Proof.
  intros Hv. set (K := Z.min (Z.min e1 e2) 0).
  rewrite (hundredths_scaled m1 e1 K), (hundredths_scaled m2 e2 K)
    by (unfold K; lia).
  apply rhe_mono; [apply pow2_pos; unfold K; lia|].
  apply (val_le_at _ _ _ _ K) in Hv; [|unfold K; lia|unfold K; lia].
  nia.
Qed.

Lemma hundredths_nonneg m e : 0 <= PyFloat.hundredths m e.
Proof.
  rewrite (hundredths_scaled m e (Z.min e 0)) by lia.
  pose proof (pow2_pos (e - Z.min e 0) ltac:(lia)).
  apply rhe_ge; [apply pow2_pos; lia|nia].
Qed.

Lemma round2_ordered x :
  ordered x = true -> not_negative x = true ->
  ordered (PyFloat.round2 x) = true /\ not_negative (PyFloat.round2 x) = true.
Proof.
  intros O N. destruct x as [s|[|]| |[|] m e]; try discriminate;
    try (split; reflexivity).
  unfold PyFloat.round2.
  destruct (PyFloat.hundredths m e) as [|n|n]; try (split; reflexivity).
  apply div_finite_ordered.
Qed.

Lemma round2_ascending x1 x2 :
  ascending x1 x2 -> ascending (PyFloat.round2 x1) (PyFloat.round2 x2).
Proof.
  intros (O1 & O2 & N1 & N2 & Hle).
  destruct (round2_ordered x1 O1 N1) as [O1' N1'].
  destruct (round2_ordered x2 O2 N2) as [O2' N2'].
  destruct x1 as [s1|[|]| |[|] m1 e1]; try discriminate.
  - apply ascending_zero_l; assumption.
  - destruct x2 as [s2|[|]| |[|] m2 e2]; try discriminate.
    unfold ascending. repeat split; reflexivity.
  - destruct x2 as [s2|[|]| |[|] m2 e2]; try discriminate.
    + unfold ascending. repeat split; try assumption.
      apply leb_infinity_r. assumption.
    + pose proof (hundredths_mono m1 e1 m2 e2) as Hh.
      specialize (Hh (leb_val_le m1 e1 m2 e2
                        (ordered_finite _ _ _ O1) (ordered_finite _ _ _ O2) Hle)).
      pose proof (hundredths_nonneg m1 e1) as H0.
      unfold PyFloat.round2 in *.
      destruct (PyFloat.hundredths m1 e1) as [|n1|n1]; [| |lia].
      * apply ascending_zero_l; assumption.
      * destruct (PyFloat.hundredths m2 e2) as [|n2|n2]; try lia.
        apply div_val_ascending. unfold val_le. simpl. lia.
Qed.

(** *** The whole accrual *)

Lemma accrue_ascending c z1 z2 :
  ordered c = true -> not_negative c = true -> is_finite c = true ->
  0 <= z1 <= z2 -> z2 < 2 ^ 53 ->
  ascending (accrue c z1) (accrue c z2).
Proof.
  intros Oc Nc Fc Hz H2.
  destruct (of_int_ascending z1 z2 Hz H2) as (Ha & F1 & F2).
  unfold accrue. rewrite FloatSignFacts.of_int_36500.
  apply round2_ascending, div_ascending, mul_ascending; assumption.
Qed.

Lemma accrue_neg c z : z <> 0 -> accrue c (- z) = neg (accrue c z).
Proof.
  intros Hz. unfold accrue.
  rewrite FloatSignFacts.of_int_neg by assumption.
  rewrite FloatSignFacts.mul_neg_r, FloatSignFacts.div_neg_l,
    FloatSignFacts.round2_neg.
  reflexivity.
Qed.

Lemma leb_neg_swap x y :
  ascending x y -> PyFloat.leb (neg y) (neg x) = true.
Proof.
  intros (O1 & O2 & N1 & N2 & Hle).
  destruct x as [s1|[|]| |[|] m1 e1]; try discriminate;
    destruct y as [s2|[|]| |[|] m2 e2]; try discriminate; try reflexivity.
  unfold PyFloat.leb, SFleb, SFcompare, neg, SFopp in *. cbn [negb] in *.
  rewrite (Z.compare_antisym e1 e2).
  destruct (e1 ?= e2); simpl in *; try reflexivity; try discriminate.
  rewrite (Pos.compare_cont_antisym m2 m1 Eq). simpl.
  destruct (Pos.compare_cont Eq m1 m2); simpl in *; try reflexivity; discriminate.
Qed.

Lemma leb_neg_l x y :
  ordered x = true -> not_negative x = true ->
  ordered y = true -> not_negative y = true ->
  PyFloat.leb (neg x) y = true.
Proof.
  intros O1 N1 O2 N2.
  destruct x as [s1|[|]| |[|] m1 e1]; try discriminate;
    destruct y as [s2|[|]| |[|] m2 e2]; try discriminate; reflexivity.
Qed.

(** The accrual follows the day count, whatever its sign. *)
Lemma accrue_mono c z1 z2 :
  ordered c = true -> not_negative c = true -> is_finite c = true ->
  - 2 ^ 53 < z1 -> z1 <= z2 -> z2 < 2 ^ 53 ->
  PyFloat.leb (accrue c z1) (accrue c z2) = true.
Proof.
  intros Oc Nc Fc H1 H12 H2.
  destruct (Z_le_gt_dec 0 z1) as [P1|M1].
  - apply (accrue_ascending c z1 z2); try assumption. lia.
  - assert (E1 : accrue c z1 = neg (accrue c (- z1))).
    { rewrite <- accrue_neg by lia. rewrite Z.opp_involutive. reflexivity. }
    rewrite E1.
    destruct (Z_le_gt_dec 0 z2) as [P2|M2].
    + destruct (accrue_ascending c 0 (- z1) Oc Nc Fc ltac:(lia) ltac:(lia))
        as (_ & O1 & _ & N1 & _).
      destruct (accrue_ascending c 0 z2 Oc Nc Fc ltac:(lia) ltac:(lia))
        as (_ & O2 & _ & N2 & _).
      apply leb_neg_l; assumption.
    + assert (E2 : accrue c z2 = neg (accrue c (- z2))).
      { rewrite <- accrue_neg by lia. rewrite Z.opp_involutive. reflexivity. }
      rewrite E2. apply leb_neg_swap.
      apply accrue_ascending; try assumption; lia.
Qed.

(** The product of two numbers that are not below zero, when finite, is a
    number of the same kind. *)
Lemma mul_ordered x y :
  PyFloat.valid x = true -> PyFloat.valid y = true ->
  PyFloat.leb PyFloat.zero x = true -> PyFloat.leb PyFloat.zero y = true ->
  is_finite (PyFloat.mul x y) = true ->
  ordered (PyFloat.mul x y) = true /\ not_negative (PyFloat.mul x y) = true.
Proof.
  intros Vx Vy Px Py F.
  destruct x as [sx|[|]| |[|] mx ex]; try discriminate;
    destruct y as [sy|[|]| |[|] my ey]; try discriminate;
    try (split; reflexivity).
  rewrite mul_finite by assumption. cbn [xorb].
  apply round_frac_ordered; try lia. apply mul_fine; assumption.
Qed.

End PipelineFacts.

Module AddFacts.
Import Round DigitFacts ShiftFacts RheFacts RoundFacts GridFacts FloatSign
       StageFacts DivFacts PipelineFacts.

(** [binary_round] aligns the mantissa to the grid before it rounds. *)
Lemma binary_round_frac s m e :
  exists a e',
    binary_round PyFloat.prec PyFloat.emax s m e = round_frac s a 1 e' /\
    0 < a /\ e' <= e /\ a = Zpos m * 2 ^ (e - e') /\ fine a 1 e'.
Proof.
  unfold binary_round. rewrite fexp_eq.
  change (Z.pos (digits2_pos m)) with (Zdigits2 (Zpos m)).
  set (E0 := Z.max (Zdigits2 (Zpos m) + e - 53) (-1074)).
  destruct (Z_le_gt_dec E0 e) as [Hle|Hgt].
  - destruct (shl_align_spec m e E0 Hle) as (m' & -> & Hm').
    assert (Hf : fine (Zpos m') 1 E0).
    { unfold fine. rewrite grid_exp_eq, Z.div_1_r, Hm'.
      rewrite Zdigits2_mul_pow2 by lia. unfold E0. lia. }
    exists (Zpos m'), E0. split; [apply round_aux_exact; [lia|exact Hf]|].
    repeat split; try lia; assumption.
  - assert (Hs : shl_align m e E0 = (m, e)).
    { unfold shl_align. destruct (E0 - e) eqn:E; try reflexivity. lia. }
    rewrite Hs.
    assert (Hf : fine (Zpos m) 1 e).
    { unfold fine. rewrite grid_exp_eq, Z.div_1_r. fold E0. lia. }
    exists (Zpos m), e. split; [apply round_aux_exact; [lia|exact Hf]|].
    rewrite Z.sub_diag. repeat split; try lia; assumption.
Qed.

(** Adding a number that is not below zero to a canonical number above
    zero does not give less. *)
Lemma add_finite_not_less mx ex my ey :
  bounded PyFloat.prec PyFloat.emax mx ex = true ->
  PyFloat.leb (S754_finite false mx ex)
              (PyFloat.add (S754_finite false mx ex) (S754_finite false my ey))
  = true.
Proof.
  intros B. unfold PyFloat.add, SFadd, cond_Zopp.
  set (ez := Z.min ex ey).
  destruct (shl_align_spec mx ex ez ltac:(unfold ez; lia)) as (mx' & -> & Hx).
  destruct (shl_align_spec my ey ez ltac:(unfold ez; lia)) as (my' & -> & Hy).
  cbn [fst]. change (Z.pos mx' + Z.pos my') with (Z.pos (mx' + my')).
  cbn [binary_normalize].
  destruct (binary_round_frac false (mx' + my') ez) as (a & e' & -> & Ha0 & He' & Ha & Hf).
  destruct (round_frac_canonical false mx ex B) as [Fx <-].
  apply round_frac_mono; try lia; try assumption.
  apply (val_le_at _ _ _ _ e'); [unfold ez in *; lia|lia|].
  rewrite Z.sub_diag, Z.mul_1_r, Ha, Pos2Z.inj_add, Hx.
  replace (ex - e') with (ex - ez + (ez - e')) by lia.
  rewrite Z.pow_add_r by (unfold ez in *; lia).
  pose proof (pow2_pos (ez - e') ltac:(lia)).
  pose proof (pow2_pos (ex - ez) ltac:(unfold ez; lia)). nia.
Qed.

Lemma leb_not_ltb x y : PyFloat.leb x y = true -> PyFloat.ltb y x = false.
Proof.
  unfold PyFloat.leb, PyFloat.ltb, SFleb, SFltb, SFcompare.
  destruct x as [sx|[|]| |[|] mx ex], y as [sy|[|]| |[|] my ey];
    simpl; intros H; try discriminate H; try reflexivity;
    change (Pos.compare_cont Eq mx my) with (Pos.compare mx my) in *;
    change (Pos.compare_cont Eq my mx) with (Pos.compare my mx) in *;
    destruct (Z.compare_spec ex ey), (Z.compare_spec ey ex); try lia;
    try discriminate H; try reflexivity;
    destruct (Pos.compare_spec mx my), (Pos.compare_spec my mx); try lia;
    try discriminate H; reflexivity.
Qed.

(** The sum of an amount and of an interest that are not below zero is
    not below the amount. *)
Lemma add_not_below x y :
  PyFloat.valid x = true ->
  PyFloat.leb PyFloat.zero x = true ->
  not_negative y = true ->
  PyFloat.ltb (PyFloat.add x y) x = false.
Proof.
  intros V Px Ny.
  destruct x as [sx|[|]| |[|] mx ex]; try discriminate;
    destruct y as [sy|[|]| |[|] my ey]; try discriminate; try reflexivity.
  - destruct sx, sy; reflexivity.
  - change (PyFloat.add (S754_finite false mx ex) (S754_zero sy))
      with (S754_finite false mx ex).
    apply leb_not_ltb. unfold PyFloat.leb, SFleb, SFcompare.
    rewrite Z.compare_refl, Pos.compare_cont_refl. reflexivity.
  - apply leb_not_ltb, add_finite_not_less. exact V.
Qed.

End AddFacts.

(** ** The claims about the accrual calculator's day counts *)

(** C8: [calculate_days_remaining] is [max(end_date - today, 0)] in whole
    days; it is never negative, it is the plain difference while the end
    date is not yet past, and it is 0 once today is past the end date. *)
Theorem days_remaining_is_clamped_difference (today end_date : date) :
  calculate_days_remaining today end_date
    = Z.max (PyDate.toordinal end_date - PyDate.toordinal today) 0 /\
  0 <= calculate_days_remaining today end_date /\
  (PyDate.toordinal today <= PyDate.toordinal end_date ->
   calculate_days_remaining today end_date
     = PyDate.toordinal end_date - PyDate.toordinal today) /\
  (PyDate.valid today = true -> PyDate.valid end_date = true ->
   PyDate.ltb end_date today = true ->
   calculate_days_remaining today end_date = 0).
Proof.
  unfold calculate_days_remaining, PyDate.sub_days.
  repeat split; try lia.
  intros Vt Ve Hlt.
  pose proof (PyDateFacts.ltb_toordinal _ _ Ve Vt Hlt). lia.
Qed.

(** C7: the three selections on [days_remaining] split the integers (the
    non-negative ones in particular) into exactly three classes, critical
    up to 30, warning from 31 to 90, healthy above 90, and the colour of
    [get_all_loans] follows the same split. *)
Theorem risk_bucket_partition (x : Z) :
  (is_critical x = true <-> x <= 30) /\
  (is_warning x = true <-> 31 <= x <= 90) /\
  (is_healthy x = true <-> 90 < x) /\
  ((is_critical x = true /\ is_warning x = false /\ is_healthy x = false /\
    status_color x = "red"%string) \/
   (is_critical x = false /\ is_warning x = true /\ is_healthy x = false /\
    status_color x = "yellow"%string) \/
   (is_critical x = false /\ is_warning x = false /\ is_healthy x = true /\
    status_color x = "green"%string)).
Proof.
  unfold is_critical, is_warning, is_healthy, status_color.
  rewrite andb_true_iff, Z.leb_le, !Z.ltb_lt.
  repeat split; try lia.
  destruct (x <=? 30) eqn:H30; destruct (x <=? 90) eqn:H90;
    destruct (30 <? x) eqn:G30; destruct (90 <? x) eqn:G90;
    rewrite ?Z.leb_le, ?Z.leb_gt, ?Z.ltb_lt, ?Z.ltb_ge in *;
    try lia; simpl; tauto.
Qed.

(** ** The claims about the ledger store *)

(** C2: a submitted form whose end date is not after the start date is
    answered with the validation message, and the database is left as it
    was: the check comes before [add_loan] is called. *)
Theorem add_loan_rejects_end_not_after_start
    (now : timestamp) (farmer_name father_name : string)
    (loan_amount interest_rate : float) (start_date end_date : date)
    (db : database) :
  PyDate.leb end_date start_date = true ->
  add_new_loan_submitted now farmer_name father_name loan_amount interest_rate
                         start_date end_date db
  = ([st_error "End date must be after start date!"], db).
Proof.
  intros H. unfold add_new_loan_submitted. rewrite H. reflexivity.
Qed.

Lemma add_loan_rejects_end_not_after_start_witness :
  PyDate.leb (PyDate.mkdate 2024 1 1) (PyDate.mkdate 2024 1 1) = true /\
  add_new_loan_submitted 1000 "Asha" "Devi" ten_thousand ten_percent
    (PyDate.mkdate 2024 1 1) (PyDate.mkdate 2024 1 1) sample_db
  = ([st_error "End date must be after start date!"], sample_db).
Proof.
  split; [reflexivity|].
  apply add_loan_rejects_end_not_after_start. reflexivity.
Defined.

(** C3, as the code has it: for a loan id that is not in the store (and
    that fits a 64-bit integer), [update_loan_end_date] reports success,
    leaves the loans as they are and appends one UPDATE entry that carries
    the id. *)
Theorem update_end_date_of_missing_loan
    (now : timestamp) (loan_id : Z) (new_end_date : date) (reason : string)
    (db : database) :
  ~ In loan_id (loan_ids db) ->
  sqlite_integer loan_id = true ->
  exists h,
    update_loan_end_date now loan_id new_end_date reason db
      = (true, [], mkdb (loans db) (loan_history db ++ [h]) (loans_seq db)
                        (LoanHistory.id h)) /\
    LoanHistory.loan_id h = loan_id /\
    LoanHistory.action h = "UPDATE"%string.
Proof.
  intros Habs Hint.
  exists (LoanHistory.mkrow (next_history_id db) loan_id "UPDATE" now
            ("End date updated to " ++ date_str new_end_date ++
             ". Reason: " ++ reason)).
  split; [|split].
  - rewrite update_loan_end_date_bound by assumption.
    unfold end_date_updated. rewrite update_rows_absent by exact Habs.
    reflexivity.
  - reflexivity.
  - reflexivity.
Qed.

Lemma update_end_date_of_missing_loan_witness :
  exists h,
    update_loan_end_date 2000 7 (PyDate.mkdate 2025 6 30) "typo" sample_db
      = (true, [], mkdb (loans sample_db) (loan_history sample_db ++ [h])
                        (loans_seq sample_db) (LoanHistory.id h)) /\
    LoanHistory.loan_id h = 7 /\
    LoanHistory.action h = "UPDATE"%string.
Proof.
  apply update_end_date_of_missing_loan.
  - vm_compute. intros [H|[]]. discriminate H.
  - reflexivity.
Defined.

(** C3 fails as stated: on the sample ledger, whose only loan has id 1,
    updating loan 7 returns [True] and writes a history entry. *)
Lemma update_end_date_of_missing_loan_counterexample :
  ~ In 7 (loan_ids sample_db) /\
  update_loan_end_date 2000 7 (PyDate.mkdate 2025 6 30) "typo" sample_db
  = (true, [],
     mkdb (loans sample_db)
          (loan_history sample_db ++
             [LoanHistory.mkrow 2 7 "UPDATE" 2000
                "End date updated to 2025-06-30. Reason: typo"])
          1 2).
Proof.
  split.
  - vm_compute. intros [H|[]]. discriminate H.
  - vm_compute. reflexivity.
Qed.

Lemma add_loan_success now farmer father amount rate start_date end_date db msgs db' :
  add_loan now farmer father amount rate start_date end_date db = (true, msgs, db') ->
  db' = mkdb
          (loans db ++
             [Loans.mkrow (next_loan_id db) farmer father
                          (sqlite_real amount) (sqlite_real rate)
                          start_date end_date "Active" now])
          (loan_history db ++
             [LoanHistory.mkrow (next_history_id db) (next_loan_id db) "CREATE" now
                ("Loan created for " ++ farmer ++ " (s/o " ++ father ++
                 ") with amount ₹" ++ PyFloat.format_comma_2f amount)])
          (next_loan_id db) (next_history_id db).
Proof.
  unfold add_loan, try_commit, insert_loan, insert_history, sql_bind,
    bind_real_not_null, bind_int, sql_raise, sql_ret.
  destruct (PyFloat.is_nan amount); [discriminate|].
  destruct (PyFloat.is_nan rate); [discriminate|].
  destruct (sqlite_integer (next_loan_id db)); [|discriminate].
  intros H. injection H as _ <-. reflexivity.
Qed.

Lemma failed_mutation_writes_nothing now m db msgs db' :
  run_mutation now m db = (false, msgs, db') -> db' = db.
Proof.
  destruct m; simpl;
    [unfold add_loan|unfold update_loan_end_date|unfold delete_loan];
    unfold try_commit;
    match goal with |- context [match ?b db with _ => _ end] =>
      destruct (b db) as [e|[u d]] end;
    intros H; inversion H; reflexivity.
Qed.

(** C5: a writer that returns [True] has appended exactly one entry to the
    history, tagged CREATE by [add_loan], UPDATE by [update_loan_end_date]
    and DELETE by [delete_loan]. *)
Theorem successful_mutation_appends_one_entry
    (now : timestamp) (m : mutation) (db db' : database) (msgs : list st_msg) :
  run_mutation now m db = (true, msgs, db') ->
  exists h,
    loan_history db' = loan_history db ++ [h] /\
    LoanHistory.action h = action_tag m /\
    LoanHistory.id h = next_history_id db.
Proof.
  destruct m as [farmer father amount rate sd ed | loan_id d reason | loan_id reason];
    simpl; intros H.
  - apply add_loan_success in H. subst db'. eexists. simpl.
    split; [reflexivity|]. split; reflexivity.
  - destruct (sqlite_integer loan_id) eqn:E.
    + rewrite update_loan_end_date_bound in H by assumption.
      injection H as _ <-. eexists. simpl. split; [reflexivity|]. split; reflexivity.
    + rewrite update_loan_end_date_unbound in H by assumption. discriminate.
  - destruct (sqlite_integer loan_id) eqn:E.
    + rewrite delete_loan_bound in H by assumption.
      injection H as _ <-. eexists. simpl. split; [reflexivity|]. split; reflexivity.
    + rewrite delete_loan_unbound in H by assumption. discriminate.
Qed.

Lemma successful_mutation_appends_one_entry_witness :
  exists h,
    loan_history (snd (run_mutation 2000 (SoftDelete 1 "repaid") sample_db))
      = loan_history sample_db ++ [h] /\
    LoanHistory.action h = "DELETE"%string /\
    LoanHistory.id h = 2.
Proof.
  apply (successful_mutation_appends_one_entry 2000 (SoftDelete 1 "repaid")
           sample_db _ []).
  vm_compute. reflexivity.
Defined.

(** C4, as the code has it: for a loan id that fits a 64-bit integer,
    [delete_loan] returns [True], appends exactly one DELETE entry that
    carries the id and the reason, sets the status of the rows with that id
    to Inactive and touches no other row; when no row has the id the loans
    are left as they are, and the entry is written all the same. *)
Theorem soft_delete_loan_effect
    (now : timestamp) (loan_id : Z) (reason : string) (db : database) :
  sqlite_integer loan_id = true ->
  exists h db',
    delete_loan now loan_id reason db = (true, [], db') /\
    loan_history db' = loan_history db ++ [h] /\
    LoanHistory.loan_id h = loan_id /\
    LoanHistory.action h = "DELETE"%string /\
    LoanHistory.details h = ("Loan marked as inactive. Reason: " ++ reason)%string /\
    loan_ids db' = loan_ids db /\
    (forall r, In r (loans db') -> Loans.id r = loan_id ->
               Loans.status r = "Inactive"%string) /\
    (forall r, In r (loans db) -> Loans.id r <> loan_id -> In r (loans db')) /\
    (~ In loan_id (loan_ids db) -> loans db' = loans db).
Proof.
  intros Hint.
  exists (LoanHistory.mkrow (next_history_id db) loan_id "DELETE" now
            ("Loan marked as inactive. Reason: " ++ reason)).
  exists (deleted now loan_id reason db).
  split; [apply delete_loan_bound; assumption|].
  repeat split.
  - unfold loan_ids, deleted; simpl. apply update_rows_ids. reflexivity.
  - unfold deleted; simpl. intros r Hin Hid.
    apply in_map_iff in Hin as (r0 & <- & _).
    destruct (Loans.id r0 =? loan_id) eqn:E; [reflexivity|].
    apply Z.eqb_neq in E. contradiction.
  - unfold deleted; simpl. intros r Hin Hid.
    apply in_map_iff. exists r. split; [|assumption].
    apply Z.eqb_neq in Hid. rewrite Hid. reflexivity.
  - intros Habs. unfold deleted; simpl. apply update_rows_absent. exact Habs.
Qed.

Lemma soft_delete_loan_effect_witness :
  exists h db',
    delete_loan 2000 1 "repaid" sample_db = (true, [], db') /\
    loan_history db' = loan_history sample_db ++ [h] /\
    LoanHistory.loan_id h = 1 /\
    LoanHistory.action h = "DELETE"%string /\
    LoanHistory.details h = ("Loan marked as inactive. Reason: " ++ "repaid")%string /\
    loan_ids db' = loan_ids sample_db /\
    (forall r, In r (loans db') -> Loans.id r = 1 ->
               Loans.status r = "Inactive"%string) /\
    (forall r, In r (loans sample_db) -> Loans.id r <> 1 -> In r (loans db')) /\
    (~ In 1 (loan_ids sample_db) -> loans db' = loans sample_db).
Proof.
  apply soft_delete_loan_effect. reflexivity.
Defined.

(** C4 fails as stated in its second half: on the sample ledger, whose only
    loan has id 1, deleting loan 7 returns [True] and writes a DELETE
    entry. *)
Lemma soft_delete_of_missing_loan_counterexample :
  ~ In 7 (loan_ids sample_db) /\
  delete_loan 2000 7 "gone" sample_db
  = (true, [],
     mkdb (loans sample_db)
          (loan_history sample_db ++
             [LoanHistory.mkrow 2 7 "DELETE" 2000
                "Loan marked as inactive. Reason: gone"])
          1 2).
Proof.
  split.
  - vm_compute. intros [H|[]]. discriminate H.
  - vm_compute. reflexivity.
Qed.




Lemma get_loan_history_inner_join db r :
  In r (get_loan_history db) ->
  exists h l,
    In h (loan_history db) /\ In l (loans db) /\
    LoanHistory.loan_id h = Loans.id l /\
    r = mkhview (LoanHistory.action_timestamp h)
                (Loans.farmer_name l) (Loans.father_name l)
                (LoanHistory.action h) (LoanHistory.details h).
Proof.
  unfold get_loan_history. rewrite order_by_timestamp_desc_In. unfold join_history.
  intros Hr. apply in_flat_map in Hr as (h & Hh & Hr).
  unfold joined in Hr. apply in_map_iff in Hr as (l & <- & Hl).
  apply filter_In in Hl as [Hl E]. apply Z.eqb_eq in E.
  exists h, l. auto.
Qed.

(** C10: [get_loan_history] is an inner join.  An entry of the history
    whose loan id matches no row of the loans contributes nothing: the
    result is the one obtained without the entry, and every row returned
    comes from an entry and a loan with equal ids.  Such entries are what
    [delete_loan] and [update_loan_end_date] write for an id that is not
    in the store: the call succeeds, the history grows by one entry, and
    [get_loan_history] returns what it returned before.  The entry is
    left out only as long as no loan has its id: when [add_loan] gives the
    id to a new loan, the entry is returned under the names of that
    loan. *)
Theorem history_join_omits_orphans
    (db : database) (before : list LoanHistory.row) (h : LoanHistory.row)
    (after : list LoanHistory.row) :
  loan_history db = before ++ h :: after ->
  ~ In (LoanHistory.loan_id h) (loan_ids db) ->
  get_loan_history db
    = get_loan_history (mkdb (loans db) (before ++ after) (loans_seq db)
                             (loan_history_seq db)) /\
  (forall r, In r (get_loan_history db) ->
     exists h' l,
       In h' (before ++ after) /\ In l (loans db) /\
       LoanHistory.loan_id h' = Loans.id l /\
       r = mkhview (LoanHistory.action_timestamp h')
                   (Loans.farmer_name l) (Loans.father_name l)
                   (LoanHistory.action h') (LoanHistory.details h')) /\
  (forall now reason,
     sqlite_integer (LoanHistory.loan_id h) = true ->
     exists db',
       delete_loan now (LoanHistory.loan_id h) reason db = (true, [], db') /\
       List.length (loan_history db') = S (List.length (loan_history db)) /\
       get_loan_history db' = get_loan_history db) /\
  (forall now new_end_date reason,
     sqlite_integer (LoanHistory.loan_id h) = true ->
     exists db',
       update_loan_end_date now (LoanHistory.loan_id h) new_end_date reason db
         = (true, [], db') /\
       List.length (loan_history db') = S (List.length (loan_history db)) /\
       get_loan_history db' = get_loan_history db) /\
  (forall now farmer_name father_name amount rate start_date end_date msgs db',
     add_loan now farmer_name father_name amount rate start_date end_date db
       = (true, msgs, db') ->
     (LoanHistory.loan_id h = next_loan_id db ->
      In (mkhview (LoanHistory.action_timestamp h) farmer_name father_name
                  (LoanHistory.action h) (LoanHistory.details h))
         (get_loan_history db')) /\
     (LoanHistory.loan_id h <> next_loan_id db ->
      joined (loans db') h = [])).
Proof.
  intros Hh Horph.
  assert (Hjoin : join_history db =
                  join_history (mkdb (loans db) (before ++ after) (loans_seq db)
                                     (loan_history_seq db))).
  { unfold join_history; simpl. rewrite Hh, !flat_map_app; simpl.
    rewrite (joined_orphan (loans db) h Horph). reflexivity. }
  split; [|split; [|split; [|split]]].
  - unfold get_loan_history. rewrite Hjoin. reflexivity.
  - intros r Hr. unfold get_loan_history in Hr. rewrite Hjoin in Hr.
    apply (get_loan_history_inner_join
             (mkdb (loans db) (before ++ after) (loans_seq db)
                   (loan_history_seq db))) in Hr.
    exact Hr.
  - intros now reason Hint. exists (deleted now (LoanHistory.loan_id h) reason db).
    split; [apply delete_loan_bound; assumption|]. split.
    + unfold deleted; simpl. rewrite length_app; simpl. lia.
    + unfold get_loan_history. rewrite join_history_deleted.
      rewrite joined_orphan by exact Horph. rewrite app_nil_r. reflexivity.
  - intros now d reason Hint.
    exists (end_date_updated now (LoanHistory.loan_id h) d reason db).
    split; [apply update_loan_end_date_bound; assumption|]. split.
    + unfold end_date_updated; simpl. rewrite length_app; simpl. lia.
    + unfold get_loan_history. rewrite join_history_end_date_updated.
      rewrite joined_orphan by exact Horph. rewrite app_nil_r. reflexivity.
  - intros now farmer father amount rate sd ed msgs db' Hadd.
    apply add_loan_success in Hadd. subst db'. split.
    + intros Hid.
      apply (join_history_In _ h
               (Loans.mkrow (next_loan_id db) farmer father
                            (sqlite_real amount) (sqlite_real rate)
                            sd ed "Active" now)); simpl.
      * rewrite Hh. apply in_or_app. left.
        apply in_or_app. right. left. reflexivity.
      * apply in_or_app. right. left. reflexivity.
      * exact Hid.
    + intros Hid. simpl. rewrite joined_app.
      rewrite (joined_orphan (loans db) h Horph). simpl.
      unfold joined; simpl.
      destruct (Z.eqb_spec (LoanHistory.loan_id h) (next_loan_id db));
        [contradiction|reflexivity].
Qed.

Lemma history_join_omits_orphans_witness :
  get_loan_history orphaned_db = get_loan_history sample_db /\
  List.length (loan_history orphaned_db) = 2%nat /\
  List.length (get_loan_history orphaned_db) = 1%nat.
Proof.
  destruct (history_join_omits_orphans orphaned_db
              (loan_history sample_db)
              (LoanHistory.mkrow 2 7 "DELETE" 2000
                 "Loan marked as inactive. Reason: gone") [])
    as [Heq _].
  - vm_compute. reflexivity.
  - vm_compute. intros [H|[]]. discriminate H.
  - split; [|split; reflexivity].
    rewrite Heq. vm_compute. reflexivity.
Defined.

(** C10 fails as stated in "every result".  On the fresh store,
    [update_loan_end_date] for loan 1, which does not exist, succeeds and
    writes an UPDATE entry that [get_loan_history] leaves out.  The next
    loan added gets the id 1, and from then on the entry is returned,
    under the names of that loan. *)
Lemma history_join_adopts_orphan_counterexample :
  exists db0 db1,
    update_loan_end_date 2000 1 (PyDate.mkdate 2025 1 1) "early" init_db
      = (true, [], db0) /\
    ~ In 1 (loan_ids db0) /\
    loan_history db0
      = [LoanHistory.mkrow 1 1 "UPDATE" 2000
           "End date updated to 2025-01-01. Reason: early"] /\
    get_loan_history db0 = [] /\
    add_loan 3000 "Asha" "Devi" ten_thousand ten_percent
             (PyDate.mkdate 2024 1 1) (PyDate.mkdate 2024 12 31) db0
      = (true, [], db1) /\
    get_loan_history db1
      = [mkhview 3000 "Asha" "Devi" "CREATE"
           "Loan created for Asha (s/o Devi) with amount ₹10,000.00";
         mkhview 2000 "Asha" "Devi" "UPDATE"
           "End date updated to 2025-01-01. Reason: early"].
Proof.
  eexists. eexists.
  split; [vm_compute; reflexivity|].
  split; [vm_compute; intros []|].
  split; [vm_compute; reflexivity|].
  split; [vm_compute; reflexivity|].
  split; vm_compute; reflexivity.
Qed.

(** ** More facts about the store *)

Section RowidFacts.

Context {R : Type} (key : R -> Z).

Lemma max_rowid_nonneg rows : 0 <= max_rowid key rows.
Proof. induction rows as [|r rows IH]; simpl; lia. Qed.

Lemma max_rowid_ge rows r : In r rows -> key r <= max_rowid key rows.
Proof.
  induction rows as [|x rows IH]; simpl; [tauto|].
  intros [->|Hin]; [lia|]. specialize (IH Hin). lia.
Qed.

Lemma max_rowid_app rows rows' :
  max_rowid key (rows ++ rows') = Z.max (max_rowid key rows) (max_rowid key rows').
Proof.
  induction rows as [|x rows IH]; simpl.
  - pose proof (max_rowid_nonneg rows'). lia.
  - rewrite IH. lia.
Qed.

End RowidFacts.

Lemma next_loan_id_fresh db i :
  In i (loan_ids db) -> i < next_loan_id db.
Proof.
  unfold loan_ids, next_loan_id. intros Hin.
  apply in_map_iff in Hin as (r & <- & Hr).
  pose proof (max_rowid_ge Loans.id (loans db) r Hr). lia.
Qed.

(** ** The two ways out of [get_all_loans] *)

Lemma forallb_map_filter {A B} (p : B -> bool) (f : A -> B) (q : A -> bool) l :
  forallb p (map f (filter q l)) = true <->
  (forall x, In x l -> q x = true -> p (f x) = true).
Proof.
  rewrite forallb_forall. split.
  - intros H x Hx Hq. apply H. apply in_map. apply filter_In. auto.
  - intros H y Hy. apply in_map_iff in Hy as (x & <- & Hx).
    apply filter_In in Hx as [Hx Hq]. auto.
Qed.

(** A call that returns gives the frame with the computed columns. *)
Lemma call_get_all_loans_returns today db views :
  call_get_all_loans today db = Returns views ->
  views = get_all_loans today db.
Proof.
  unfold call_get_all_loans.
  destruct (to_datetime_ok (map Loans.start_date (filter active (loans db))));
    [|discriminate].
  destruct (to_datetime_ok (map Loans.end_date (filter active (loans db))));
    [|discriminate].
  simpl. intros H. injection H as <-. reflexivity.
Qed.

(** It returns when the dates of every active loan can be converted. *)
Lemma call_get_all_loans_in_range today db :
  (forall r, In r (loans db) -> active r = true ->
             in_timestamp_range (Loans.start_date r) &&
             in_timestamp_range (Loans.end_date r) = true) ->
  call_get_all_loans today db = Returns (get_all_loans today db).
Proof.
  intros H. unfold call_get_all_loans, to_datetime_ok.
  assert (Hs : forallb in_timestamp_range
                 (map Loans.start_date (filter active (loans db))) = true).
  { apply forallb_map_filter. intros x Hx Ha.
    apply (proj1 (proj1 (andb_true_iff _ _) (H x Hx Ha))). }
  assert (He : forallb in_timestamp_range
                 (map Loans.end_date (filter active (loans db))) = true).
  { apply forallb_map_filter. intros x Hx Ha.
    apply (proj2 (proj1 (andb_true_iff _ _) (H x Hx Ha))). }
  rewrite Hs, He. reflexivity.
Qed.

Lemma call_get_all_loans_returns_in_range today db views :
  call_get_all_loans today db = Returns views ->
  forall r, In r (loans db) -> active r = true ->
            in_timestamp_range (Loans.start_date r) &&
            in_timestamp_range (Loans.end_date r) = true.
Proof.
  unfold call_get_all_loans, to_datetime_ok.
  destruct (forallb in_timestamp_range
              (map Loans.start_date (filter active (loans db)))) eqn:Hs;
    [|discriminate].
  destruct (forallb in_timestamp_range
              (map Loans.end_date (filter active (loans db)))) eqn:He;
    [|discriminate].
  intros _ r Hr Ha. apply andb_true_iff. split.
  - apply (proj1 (forallb_map_filter _ _ _ _) Hs r Hr Ha).
  - apply (proj1 (forallb_map_filter _ _ _ _) He r Hr Ha).
Qed.

(** It raises when a date of an active loan cannot. *)
Lemma call_get_all_loans_raises today db :
  (exists r, In r (loans db) /\ active r = true /\
             in_timestamp_range (Loans.start_date r) &&
             in_timestamp_range (Loans.end_date r) = false) ->
  call_get_all_loans today db = Raises "OutOfBoundsDatetime".
Proof.
  intros (r & Hr & Ha & Hf).
  destruct (call_get_all_loans today db) as [e|views] eqn:Hc.
  - unfold call_get_all_loans in Hc.
    destruct (negb _) in Hc; [congruence|].
    destruct (negb _) in Hc; [congruence|discriminate].
  - rewrite (call_get_all_loans_returns_in_range today db views Hc r Hr Ha) in Hf.
    discriminate.
Qed.

(** The comparisons of a number do not see whether it went through a
    [REAL] column. *)
Lemma leb_sqlite_real x y : PyFloat.leb (sqlite_real x) y = PyFloat.leb x y.
Proof. destruct x as [[|]|[|]| |]; reflexivity. Qed.

(** ** The writers, beyond the claims *)

(** X1: a call of [add_loan] that returns [True] has appended exactly one
    row to the loans, with the names and dates given, the amount and the
    rate as the [REAL] columns give them back, the status Active and an id
    that no row had before: it is larger than every id of the table and
    than the last id the table ever gave out.  The rows that were there are
    unchanged.  What comes back for the amount and the rate is the number
    given, except that a negative zero comes back as the positive one. *)
Theorem add_loan_stores_fresh_active_loan
    (now : timestamp) (farmer_name father_name : string) (amount rate : float)
    (start_date end_date : date) (db db' : database) (msgs : list st_msg) :
  add_loan now farmer_name father_name amount rate start_date end_date db
    = (true, msgs, db') ->
  exists id,
    loans db' = loans db ++
      [Loans.mkrow id farmer_name father_name
                   (sqlite_real amount) (sqlite_real rate)
                   start_date end_date "Active" now] /\
    ~ In id (loan_ids db) /\
    (forall i, In i (loan_ids db) -> i < id) /\
    loans_seq db < id /\
    loans_seq db' = id /\
    (FloatSign.is_zero amount = false -> sqlite_real amount = amount) /\
    (FloatSign.is_zero amount = true -> sqlite_real amount = PyFloat.zero) /\
    (FloatSign.is_zero rate = false -> sqlite_real rate = rate) /\
    (FloatSign.is_zero rate = true -> sqlite_real rate = PyFloat.zero).
Proof.
  intros H. apply add_loan_success in H. subst db'.
  exists (next_loan_id db). simpl.
  split; [reflexivity|]. split; [|split; [|split; [|split]]].
  - intros Hin. apply next_loan_id_fresh in Hin. lia.
  - apply next_loan_id_fresh.
  - unfold next_loan_id. lia.
  - reflexivity.
  - repeat split; intros Hz;
      [destruct amount|destruct amount|destruct rate|destruct rate];
      try discriminate Hz; reflexivity.
Qed.

Lemma add_loan_stores_fresh_active_loan_witness :
  exists id,
    loans sample_db = loans init_db ++
      [Loans.mkrow id "Asha" "Devi"
                   (sqlite_real ten_thousand) (sqlite_real ten_percent)
                   (PyDate.mkdate 2024 1 1) (PyDate.mkdate 2024 12 31)
                   "Active" 1000] /\
    ~ In id (loan_ids init_db) /\
    (forall i, In i (loan_ids init_db) -> i < id) /\
    loans_seq init_db < id /\
    loans_seq sample_db = id /\
    (FloatSign.is_zero ten_thousand = false -> sqlite_real ten_thousand = ten_thousand) /\
    (FloatSign.is_zero ten_thousand = true -> sqlite_real ten_thousand = PyFloat.zero) /\
    (FloatSign.is_zero ten_percent = false -> sqlite_real ten_percent = ten_percent) /\
    (FloatSign.is_zero ten_percent = true -> sqlite_real ten_percent = PyFloat.zero).
Proof.
  apply (add_loan_stores_fresh_active_loan 1000 "Asha" "Devi" ten_thousand
           ten_percent (PyDate.mkdate 2024 1 1) (PyDate.mkdate 2024 12 31)
           init_db sample_db []).
  vm_compute. reflexivity.
Defined.

(** X2: what [add_loan] has stored can be read back, when the listing can
    be made.  After a call that returned [True], a call of [get_all_loans]
    that returns lists the new loan with the amount and the rate as the
    [REAL] columns give them back, the interest accrued on them from the
    start date to today and the days remaining to the end date.  The call
    raises when the start date or the end date given cannot be held by a
    nanosecond timestamp; it returns when it returned before and both
    dates can be held.  [get_loan_history] shows the CREATE entry under
    the names given in either case. *)
Theorem added_loan_is_listed
    (now : timestamp) (farmer_name father_name : string) (amount rate : float)
    (start_date end_date : date) (db db' : database) (msgs : list st_msg)
    (today : date) :
  add_loan now farmer_name father_name amount rate start_date end_date db
    = (true, msgs, db') ->
  (forall views,
     call_get_all_loans today db' = Returns views ->
     exists v,
       In v views /\
       Loans.farmer_name (view_row v) = farmer_name /\
       Loans.father_name (view_row v) = father_name /\
       Loans.loan_amount (view_row v) = sqlite_real amount /\
       Loans.interest_rate (view_row v) = sqlite_real rate /\
       Loans.start_date (view_row v) = start_date /\
       Loans.end_date (view_row v) = end_date /\
       ~ In (Loans.id (view_row v)) (loan_ids db) /\
       current_interest v
         = calculate_interest (sqlite_real amount) (sqlite_real rate)
                              start_date today /\
       total_amount v = PyFloat.add (sqlite_real amount) (current_interest v) /\
       days_remaining v = calculate_days_remaining today end_date) /\
  (in_timestamp_range start_date && in_timestamp_range end_date = false ->
   exists error, call_get_all_loans today db' = Raises error) /\
  (forall views0,
     call_get_all_loans today db = Returns views0 ->
     in_timestamp_range start_date && in_timestamp_range end_date = true ->
     exists views, call_get_all_loans today db' = Returns views) /\
  In (mkhview now farmer_name father_name "CREATE"
        ("Loan created for " ++ farmer_name ++ " (s/o " ++ father_name ++
         ") with amount ₹" ++ PyFloat.format_comma_2f amount))
     (get_loan_history db').
Proof.
  intros H. apply add_loan_success in H. subst db'.
  set (r := Loans.mkrow (next_loan_id db) farmer_name father_name
                        (sqlite_real amount) (sqlite_real rate)
                        start_date end_date "Active" now).
  split; [|split; [|split]].
  - intros views Hv. apply call_get_all_loans_returns in Hv. subst views.
    eexists (mkview r _ _ _ _).
    split.
    + unfold get_all_loans. apply in_map_iff. eexists. split; [reflexivity|].
      apply filter_In. simpl. split; [|reflexivity].
      apply in_or_app. right. left. reflexivity.
    + simpl. repeat split.
      intros Hin. apply next_loan_id_fresh in Hin. lia.
  - intros Hr. exists "OutOfBoundsDatetime"%string.
    apply call_get_all_loans_raises. exists r. simpl.
    split; [apply in_or_app; right; left; reflexivity|].
    split; [reflexivity|exact Hr].
  - intros views0 Hv0 Hr. eexists.
    apply call_get_all_loans_in_range. simpl.
    intros x Hx Ha. apply in_app_or in Hx as [Hx|[<-|[]]].
    + apply (call_get_all_loans_returns_in_range today db views0 Hv0 x Hx Ha).
    + exact Hr.
  - apply (join_history_In _
             (LoanHistory.mkrow (next_history_id db) (next_loan_id db) "CREATE" now _)
             r); simpl.
    + apply in_or_app. right. left. reflexivity.
    + apply in_or_app. right. left. reflexivity.
    + reflexivity.
Qed.

Lemma added_loan_is_listed_witness :
  (exists views v,
     call_get_all_loans (PyDate.mkdate 2024 7 1) sample_db = Returns views /\
     In v views /\
     Loans.farmer_name (view_row v) = "Asha"%string /\
     Loans.father_name (view_row v) = "Devi"%string /\
     Loans.loan_amount (view_row v) = ten_thousand /\
     Loans.interest_rate (view_row v) = ten_percent /\
     Loans.start_date (view_row v) = PyDate.mkdate 2024 1 1 /\
     Loans.end_date (view_row v) = PyDate.mkdate 2024 12 31 /\
     ~ In (Loans.id (view_row v)) (loan_ids init_db) /\
     current_interest v
       = calculate_interest ten_thousand ten_percent (PyDate.mkdate 2024 1 1)
                            (PyDate.mkdate 2024 7 1) /\
     total_amount v = PyFloat.add ten_thousand (current_interest v) /\
     days_remaining v
       = calculate_days_remaining (PyDate.mkdate 2024 7 1)
                                  (PyDate.mkdate 2024 12 31)) /\
  In (mkhview 1000 "Asha" "Devi" "CREATE"
        ("Loan created for " ++ "Asha" ++ " (s/o " ++ "Devi" ++
         ") with amount ₹" ++ PyFloat.format_comma_2f ten_thousand))
     (get_loan_history sample_db) /\
  (exists error,
     call_get_all_loans (PyDate.mkdate 2024 7 1)
       (snd (add_loan 1000 "Asha" "Devi" ten_thousand ten_percent
                      (PyDate.mkdate 2024 1 1) (PyDate.mkdate 3000 1 1) init_db))
     = Raises error).
Proof.
  destruct (added_loan_is_listed 1000 "Asha" "Devi" ten_thousand ten_percent
              (PyDate.mkdate 2024 1 1) (PyDate.mkdate 2024 12 31)
              init_db sample_db [] (PyDate.mkdate 2024 7 1))
    as (Hlisted & _ & Hreturns & Hhistory); [vm_compute; reflexivity|].
  destruct (Hreturns []) as [views Hviews]; [reflexivity|reflexivity|].
  destruct (Hlisted views Hviews) as (v & Hv).
  split; [exists views, v; split; [exact Hviews|exact Hv]|].
  split; [exact Hhistory|].
  destruct (added_loan_is_listed 1000 "Asha" "Devi" ten_thousand ten_percent
              (PyDate.mkdate 2024 1 1) (PyDate.mkdate 3000 1 1)
              init_db _ [] (PyDate.mkdate 2024 7 1) eq_refl)
    as (_ & Hraises & _).
  apply Hraises. reflexivity.
Defined.

(** X3: the form of the page "Add New Loan" stores nothing but well-formed
    loans.  Whatever is submitted, either the database is left as it was,
    or exactly one row was appended whose end date is after its start
    date, whose amount is not [<= 0] and whose two names are not empty;
    for dates that exist, the loan then runs for at least one day. *)
Theorem submitted_loan_is_well_formed
    (now : timestamp) (farmer_name father_name : string)
    (loan_amount interest_rate : float) (start_date end_date : date)
    (db db' : database) (msgs : list st_msg) :
  add_new_loan_submitted now farmer_name father_name loan_amount interest_rate
                         start_date end_date db = (msgs, db') ->
  db' = db \/
  exists r,
    loans db' = loans db ++ [r] /\
    well_formed r /\
    (PyDate.valid (Loans.start_date r) = true ->
     PyDate.valid (Loans.end_date r) = true ->
     1 <= loan_duration r).
Proof.
  unfold add_new_loan_submitted.
  destruct (PyDate.leb end_date start_date) eqn:Hd.
  { intros H. injection H as _ <-. left. reflexivity. }
  destruct (PyFloat.leb loan_amount PyFloat.zero) eqn:Ha.
  { intros H. injection H as _ <-. left. reflexivity. }
  destruct (String.eqb farmer_name "" || String.eqb father_name "") eqn:Hn.
  { intros H. injection H as _ <-. left. reflexivity. }
  destruct (add_loan now farmer_name father_name loan_amount interest_rate
                     start_date end_date db) as [[[|] ms] d] eqn:Hadd.
  2:{ intros H. injection H as _ <-. left.
      apply (failed_mutation_writes_nothing now
               (AddLoan farmer_name father_name loan_amount interest_rate
                        start_date end_date) db ms d).
      exact Hadd. }
  intros H. injection H as _ <-. right.
  apply add_loan_success in Hadd. subst d.
  eexists. split; [reflexivity|].
  apply orb_false_iff in Hn as [Hn1 Hn2].
  apply String.eqb_neq in Hn1, Hn2.
  assert (Hlt : PyDate.ltb start_date end_date = true).
  { unfold PyDate.ltb, PyDate.leb in *.
    rewrite (PyDateFacts.compare_antisym start_date end_date) in Hd.
    destruct (PyDate.compare start_date end_date); simpl in Hd;
      [discriminate|reflexivity|discriminate]. }
  split.
  - unfold well_formed; simpl. rewrite leb_sqlite_real. auto.
  - simpl. intros Vs Ve. unfold loan_duration, PyDate.sub_days; simpl.
    pose proof (PyDateFacts.ltb_toordinal _ _ Vs Ve Hlt). lia.
Qed.

Lemma submitted_loan_is_well_formed_witness :
  sample_db = init_db \/
  exists r,
    loans sample_db = loans init_db ++ [r] /\
    well_formed r /\
    (PyDate.valid (Loans.start_date r) = true ->
     PyDate.valid (Loans.end_date r) = true ->
     1 <= loan_duration r).
Proof.
  apply (submitted_loan_is_well_formed 1000 "Asha" "Devi" ten_thousand ten_percent
           (PyDate.mkdate 2024 1 1) (PyDate.mkdate 2024 12 31) init_db sample_db
           [st_success "Loan added successfully!"]).
  vm_compute. reflexivity.
Defined.

(** X4: [update_loan_end_date] sets the end date of the rows with the id to
    the date given, whatever that date is, and changes nothing else: ids
    and all other columns of every row stay, rows with another id are
    untouched.  The new date is not compared with the start date, so a
    date that is not after the start date leaves a loan that the form
    would have refused. *)
Theorem update_end_date_sets_any_date
    (now : timestamp) (loan_id : Z) (new_end_date : date) (reason : string)
    (db : database) :
  sqlite_integer loan_id = true ->
  exists db',
    update_loan_end_date now loan_id new_end_date reason db = (true, [], db') /\
    loan_ids db' = loan_ids db /\
    (forall r, In r (loans db) -> Loans.id r = loan_id ->
               In (Loans.set_end_date new_end_date r) (loans db')) /\
    (forall r, In r (loans db) -> Loans.id r <> loan_id -> In r (loans db')) /\
    (forall r', In r' (loans db') ->
       exists r, In r (loans db) /\
                 (r' = r \/ r' = Loans.set_end_date new_end_date r)) /\
    (forall r', In r' (loans db') -> Loans.id r' = loan_id ->
       Loans.end_date r' = new_end_date /\
       (PyDate.leb new_end_date (Loans.start_date r') = true ->
        ~ well_formed r')).
Proof.
  intros Hint. exists (end_date_updated now loan_id new_end_date reason db).
  split; [apply update_loan_end_date_bound; assumption|].
  unfold end_date_updated; simpl.
  split; [|split; [|split; [|split]]].
  - unfold loan_ids; simpl. apply update_rows_ids. reflexivity.
  - intros r Hin Hid. apply in_map_iff. exists r. split; [|assumption].
    apply Z.eqb_eq in Hid. rewrite Hid. reflexivity.
  - intros r Hin Hid. apply in_map_iff. exists r. split; [|assumption].
    apply Z.eqb_neq in Hid. rewrite Hid. reflexivity.
  - intros r' Hin. apply in_map_iff in Hin as (r & <- & Hr).
    exists r. split; [assumption|].
    destruct (Loans.id r =? loan_id); auto.
  - intros r' Hin Hid. apply in_map_iff in Hin as (r & <- & Hr).
    destruct (Loans.id r =? loan_id) eqn:E.
    + simpl. split; [reflexivity|].
      intros Hle [Hlt _]. simpl in Hlt.
      unfold PyDate.ltb, PyDate.leb in *.
      rewrite (PyDateFacts.compare_antisym (Loans.start_date r) new_end_date) in Hle.
      destruct (PyDate.compare (Loans.start_date r) new_end_date);
        simpl in Hle; discriminate.
    + apply Z.eqb_neq in E. contradiction.
Qed.

Lemma update_end_date_sets_any_date_witness :
  exists db',
    update_loan_end_date 2000 1 (PyDate.mkdate 2023 6 30) "typo" sample_db
      = (true, [], db') /\
    loan_ids db' = loan_ids sample_db /\
    (forall r, In r (loans sample_db) -> Loans.id r = 1 ->
               In (Loans.set_end_date (PyDate.mkdate 2023 6 30) r) (loans db')) /\
    (forall r, In r (loans sample_db) -> Loans.id r <> 1 -> In r (loans db')) /\
    (forall r', In r' (loans db') ->
       exists r, In r (loans sample_db) /\
                 (r' = r \/ r' = Loans.set_end_date (PyDate.mkdate 2023 6 30) r)) /\
    (forall r', In r' (loans db') -> Loans.id r' = 1 ->
       Loans.end_date r' = PyDate.mkdate 2023 6 30 /\
       (PyDate.leb (PyDate.mkdate 2023 6 30) (Loans.start_date r') = true ->
        ~ well_formed r')).
Proof.
  apply update_end_date_sets_any_date. reflexivity.
Defined.

(** X5: deleting a loan a second time changes no row: [delete_loan] is
    idempotent on the loans.  It is not idempotent on the history, which
    gets a DELETE entry from each call. *)
Theorem delete_loan_twice
    (now1 now2 : timestamp) (loan_id : Z) (reason1 reason2 : string)
    (db : database) :
  sqlite_integer loan_id = true ->
  exists db1 db2 h1 h2,
    delete_loan now1 loan_id reason1 db = (true, [], db1) /\
    delete_loan now2 loan_id reason2 db1 = (true, [], db2) /\
    loans db2 = loans db1 /\
    loan_history db2 = loan_history db ++ [h1; h2] /\
    LoanHistory.action h1 = "DELETE"%string /\
    LoanHistory.action h2 = "DELETE"%string /\
    LoanHistory.loan_id h1 = loan_id /\
    LoanHistory.loan_id h2 = loan_id /\
    LoanHistory.id h1 <> LoanHistory.id h2.
Proof.
  intros Hint.
  exists (deleted now1 loan_id reason1 db),
         (deleted now2 loan_id reason2 (deleted now1 loan_id reason1 db)).
  do 2 eexists.
  split; [apply delete_loan_bound; assumption|].
  split; [apply delete_loan_bound; assumption|].
  split.
  { unfold deleted; simpl. rewrite map_map. apply map_ext. intros r.
    destruct (Loans.id r =? loan_id) eqn:E; simpl; rewrite E; reflexivity. }
  split.
  { unfold deleted; simpl. rewrite <- app_assoc. reflexivity. }
  simpl. repeat split.
  unfold next_history_id at 2; simpl.
  rewrite max_rowid_app; simpl. unfold next_history_id. lia.
Qed.

Lemma delete_loan_twice_witness :
  exists db1 db2 h1 h2,
    delete_loan 2000 1 "repaid" sample_db = (true, [], db1) /\
    delete_loan 3000 1 "again" db1 = (true, [], db2) /\
    loans db2 = loans db1 /\
    loan_history db2 = loan_history sample_db ++ [h1; h2] /\
    LoanHistory.action h1 = "DELETE"%string /\
    LoanHistory.action h2 = "DELETE"%string /\
    LoanHistory.loan_id h1 = 1 /\
    LoanHistory.loan_id h2 = 1 /\
    LoanHistory.id h1 <> LoanHistory.id h2.
Proof.
  apply delete_loan_twice. reflexivity.
Defined.

(** ** The pages, beyond the claims *)

Lemma bucket_cases x :
  (is_critical x = true /\ is_warning x = false /\ is_healthy x = false) \/
  (is_critical x = false /\ is_warning x = true /\ is_healthy x = false) \/
  (is_critical x = false /\ is_warning x = false /\ is_healthy x = true).
Proof.
  unfold is_critical, is_warning, is_healthy.
  destruct (Z.leb_spec x 30), (Z.ltb_spec 30 x), (Z.leb_spec x 90),
    (Z.ltb_spec 90 x); simpl; try lia; tauto.
Qed.

(** X6: the three counters of the loan status summary (and of the risk
    analysis) count every listed loan exactly once: critical, warning and
    healthy add up to the number of rows of the frame, which is the number
    of Active rows of the table. *)
Theorem status_summary_counts_every_loan (today : date) (db : database)
    (views : list loan_view) :
  (critical_loans views + warning_loans views + healthy_loans views
   = List.length views)%nat /\
  (critical_loans (get_all_loans today db) +
   warning_loans (get_all_loans today db) +
   healthy_loans (get_all_loans today db)
   = List.length (filter active (loans db)))%nat.
Proof.
  assert (H : forall vs : list loan_view,
             (critical_loans vs + warning_loans vs + healthy_loans vs
              = List.length vs)%nat).
  { unfold critical_loans, warning_loans, healthy_loans, count_by.
    induction vs as [|v vs IH]; simpl; [reflexivity|].
    destruct (bucket_cases (days_remaining v)) as [(-> & -> & ->)|[(-> & -> & ->)|(-> & -> & ->)]];
      simpl; lia. }
  split; [apply H|].
  rewrite H. unfold get_all_loans. apply length_map.
Qed.

(** X7: the colour of a listed loan in terms of its end date.  The loan is
    red when it ends within 30 days or has ended, yellow when it ends in
    31 to 90 days and green when it ends later; its days remaining are
    never negative, and a loan whose end date is today or earlier has 0
    days remaining and is red. *)
Theorem listed_loan_colour (today : date) (db : database) (v : loan_view) :
  In v (get_all_loans today db) ->
  let left := PyDate.sub_days (Loans.end_date (view_row v)) today in
  0 <= days_remaining v /\
  (view_status_color v = "red"%string <-> left <= 30) /\
  (view_status_color v = "yellow"%string <-> 31 <= left <= 90) /\
  (view_status_color v = "green"%string <-> 90 < left) /\
  (PyDate.valid today = true ->
   PyDate.valid (Loans.end_date (view_row v)) = true ->
   PyDate.leb (Loans.end_date (view_row v)) today = true ->
   days_remaining v = 0 /\ view_status_color v = "red"%string).
Proof.
  unfold get_all_loans. intros Hin.
  apply in_map_iff in Hin as (x & <- & _). simpl.
  unfold calculate_days_remaining, status_color.
  set (d := PyDate.sub_days (Loans.end_date x) today).
  split; [lia|].
  destruct (Z.leb_spec (Z.max d 0) 30) as [H30|H30];
    [|destruct (Z.leb_spec (Z.max d 0) 90) as [H90|H90]].
  - split; [split; [lia|reflexivity]|].
    split; [split; [discriminate|lia]|].
    split; [split; [discriminate|lia]|].
    intros Vt Ve Hle. split; [|reflexivity].
    pose proof (PyDateFacts.toordinal_le _ _ Ve Vt Hle).
    unfold d, PyDate.sub_days. lia.
  - split; [split; [discriminate|lia]|].
    split; [split; [lia|reflexivity]|].
    split; [split; [discriminate|lia]|].
    intros Vt Ve Hle.
    pose proof (PyDateFacts.toordinal_le _ _ Ve Vt Hle).
    unfold d, PyDate.sub_days in *. lia.
  - split; [split; [discriminate|lia]|].
    split; [split; [discriminate|lia]|].
    split; [split; [lia|reflexivity]|].
    intros Vt Ve Hle.
    pose proof (PyDateFacts.toordinal_le _ _ Ve Vt Hle).
    unfold d, PyDate.sub_days in *. lia.
Qed.

Lemma listed_loan_colour_witness :
  let v := mkview (Loans.mkrow 1 "Asha" "Devi" ten_thousand ten_percent
                     (PyDate.mkdate 2024 1 1) (PyDate.mkdate 2024 12 31)
                     "Active" 1000)
                  (calculate_interest ten_thousand ten_percent
                     (PyDate.mkdate 2024 1 1) (PyDate.mkdate 2025 2 1))
                  (PyFloat.add ten_thousand
                     (calculate_interest ten_thousand ten_percent
                        (PyDate.mkdate 2024 1 1) (PyDate.mkdate 2025 2 1)))
                  0 "red" in
  days_remaining v = 0 /\ view_status_color v = "red"%string.
Proof.
  intros v.
  apply (listed_loan_colour (PyDate.mkdate 2025 2 1) sample_db v);
    vm_compute; auto.
Defined.

(** X8: the table of the page "Manage Loans" and the frame of
    [get_all_loans] colour by the same thresholds: the style is red,
    orange or green exactly when the status colour is red, yellow or
    green. *)
Theorem table_colour_follows_status_colour (x : Z) :
  (color_remaining_days x = "color: red"%string <-> status_color x = "red"%string) /\
  (color_remaining_days x = "color: orange"%string <-> status_color x = "yellow"%string) /\
  (color_remaining_days x = "color: green"%string <-> status_color x = "green"%string).
Proof.
  unfold color_remaining_days, status_color.
  destruct (x <=? 30); [|destruct (x <=? 90)];
    repeat split; intros H; try reflexivity; discriminate H.
Qed.

(** ** The history page *)

Section OrderFacts.

Lemma insert_desc_perm x l : Permutation (x :: l) (insert_desc x l).
Proof.
  induction l as [|y l IH]; simpl; [reflexivity|].
  destruct (h_action_timestamp y <=? h_action_timestamp x); [reflexivity|].
  rewrite perm_swap. apply perm_skip. exact IH.
Qed.

Lemma order_by_timestamp_desc_perm l :
  Permutation l (order_by_timestamp_desc l).
Proof.
  induction l as [|x l IH]; simpl; [reflexivity|].
  rewrite <- insert_desc_perm. apply perm_skip. exact IH.
Qed.

Lemma insert_desc_sorted x l :
  StronglySorted newer_or_same l ->
  StronglySorted newer_or_same (insert_desc x l).
Proof.
  induction 1 as [|y l Hs IH Hall]; simpl.
  - repeat constructor.
  - destruct (Z.leb_spec (h_action_timestamp y) (h_action_timestamp x)) as [Hle|Hgt].
    + constructor; [constructor; assumption|].
      constructor; [exact Hle|].
      rewrite Forall_forall in *. intros z Hz. specialize (Hall z Hz).
      unfold newer_or_same in *. lia.
    + constructor; [assumption|].
      rewrite Forall_forall in *. intros z Hz.
      apply insert_desc_In in Hz as [->|Hz]; [unfold newer_or_same; lia|auto].
Qed.

Lemma order_by_timestamp_desc_sorted l :
  StronglySorted newer_or_same (order_by_timestamp_desc l).
Proof.
  induction l as [|x l IH]; simpl; [constructor|].
  apply insert_desc_sorted. exact IH.
Qed.

Lemma filter_sorted {A} (R : A -> A -> Prop) (p : A -> bool) l :
  StronglySorted R l -> StronglySorted R (filter p l).
Proof.
  induction 1 as [|x l Hs IH Hall]; simpl; [constructor|].
  destruct (p x); [|assumption].
  constructor; [assumption|].
  rewrite Forall_forall in *. intros y Hy. apply filter_In in Hy as [Hy _]. auto.
Qed.

Lemma unique_In x l : In x (unique l) <-> In x l.
Proof.
  induction l as [|y l IH]; simpl; [tauto|].
  rewrite filter_In, IH, negb_true_iff.
  destruct (String.eqb_spec y x) as [->|Hne]; intuition congruence.
Qed.

Lemma isin_In x values : isin x values = true <-> In x values.
Proof.
  unfold isin. rewrite existsb_exists. split.
  - intros (y & Hy & E). apply String.eqb_eq in E. subst. assumption.
  - intros H. exists x. split; [assumption|apply String.eqb_refl].
Qed.

End OrderFacts.

(** X9: [get_loan_history] returns the rows of the join, each as often as
    the join has it, newest first: every row is followed only by rows
    whose timestamp is not later. *)
Theorem loan_history_is_newest_first (db : database) :
  Permutation (join_history db) (get_loan_history db) /\
  StronglySorted newer_or_same (get_loan_history db).
Proof.
  unfold get_loan_history. split.
  - apply order_by_timestamp_desc_perm.
  - apply order_by_timestamp_desc_sorted.
Qed.

(** X10: the two multiselects of the history page.  With their defaults,
    every action and every farmer of the frame, the page shows the whole
    frame.  With any selection it shows rows of the frame only, those whose
    action and farmer are both selected, and still newest first. *)
Theorem history_filters (db : database)
    (selected_actions selected_farmers : list string) :
  let history_df := get_loan_history db in
  filtered_history (default_actions history_df) (default_farmers history_df)
                   history_df = history_df /\
  (forall row, In row (filtered_history selected_actions selected_farmers history_df)
     <-> In row history_df /\ In (h_action row) selected_actions /\
         In (h_farmer_name row) selected_farmers) /\
  StronglySorted newer_or_same
    (filtered_history selected_actions selected_farmers history_df).
Proof.
  intros history_df. split; [|split].
  - unfold filtered_history, default_actions, default_farmers.
    apply forallb_filter_id. apply forallb_forall. intros row Hrow.
    apply andb_true_iff. split; apply isin_In, unique_In, in_map; exact Hrow.
  - intros row. unfold filtered_history.
    rewrite filter_In, andb_true_iff, !isin_In. tauto.
  - apply filter_sorted. apply order_by_timestamp_desc_sorted.
Qed.

(** ** What every run of the program keeps *)

Section WriterFacts.

(** What a writer leaves behind: the database as it was, when it failed,
    or one of three shapes. *)
Lemma run_mutation_cases now m db :
  (fst (fst (run_mutation now m db)) = false /\ snd (run_mutation now m db) = db) \/
  fst (fst (run_mutation now m db)) = true /\
  ((exists farmer father amount rate sd ed,
      m = AddLoan farmer father amount rate sd ed /\
      snd (run_mutation now m db) =
      mkdb (loans db ++
              [Loans.mkrow (next_loan_id db) farmer father
                           (sqlite_real amount) (sqlite_real rate) sd ed
                           "Active" now])
           (loan_history db ++
              [LoanHistory.mkrow (next_history_id db) (next_loan_id db) "CREATE" now
                 ("Loan created for " ++ farmer ++ " (s/o " ++ father ++
                  ") with amount ₹" ++ PyFloat.format_comma_2f amount)])
           (next_loan_id db) (next_history_id db)) \/
   (exists loan_id d reason,
      m = UpdateEndDate loan_id d reason /\
      snd (run_mutation now m db) = end_date_updated now loan_id d reason db) \/
   (exists loan_id reason,
      m = SoftDelete loan_id reason /\
      snd (run_mutation now m db) = deleted now loan_id reason db)).
Proof.
  destruct (run_mutation now m db) as [[[|] msgs] db'] eqn:H; simpl.
  - right. split; [reflexivity|].
    destruct m as [farmer father amount rate sd ed|loan_id d reason|loan_id reason];
      simpl in H.
    + left. apply add_loan_success in H. subst db'.
      exists farmer, father, amount, rate, sd, ed. auto.
    + right. left. exists loan_id, d, reason. split; [reflexivity|].
      destruct (sqlite_integer loan_id) eqn:E.
      * rewrite update_loan_end_date_bound in H by assumption. congruence.
      * rewrite update_loan_end_date_unbound in H by assumption. discriminate.
    + right. right. exists loan_id, reason. split; [reflexivity|].
      destruct (sqlite_integer loan_id) eqn:E.
      * rewrite delete_loan_bound in H by assumption. congruence.
      * rewrite delete_loan_unbound in H by assumption. discriminate.
  - left. split; [reflexivity|].
    apply (failed_mutation_writes_nothing now m db msgs db'). exact H.
Qed.

Lemma next_history_id_fresh db h :
  In h (loan_history db) -> LoanHistory.id h < next_history_id db.
Proof.
  unfold next_history_id. intros Hh.
  pose proof (max_rowid_ge LoanHistory.id (loan_history db) h Hh). lia.
Qed.

Lemma NoDup_snoc (l : list Z) x : NoDup l -> ~ In x l -> NoDup (l ++ [x]).
Proof.
  intros Hl Hx. apply NoDup_app; [assumption|repeat constructor; simpl; tauto|].
  intros y Hy [<-|[]]. contradiction.
Qed.

Lemma consistent_history_snoc loans' db h seq :
  consistent db ->
  loan_ids (mkdb loans' [] 0 0) = loan_ids db ->
  (forall r', In r' loans' ->
     (Loans.status r' = "Active"%string \/ Loans.status r' = "Inactive"%string)) ->
  LoanHistory.id h = next_history_id db ->
  seq = next_history_id db ->
  consistent (mkdb loans' (loan_history db ++ [h]) (loans_seq db) seq).
Proof.
  intros (Hnd & Hb & Hhnd & Hhb & Hst & Hcr) Hids Hst' Hid ->.
  unfold consistent, loan_ids in *; simpl in *.
  rewrite Hids. repeat split; try assumption.
  - apply Hb; assumption.
  - apply Hb; assumption.
  - rewrite map_app; simpl. apply NoDup_snoc; [assumption|].
    rewrite Hid. intros Hin. apply in_map_iff in Hin as (h0 & E & Hh0).
    apply next_history_id_fresh in Hh0. lia.
  - apply in_app_iff in H as [H|[<-|[]]].
    + apply Hhb; assumption.
    + rewrite Hid. unfold next_history_id.
      pose proof (max_rowid_nonneg LoanHistory.id (loan_history db)). lia.
  - apply in_app_iff in H as [H|[<-|[]]].
    + apply Hhb in H. unfold next_history_id. lia.
    + lia.
  - intros r' Hr'.
    assert (Hin : In (Loans.id r') (map Loans.id (loans db))).
    { rewrite <- Hids. apply in_map. assumption. }
    apply in_map_iff in Hin as (r & E & Hr).
    destruct (Hcr r Hr) as (h0 & Hh0 & El & Ea).
    exists h0. split; [apply in_or_app; left; assumption|].
    split; congruence.
Qed.

Lemma run_mutation_consistent now m db :
  consistent db -> consistent (snd (run_mutation now m db)).
Proof.
  intros Hc.
  destruct (run_mutation_cases now m db) as [[_ ->]|[_ [H|[H|H]]]];
    [assumption| | |].
  - destruct H as (farmer & father & amount & rate & sd & ed & _ & ->).
    destruct Hc as (Hnd & Hb & Hhnd & Hhb & Hst & Hcr).
    unfold consistent, loan_ids in *; simpl.
    rewrite !map_app; simpl.
    assert (Hn : loans_seq db < next_loan_id db) by (unfold next_loan_id; lia).
    assert (Hhn : loan_history_seq db < next_history_id db)
      by (unfold next_history_id; lia).
    assert (Hn0 : 1 <= next_loan_id db).
    { unfold next_loan_id.
      pose proof (max_rowid_nonneg Loans.id (loans db)). lia. }
    assert (Hhn0 : 1 <= next_history_id db).
    { unfold next_history_id.
      pose proof (max_rowid_nonneg LoanHistory.id (loan_history db)). lia. }
    split; [|split; [|split; [|split; [|split]]]].
    + apply NoDup_snoc; [assumption|]. intros Hin. apply Hb in Hin. lia.
    + intros i Hi. apply in_app_iff in Hi as [Hi|[<-|[]]]; [apply Hb in Hi|]; lia.
    + apply NoDup_snoc; [assumption|]. intros Hin.
      apply in_map_iff in Hin as (h0 & E & Hh0). apply Hhb in Hh0. lia.
    + intros h Hh. apply in_app_iff in Hh as [Hh|[<-|[]]]; [apply Hhb in Hh|simpl]; lia.
    + intros r Hr. apply in_app_iff in Hr as [Hr|[<-|[]]]; [auto|simpl; auto].
    + intros r Hr. apply in_app_iff in Hr as [Hr|[<-|[]]].
      * destruct (Hcr r Hr) as (h0 & Hh0 & El & Ea).
        exists h0. split; [apply in_or_app; left; assumption|auto].
      * eexists. split; [apply in_or_app; right; left; reflexivity|].
        simpl. auto.
  - destruct H as (loan_id & d & reason & _ & ->).
    unfold end_date_updated.
    apply consistent_history_snoc; try reflexivity; try assumption.
    + unfold loan_ids; simpl. apply update_rows_ids. reflexivity.
    + intros r' Hr'. apply in_map_iff in Hr' as (r & <- & Hr).
      destruct Hc as (_ & _ & _ & _ & Hst & _).
      destruct (Loans.id r =? loan_id); simpl; auto.
  - destruct H as (loan_id & reason & _ & ->).
    unfold deleted.
    apply consistent_history_snoc; try reflexivity; try assumption.
    + unfold loan_ids; simpl. apply update_rows_ids. reflexivity.
    + intros r' Hr'. apply in_map_iff in Hr' as (r & <- & Hr).
      destruct Hc as (_ & _ & _ & _ & Hst & _).
      destruct (Loans.id r =? loan_id); simpl; auto.
Qed.

Lemma reachable_consistent db : reachable db -> consistent db.
Proof.
  induction 1 as [|now m db Hr IH].
  - unfold consistent, init_db, loan_ids; simpl.
    repeat split; try constructor; intros; try tauto; contradiction.
  - apply run_mutation_consistent. exact IH.
Qed.

End WriterFacts.

Section ReachableFacts.

Lemma add_loan_id_fits now farmer father amount rate sd ed db msgs db' :
  add_loan now farmer father amount rate sd ed db = (true, msgs, db') ->
  sqlite_integer (next_loan_id db) = true.
Proof.
  unfold add_loan, try_commit, insert_loan, insert_history, sql_bind,
    bind_real_not_null, bind_int, sql_raise, sql_ret.
  destruct (PyFloat.is_nan amount); [discriminate|].
  destruct (PyFloat.is_nan rate); [discriminate|].
  destruct (sqlite_integer (next_loan_id db)); [reflexivity|discriminate].
Qed.

Lemma reachable_seq_fits db : reachable db -> loans_seq db < 2 ^ 63.
Proof.
  induction 1 as [|now m db Hr IH]; [reflexivity|].
  destruct (run_mutation now m db) as [[[|] msgs] db'] eqn:H; simpl.
  - destruct m as [farmer father amount rate sd ed|loan_id d reason|loan_id reason];
      simpl in H.
    + pose proof (add_loan_id_fits _ _ _ _ _ _ _ _ _ _ H) as Hfit.
      apply add_loan_success in H. subst db'. simpl.
      unfold sqlite_integer in Hfit. apply andb_true_iff in Hfit as [_ Hfit].
      apply Z.ltb_lt in Hfit. exact Hfit.
    + destruct (sqlite_integer loan_id) eqn:E.
      * rewrite update_loan_end_date_bound in H by assumption.
        injection H as _ <-. exact IH.
      * rewrite update_loan_end_date_unbound in H by assumption. discriminate.
    + destruct (sqlite_integer loan_id) eqn:E.
      * rewrite delete_loan_bound in H by assumption.
        injection H as _ <-. exact IH.
      * rewrite delete_loan_unbound in H by assumption. discriminate.
  - rewrite (failed_mutation_writes_nothing now m db msgs db' H). exact IH.
Qed.

Lemma reachable_id_fits db i :
  reachable db -> In i (loan_ids db) -> sqlite_integer i = true.
Proof.
  intros Hr Hi.
  destruct (reachable_consistent db Hr) as (_ & Hb & _).
  pose proof (reachable_seq_fits db Hr). apply Hb in Hi.
  unfold sqlite_integer. apply andb_true_iff.
  split; [apply Z.leb_le|apply Z.ltb_lt]; lia.
Qed.

Lemma joined_length_le_1 rows h :
  NoDup (map Loans.id rows) -> (List.length (joined rows h) <= 1)%nat.
Proof.
  unfold joined. rewrite length_map.
  induction rows as [|l rows IH]; simpl; intros Hnd; [lia|].
  inversion Hnd as [|? ? Hnot Hnd']; subst.
  destruct (LoanHistory.loan_id h =? Loans.id l) eqn:E; [|auto].
  apply Z.eqb_eq in E. simpl.
  assert (Hnil : filter (fun l0 => LoanHistory.loan_id h =? Loans.id l0) rows = []).
  { destruct (filter _ rows) as [|x xs] eqn:F; [reflexivity|].
    assert (Hx : In x (filter (fun l0 => LoanHistory.loan_id h =? Loans.id l0) rows))
      by (rewrite F; left; reflexivity).
    apply filter_In in Hx as [Hx Ex]. apply Z.eqb_eq in Ex.
    exfalso. apply Hnot. rewrite <- E, Ex. apply in_map. assumption. }
  rewrite Hnil. simpl. lia.
Qed.

Lemma flat_map_length_le {A B} (f : A -> list B) l :
  (forall x, In x l -> (List.length (f x) <= 1)%nat) ->
  (List.length (flat_map f l) <= List.length l)%nat.
Proof.
  induction l as [|x l IH]; simpl; intros H; [lia|].
  rewrite length_app.
  pose proof (H x (or_introl eq_refl)).
  specialize (IH (fun y Hy => H y (or_intror Hy))). lia.
Qed.

End ReachableFacts.

(** X11: in every state that the program can produce, the loans have
    distinct ids, all positive, none above the counter of the table and
    all fitting a 64-bit integer; the history entries have distinct ids;
    and the status of a loan is Active or Inactive. *)
Theorem reachable_ids_are_distinct (db : database) :
  reachable db ->
  NoDup (loan_ids db) /\
  (forall i, In i (loan_ids db) ->
             1 <= i <= loans_seq db /\ sqlite_integer i = true) /\
  NoDup (map LoanHistory.id (loan_history db)) /\
  (forall r, In r (loans db) ->
             Loans.status r = "Active"%string \/
             Loans.status r = "Inactive"%string).
Proof.
  intros Hr.
  destruct (reachable_consistent db Hr) as (Hnd & Hb & Hhnd & _ & Hst & _).
  repeat split; try assumption; try (apply Hb; assumption).
  apply (reachable_id_fits db); assumption.
Qed.

Lemma reachable_ids_are_distinct_witness :
  NoDup (loan_ids sample_db) /\
  (forall i, In i (loan_ids sample_db) ->
             1 <= i <= loans_seq sample_db /\ sqlite_integer i = true) /\
  NoDup (map LoanHistory.id (loan_history sample_db)) /\
  (forall r, In r (loans sample_db) ->
             Loans.status r = "Active"%string \/
             Loans.status r = "Inactive"%string).
Proof.
  apply reachable_ids_are_distinct.
  exact (reachable_step 1000
           (AddLoan "Asha" "Devi" ten_thousand ten_percent
                    (PyDate.mkdate 2024 1 1) (PyDate.mkdate 2024 12 31))
           init_db reachable_init).
Defined.

(** X12: in every state that the program can produce, the history page
    shows the creation of every loan of the table, deleted or not, under
    the names of the loan, and it shows no entry of the history more than
    once: its rows are, in another order, the rows that the entries
    contribute to the join, every entry contributes at most one row, and
    so there are no more rows than entries. *)
Theorem reachable_history_shows_every_loan (db : database) :
  reachable db ->
  (forall r, In r (loans db) ->
     exists v, In v (get_loan_history db) /\
               h_action v = "CREATE"%string /\
               h_farmer_name v = Loans.farmer_name r /\
               h_father_name v = Loans.father_name r) /\
  Permutation (flat_map (joined (loans db)) (loan_history db))
              (get_loan_history db) /\
  (forall h, (List.length (joined (loans db) h) <= 1)%nat) /\
  (List.length (get_loan_history db) <= List.length (loan_history db))%nat.
Proof.
  intros Hr.
  destruct (reachable_consistent db Hr) as (Hnd & _ & _ & _ & _ & Hcr).
  split; [|split; [|split]].
  - intros r Hin. destruct (Hcr r Hin) as (h & Hh & El & Ea).
    eexists. split; [apply (join_history_In db h r); assumption|].
    simpl. auto.
  - apply (order_by_timestamp_desc_perm (join_history db)).
  - intros h. apply joined_length_le_1. exact Hnd.
  - unfold get_loan_history.
    rewrite <- (Permutation_length (order_by_timestamp_desc_perm (join_history db))).
    unfold join_history. apply flat_map_length_le.
    intros h _. apply joined_length_le_1. exact Hnd.
Qed.

Lemma reachable_history_shows_every_loan_witness :
  (forall r, In r (loans sample_db) ->
     exists v, In v (get_loan_history sample_db) /\
               h_action v = "CREATE"%string /\
               h_farmer_name v = Loans.farmer_name r /\
               h_father_name v = Loans.father_name r) /\
  Permutation (flat_map (joined (loans sample_db)) (loan_history sample_db))
              (get_loan_history sample_db) /\
  (forall h, (List.length (joined (loans sample_db) h) <= 1)%nat) /\
  (List.length (get_loan_history sample_db)
   <= List.length (loan_history sample_db))%nat.
Proof.
  apply reachable_history_shows_every_loan.
  exact (reachable_step 1000
           (AddLoan "Asha" "Devi" ten_thousand ten_percent
                    (PyDate.mkdate 2024 1 1) (PyDate.mkdate 2024 12 31))
           init_db reachable_init).
Defined.

(** X13: no writer removes or rewrites anything of the history, and none
    removes a loan: after any call the history is the old one with at most
    one entry appended, and the ids of the loans are the old ones with at
    most one appended.  A call that returns [False] reports one error and
    leaves the database exactly as it was. *)
Theorem writers_only_append (now : timestamp) (m : mutation) (db : database) :
  (exists hs, loan_history (snd (run_mutation now m db)) = loan_history db ++ hs /\
              (List.length hs <= 1)%nat) /\
  (exists ids, loan_ids (snd (run_mutation now m db)) = loan_ids db ++ ids /\
               (List.length ids <= 1)%nat) /\
  (fst (fst (run_mutation now m db)) = false ->
   snd (run_mutation now m db) = db /\
   exists text, snd (fst (run_mutation now m db)) = [st_error text]).
Proof.
  split; [|split].
  - destruct (run_mutation_cases now m db) as [[_ ->]|[_ [H|[H|H]]]].
    + exists []. rewrite app_nil_r. auto.
    + destruct H as (? & ? & ? & ? & ? & ? & _ & ->). simpl. eauto.
    + destruct H as (? & ? & ? & _ & ->). simpl. eauto.
    + destruct H as (? & ? & _ & ->). simpl. eauto.
  - destruct (run_mutation_cases now m db) as [[_ ->]|[_ [H|[H|H]]]].
    + exists []. rewrite app_nil_r. auto.
    + destruct H as (? & ? & ? & ? & ? & ? & _ & ->).
      unfold loan_ids; simpl. rewrite map_app. simpl. eauto.
    + destruct H as (loan_id & ? & ? & _ & ->). exists [].
      rewrite app_nil_r. split; [|auto].
      unfold loan_ids, end_date_updated; simpl. apply update_rows_ids. reflexivity.
    + destruct H as (loan_id & ? & _ & ->). exists [].
      rewrite app_nil_r. split; [|auto].
      unfold loan_ids, deleted; simpl. apply update_rows_ids. reflexivity.
  - destruct m; simpl;
      [unfold add_loan|unfold update_loan_end_date|unfold delete_loan];
      unfold try_commit;
      match goal with |- context [match ?b db with _ => _ end] =>
        destruct (b db) as [e|[u d]] end;
      simpl; intros H; try discriminate H; split; eauto.
Qed.

Lemma writers_only_append_witness :
  snd (run_mutation 2000 (SoftDelete (2 ^ 63) "gone") sample_db) = sample_db /\
  exists text,
    snd (fst (run_mutation 2000 (SoftDelete (2 ^ 63) "gone") sample_db))
    = [st_error text].
Proof.
  apply (writers_only_append 2000 (SoftDelete (2 ^ 63) "gone") sample_db).
  vm_compute. reflexivity.
Defined.

(** X14: the loans that the page "Manage Loans" offers for an update or a
    deletion are Active loans of the table.  In a state that the program
    can produce, an update or a deletion of an offered loan therefore
    succeeds and is shown on the history page, with the time and the
    details of the call. *)
Theorem offered_loan_can_be_managed (today : date) (db : database) (loan_id : Z) :
  reachable db ->
  In loan_id (offered_ids today db) ->
  (exists r, In r (loans db) /\ Loans.id r = loan_id /\
             Loans.status r = "Active"%string) /\
  (forall now new_end_date reason,
     exists db' v,
       update_loan_end_date now loan_id new_end_date reason db = (true, [], db') /\
       In v (get_loan_history db') /\
       h_action v = "UPDATE"%string /\
       h_action_timestamp v = now /\
       h_details v = ("End date updated to " ++ date_str new_end_date ++
                      ". Reason: " ++ reason)%string) /\
  (forall now reason,
     exists db' v,
       delete_loan now loan_id reason db = (true, [], db') /\
       In v (get_loan_history db') /\
       h_action v = "DELETE"%string /\
       h_action_timestamp v = now /\
       h_details v = ("Loan marked as inactive. Reason: " ++ reason)%string).
Proof.
  intros Hr Hoff.
  unfold offered_ids, get_all_loans in Hoff. rewrite map_map in Hoff; simpl in Hoff.
  apply in_map_iff in Hoff as (r & Hid & Hin).
  apply filter_In in Hin as [Hin Hact].
  apply String.eqb_eq in Hact.
  assert (Hids : In loan_id (loan_ids db))
    by (unfold loan_ids; rewrite <- Hid; apply in_map; assumption).
  pose proof (reachable_id_fits db loan_id Hr Hids) as Hfit.
  split; [exists r; auto|]. split.
  - intros now d reason.
    exists (end_date_updated now loan_id d reason db).
    eexists. split; [apply update_loan_end_date_bound; assumption|].
    split.
    + apply (join_history_In _
               (LoanHistory.mkrow (next_history_id db) loan_id "UPDATE" now
                  ("End date updated to " ++ date_str d ++ ". Reason: " ++ reason))
               (if Loans.id r =? loan_id then Loans.set_end_date d r else r)).
      * unfold end_date_updated; simpl. apply in_or_app. right. left. reflexivity.
      * unfold end_date_updated; simpl. apply in_map_iff. exists r. auto.
      * simpl. destruct (Loans.id r =? loan_id); simpl; congruence.
    + simpl. auto.
  - intros now reason.
    exists (deleted now loan_id reason db).
    eexists. split; [apply delete_loan_bound; assumption|].
    split.
    + apply (join_history_In _
               (LoanHistory.mkrow (next_history_id db) loan_id "DELETE" now
                  ("Loan marked as inactive. Reason: " ++ reason))
               (if Loans.id r =? loan_id then Loans.set_status "Inactive" r else r)).
      * unfold deleted; simpl. apply in_or_app. right. left. reflexivity.
      * unfold deleted; simpl. apply in_map_iff. exists r. auto.
      * simpl. destruct (Loans.id r =? loan_id); simpl; congruence.
    + simpl. auto.
Qed.

Lemma offered_loan_can_be_managed_witness :
  (exists r, In r (loans sample_db) /\ Loans.id r = 1 /\
             Loans.status r = "Active"%string) /\
  (forall now new_end_date reason,
     exists db' v,
       update_loan_end_date now 1 new_end_date reason sample_db = (true, [], db') /\
       In v (get_loan_history db') /\
       h_action v = "UPDATE"%string /\
       h_action_timestamp v = now /\
       h_details v = ("End date updated to " ++ date_str new_end_date ++
                      ". Reason: " ++ reason)%string) /\
  (forall now reason,
     exists db' v,
       delete_loan now 1 reason sample_db = (true, [], db') /\
       In v (get_loan_history db') /\
       h_action v = "DELETE"%string /\
       h_action_timestamp v = now /\
       h_details v = ("Loan marked as inactive. Reason: " ++ reason)%string).
Proof.
  apply (offered_loan_can_be_managed (PyDate.mkdate 2024 7 1) sample_db 1).
  - exact (reachable_step 1000
             (AddLoan "Asha" "Devi" ten_thousand ten_percent
                      (PyDate.mkdate 2024 1 1) (PyDate.mkdate 2024 12 31))
             init_db reachable_init).
  - vm_compute. left. reflexivity.
Defined.

(** ** The accrual calculator, beyond the claims *)

(** X15: for an amount and a rate that are not below zero, and a period
    that does not end before it starts, [calculate_interest] does not
    return a number below zero. *)
Theorem interest_is_not_negative (amount rate : float) (start_date end_date : date) :
  PyFloat.leb PyFloat.zero amount = true ->
  PyFloat.leb PyFloat.zero rate = true ->
  PyDate.valid start_date = true ->
  PyDate.valid end_date = true ->
  PyDate.leb start_date end_date = true ->
  PyFloat.ltb (calculate_interest amount rate start_date end_date) PyFloat.zero
  = false.
Proof.
  intros Ha Hr Vs Ve Hle.
  apply FloatSignFacts.leb_zero_not_negative in Ha as [Ha _].
  apply FloatSignFacts.leb_zero_not_negative in Hr as [Hr _].
  pose proof (PyDateFacts.toordinal_le _ _ Vs Ve Hle) as Hd.
  unfold calculate_interest. rewrite FloatSignFacts.of_int_36500.
  apply FloatSignFacts.not_negative_not_below_zero.
  apply FloatSignFacts.round2_not_negative.
  apply FloatSignFacts.div_not_negative.
  apply FloatSignFacts.mul_not_negative.
  - apply FloatSignFacts.mul_not_negative; assumption.
  - apply FloatSignFacts.of_int_not_negative. unfold PyDate.sub_days. lia.
Qed.

Lemma interest_is_not_negative_witness :
  PyFloat.ltb (calculate_interest ten_thousand ten_percent
                 (PyDate.mkdate 2024 1 1) (PyDate.mkdate 2024 7 1))
              PyFloat.zero
  = false.
Proof.
  apply interest_is_not_negative; reflexivity.
Defined.

(** X16: the day count is not clamped.  For a period that ends before it
    starts, [calculate_interest] returns the interest of the reversed
    period with the opposite sign; for an amount and a rate that are not
    below zero the result is therefore never above zero. *)
Theorem interest_of_reversed_period (amount rate : float)
    (start_date end_date : date) :
  PyDate.valid start_date = true ->
  PyDate.valid end_date = true ->
  PyDate.ltb end_date start_date = true ->
  calculate_interest amount rate start_date end_date
    = FloatSign.neg (calculate_interest amount rate end_date start_date) /\
  (PyFloat.leb PyFloat.zero amount = true ->
   PyFloat.leb PyFloat.zero rate = true ->
   PyFloat.ltb PyFloat.zero (calculate_interest amount rate start_date end_date)
   = false).
Proof.
  intros Vs Ve Hlt.
  pose proof (PyDateFacts.ltb_toordinal _ _ Ve Vs Hlt) as Hd.
  assert (Heq : calculate_interest amount rate start_date end_date
                = FloatSign.neg (calculate_interest amount rate end_date start_date)).
  { unfold calculate_interest, PyDate.sub_days.
    replace (PyDate.toordinal end_date - PyDate.toordinal start_date)
      with (- (PyDate.toordinal start_date - PyDate.toordinal end_date)) by lia.
    rewrite FloatSignFacts.of_int_neg by lia.
    rewrite FloatSignFacts.mul_neg_r, FloatSignFacts.div_neg_l,
      FloatSignFacts.round2_neg.
    reflexivity. }
  split; [exact Heq|].
  intros Ha Hr. rewrite Heq.
  apply FloatSignFacts.not_positive_not_above_zero.
  apply FloatSignFacts.neg_not_negative.
  apply FloatSignFacts.leb_zero_not_negative in Ha as [Ha _].
  apply FloatSignFacts.leb_zero_not_negative in Hr as [Hr _].
  unfold calculate_interest. rewrite FloatSignFacts.of_int_36500.
  apply FloatSignFacts.round2_not_negative.
  apply FloatSignFacts.div_not_negative.
  apply FloatSignFacts.mul_not_negative.
  - apply FloatSignFacts.mul_not_negative; assumption.
  - apply FloatSignFacts.of_int_not_negative. unfold PyDate.sub_days. lia.
Qed.

Lemma interest_of_reversed_period_witness :
  calculate_interest ten_thousand ten_percent
    (PyDate.mkdate 2024 1 6) (PyDate.mkdate 2024 1 1)
  = S754_finite true 7712414361871974 (-49) /\
  calculate_interest ten_thousand ten_percent
    (PyDate.mkdate 2024 1 1) (PyDate.mkdate 2024 1 6)
  = S754_finite false 7712414361871974 (-49).
Proof.
  destruct (interest_of_reversed_period ten_thousand ten_percent
              (PyDate.mkdate 2024 1 6) (PyDate.mkdate 2024 1 1))
    as [Heq _]; try reflexivity.
  split; [rewrite Heq|]; vm_compute; reflexivity.
Defined.

(** X17: on the start date itself no interest has accrued.  When the
    product of amount and rate is finite, [calculate_interest] returns a
    zero for a period of no days, and the total of an amount that passed
    the check of the form is the amount itself. *)
Theorem interest_on_the_start_date (amount rate : float) (start_date : date) :
  FloatSign.is_finite (PyFloat.mul amount rate) = true ->
  FloatSign.is_zero (calculate_interest amount rate start_date start_date) = true /\
  (PyFloat.leb amount PyFloat.zero = false ->
   PyFloat.add amount (calculate_interest amount rate start_date start_date)
   = amount).
Proof.
  intros Hfin.
  assert (Hz : exists s, calculate_interest amount rate start_date start_date
                         = S754_zero s).
  { unfold calculate_interest, PyDate.sub_days.
    rewrite Z.sub_diag, FloatSignFacts.of_int_36500.
    change (PyFloat.of_int 0) with (S754_zero false).
    destruct (PyFloat.mul amount rate) as [s|s| |s m e]; try discriminate Hfin;
      simpl; eauto. }
  destruct Hz as [s Hz]. rewrite Hz. split; [reflexivity|].
  intros Hpos.
  destruct amount as [sa|sa| |[|] ma ea]; try discriminate Hpos; reflexivity.
Qed.

Lemma interest_on_the_start_date_witness :
  FloatSign.is_zero (calculate_interest ten_thousand ten_percent
                       (PyDate.mkdate 2024 1 1) (PyDate.mkdate 2024 1 1)) = true /\
  (PyFloat.leb ten_thousand PyFloat.zero = false ->
   PyFloat.add ten_thousand
     (calculate_interest ten_thousand ten_percent
        (PyDate.mkdate 2024 1 1) (PyDate.mkdate 2024 1 1))
   = ten_thousand).
Proof.
  apply interest_on_the_start_date. vm_compute. reflexivity.
Defined.

(** X18: the monthly interest of the analytics is not below zero for an
    amount and a rate that are not below zero. *)
Theorem monthly_interest_is_not_negative (loan_amount interest_rate : float) :
  PyFloat.leb PyFloat.zero loan_amount = true ->
  PyFloat.leb PyFloat.zero interest_rate = true ->
  PyFloat.ltb (monthly_interest loan_amount interest_rate) PyFloat.zero = false.
Proof.
  intros Ha Hr.
  apply FloatSignFacts.leb_zero_not_negative in Ha as [Ha _].
  apply FloatSignFacts.leb_zero_not_negative in Hr as [Hr _].
  unfold monthly_interest.
  replace (PyFloat.of_int 100) with (S754_finite false 7036874417766400 (-46))
    by (vm_compute; reflexivity).
  replace (PyFloat.of_int 12) with (S754_finite false 6755399441055744 (-49))
    by (vm_compute; reflexivity).
  apply FloatSignFacts.not_negative_not_below_zero.
  apply FloatSignFacts.div_not_negative.
  apply FloatSignFacts.mul_not_negative; [assumption|].
  apply FloatSignFacts.div_not_negative. assumption.
Qed.

Lemma monthly_interest_is_not_negative_witness :
  PyFloat.ltb (monthly_interest ten_thousand ten_percent) PyFloat.zero = false.
Proof.
  apply monthly_interest_is_not_negative; reflexivity.
Defined.

Section OrdinalFacts.

(** The ordinals of the dates that exist. *)
Lemma toordinal_bounds d :
  PyDate.valid d = true -> 1 <= PyDate.toordinal d <= 3652060.
Proof.
  intros V.
  pose proof (PyDateFacts.valid_bounds d V) as (Hy & _ & _).
  pose proof (PyDateFacts.day_of_year_bound d V) as Hd.
  pose proof (PyDateFacts.days_before_year_mono 1 (PyDate.year d) ltac:(lia)) as H1.
  pose proof (PyDateFacts.days_before_year_mono (PyDate.year d) 9999 ltac:(lia)) as H2.
  change (PyDate.days_before_year 1) with 0 in H1.
  change (PyDate.days_before_year 9999) with 3651694 in H2.
  unfold PyDate.toordinal.
  destruct (PyDate.is_leap (PyDate.year d)); lia.
Qed.

Lemma calculate_interest_accrue amount rate start_date end_date :
  calculate_interest amount rate start_date end_date
  = accrue (PyFloat.mul amount rate) (PyDate.sub_days end_date start_date).
Proof. reflexivity. Qed.

End OrdinalFacts.

(** X19: the interest grows with the period.  For an amount and a rate
    that are numbers not below zero with a finite product, a period that
    starts no earlier and ends no later than another one never yields more
    interest; in particular the interest of a loan never decreases as the
    as-of date advances. *)
Theorem interest_grows_with_the_period
    (amount rate : float) (start1 end1 start2 end2 : date) :
  PyFloat.valid amount = true ->
  PyFloat.valid rate = true ->
  PyFloat.leb PyFloat.zero amount = true ->
  PyFloat.leb PyFloat.zero rate = true ->
  FloatSign.is_finite (PyFloat.mul amount rate) = true ->
  PyDate.valid start1 = true -> PyDate.valid end1 = true ->
  PyDate.valid start2 = true -> PyDate.valid end2 = true ->
  PyDate.leb start2 start1 = true ->
  PyDate.leb end1 end2 = true ->
  PyFloat.leb (calculate_interest amount rate start1 end1)
              (calculate_interest amount rate start2 end2) = true.
Proof.
  intros Va Vr Pa Pr F Vs1 Ve1 Vs2 Ve2 Hs He.
  destruct (PipelineFacts.mul_ordered amount rate Va Vr Pa Pr F) as [Oc Nc].
  pose proof (toordinal_bounds _ Vs1). pose proof (toordinal_bounds _ Ve1).
  pose proof (toordinal_bounds _ Vs2). pose proof (toordinal_bounds _ Ve2).
  pose proof (PyDateFacts.toordinal_le _ _ Vs2 Vs1 Hs).
  pose proof (PyDateFacts.toordinal_le _ _ Ve1 Ve2 He).
  rewrite !calculate_interest_accrue.
  apply PipelineFacts.accrue_mono; try assumption;
    unfold PyDate.sub_days; lia.
Qed.

Lemma interest_grows_with_the_period_witness :
  PyFloat.leb
    (calculate_interest ten_thousand ten_percent
       (PyDate.mkdate 2024 1 1) (PyDate.mkdate 2024 3 1))
    (calculate_interest ten_thousand ten_percent
       (PyDate.mkdate 2024 1 1) (PyDate.mkdate 2024 7 1)) = true.
Proof.
  apply interest_grows_with_the_period; reflexivity.
Defined.

Lemma calculate_interest_not_negative amount rate start_date end_date :
  PyFloat.leb PyFloat.zero amount = true ->
  PyFloat.leb PyFloat.zero rate = true ->
  PyDate.valid start_date = true ->
  PyDate.valid end_date = true ->
  PyDate.leb start_date end_date = true ->
  FloatSign.not_negative (calculate_interest amount rate start_date end_date)
  = true.
Proof.
  intros Ha Hr Vs Ve Hle.
  apply FloatSignFacts.leb_zero_not_negative in Ha as [Ha _].
  apply FloatSignFacts.leb_zero_not_negative in Hr as [Hr _].
  pose proof (PyDateFacts.toordinal_le _ _ Vs Ve Hle) as Hd.
  unfold calculate_interest. rewrite FloatSignFacts.of_int_36500.
  apply FloatSignFacts.round2_not_negative.
  apply FloatSignFacts.div_not_negative.
  apply FloatSignFacts.mul_not_negative.
  - apply FloatSignFacts.mul_not_negative; assumption.
  - apply FloatSignFacts.of_int_not_negative. unfold PyDate.sub_days. lia.
Qed.

(** X20: the total of a listed loan is not below its amount.  For a loan
    whose amount is a number not below zero, whose rate is not below zero
    and whose start date is not after today, the interest that
    [get_all_loans] shows is not below zero and the total amount is not
    below the loan amount. *)
Theorem total_is_not_below_amount (today : date) (db : database) (v : loan_view) :
  In v (get_all_loans today db) ->
  PyFloat.valid (Loans.loan_amount (view_row v)) = true ->
  PyFloat.leb PyFloat.zero (Loans.loan_amount (view_row v)) = true ->
  PyFloat.leb PyFloat.zero (Loans.interest_rate (view_row v)) = true ->
  PyDate.valid (Loans.start_date (view_row v)) = true ->
  PyDate.valid today = true ->
  PyDate.leb (Loans.start_date (view_row v)) today = true ->
  PyFloat.ltb (current_interest v) PyFloat.zero = false /\
  PyFloat.ltb (total_amount v) (Loans.loan_amount (view_row v)) = false.
Proof.
  unfold get_all_loans. intros Hin.
  apply in_map_iff in Hin as (x & <- & _). simpl.
  intros Va Pa Pr Vs Vt Hle.
  pose proof (calculate_interest_not_negative _ _ _ _ Pa Pr Vs Vt Hle) as Hn.
  split.
  - apply FloatSignFacts.not_negative_not_below_zero. exact Hn.
  - apply AddFacts.add_not_below; assumption.
Qed.

Lemma total_is_not_below_amount_witness :
  let interest := calculate_interest ten_thousand ten_percent
                    (PyDate.mkdate 2024 1 1) (PyDate.mkdate 2024 7 1) in
  PyFloat.ltb interest PyFloat.zero = false /\
  PyFloat.ltb (PyFloat.add ten_thousand interest) ten_thousand = false.
Proof.
  intros interest.
  apply (total_is_not_below_amount (PyDate.mkdate 2024 7 1) sample_db
           (mkview (Loans.mkrow 1 "Asha" "Devi" ten_thousand ten_percent
                      (PyDate.mkdate 2024 1 1) (PyDate.mkdate 2024 12 31)
                      "Active" 1000)
                   interest (PyFloat.add ten_thousand interest) 183 "green"));
    try reflexivity.
  vm_compute. left. reflexivity.
Defined.

Section ActionFacts.

Lemma reachable_actions db :
  reachable db ->
  forall h, In h (loan_history db) ->
    LoanHistory.action h = "CREATE"%string \/
    LoanHistory.action h = "UPDATE"%string \/
    LoanHistory.action h = "DELETE"%string.
Proof.
  induction 1 as [|now m db Hr IH]; [intros h []|].
  intros h Hin.
  destruct (run_mutation_cases now m db) as [[_ E]|[_ [H|[H|H]]]].
  - rewrite E in Hin. auto.
  - destruct H as (? & ? & ? & ? & ? & ? & _ & E). rewrite E in Hin.
    simpl in Hin. apply in_app_iff in Hin as [Hin|[<-|[]]]; simpl; auto.
  - destruct H as (? & ? & ? & _ & E). rewrite E in Hin.
    simpl in Hin. apply in_app_iff in Hin as [Hin|[<-|[]]]; simpl; auto.
  - destruct H as (? & ? & _ & E). rewrite E in Hin.
    simpl in Hin. apply in_app_iff in Hin as [Hin|[<-|[]]]; simpl; auto.
Qed.

End ActionFacts.

(** X21: the history page never fails on a lookup of a colour.  In a
    state that the program can produce, every row of [get_loan_history]
    carries one of the three actions CREATE, UPDATE and DELETE, so
    [action_colors] has a colour for it and the page has a text to write,
    whatever the two multiselects leave of the frame. *)
Theorem history_page_knows_every_action (db : database)
    (selected_actions selected_farmers : list string) (row : history_view) :
  reachable db ->
  In row (filtered_history selected_actions selected_farmers
            (get_loan_history db)) ->
  (h_action row = "CREATE"%string \/ h_action row = "UPDATE"%string \/
   h_action row = "DELETE"%string) /\
  exists text, history_markdown row = Some text.
Proof.
  intros Hr Hin. unfold filtered_history in Hin.
  apply filter_In in Hin as [Hin _].
  apply get_loan_history_inner_join in Hin as (h & l & Hh & _ & _ & ->).
  pose proof (reachable_actions db Hr h Hh) as Ha.
  split; [exact Ha|].
  unfold history_markdown, action_colors; simpl.
  destruct Ha as [->|[->| ->]]; simpl; eauto.
Qed.

Lemma history_page_knows_every_action_witness :
  exists text,
    history_markdown
      (mkhview 1000 "Asha" "Devi" "CREATE"
         "Loan created for Asha (s/o Devi) with amount ₹10,000.00")
    = Some text.
Proof.
  apply (history_page_knows_every_action sample_db ["CREATE"%string]
           ["Asha"%string]
           (mkhview 1000 "Asha" "Devi" "CREATE"
              "Loan created for Asha (s/o Devi) with amount ₹10,000.00")).
  - exact (reachable_step 1000
             (AddLoan "Asha" "Devi" ten_thousand ten_percent
                      (PyDate.mkdate 2024 1 1) (PyDate.mkdate 2024 12 31))
             init_db reachable_init).
  - vm_compute. left. reflexivity.
Defined.

(** X22: the risk of a loan only grows with time.  For dates that exist,
    a later day never shows more days remaining, a loan that was red stays
    red and a loan that is green was green before; a later end date never
    shows fewer days remaining. *)
Theorem risk_never_improves_with_time (today1 today2 end1 end2 : date) :
  PyDate.valid today1 = true -> PyDate.valid today2 = true ->
  PyDate.valid end1 = true -> PyDate.valid end2 = true ->
  PyDate.leb today1 today2 = true ->
  PyDate.leb end1 end2 = true ->
  calculate_days_remaining today2 end1 <= calculate_days_remaining today1 end1 /\
  calculate_days_remaining today1 end1 <= calculate_days_remaining today1 end2 /\
  (status_color (calculate_days_remaining today1 end1) = "red"%string ->
   status_color (calculate_days_remaining today2 end1) = "red"%string) /\
  (status_color (calculate_days_remaining today2 end1) = "green"%string ->
   status_color (calculate_days_remaining today1 end1) = "green"%string).
Proof.
  intros V1 V2 Ve1 Ve2 Ht He.
  pose proof (PyDateFacts.toordinal_le _ _ V1 V2 Ht) as Hto.
  pose proof (PyDateFacts.toordinal_le _ _ Ve1 Ve2 He) as Heo.
  unfold calculate_days_remaining, PyDate.sub_days, status_color.
  split; [lia|]. split; [lia|].
  set (a := Z.max (PyDate.toordinal end1 - PyDate.toordinal today1) 0).
  set (b := Z.max (PyDate.toordinal end1 - PyDate.toordinal today2) 0).
  assert (Hba : b <= a) by (unfold a, b; lia).
  destruct (Z.leb_spec a 30), (Z.leb_spec a 90), (Z.leb_spec b 30),
    (Z.leb_spec b 90); try lia; split; intros Hc; try reflexivity;
    discriminate Hc.
Qed.

Lemma risk_never_improves_with_time_witness :
  calculate_days_remaining (PyDate.mkdate 2024 12 1) (PyDate.mkdate 2024 12 31)
    <= calculate_days_remaining (PyDate.mkdate 2024 7 1) (PyDate.mkdate 2024 12 31) /\
  calculate_days_remaining (PyDate.mkdate 2024 7 1) (PyDate.mkdate 2024 12 31)
    <= calculate_days_remaining (PyDate.mkdate 2024 7 1) (PyDate.mkdate 2025 6 30) /\
  (status_color (calculate_days_remaining (PyDate.mkdate 2024 7 1)
                   (PyDate.mkdate 2024 12 31)) = "red"%string ->
   status_color (calculate_days_remaining (PyDate.mkdate 2024 12 1)
                   (PyDate.mkdate 2024 12 31)) = "red"%string) /\
  (status_color (calculate_days_remaining (PyDate.mkdate 2024 12 1)
                   (PyDate.mkdate 2024 12 31)) = "green"%string ->
   status_color (calculate_days_remaining (PyDate.mkdate 2024 7 1)
                   (PyDate.mkdate 2024 12 31)) = "green"%string).
Proof.
  apply risk_never_improves_with_time; reflexivity.
Defined.

(** X23: the form of the page "Add New Loan" answers every submission with
    exactly one message, and the message is the success exactly when a
    loan was stored: a refused or failed submission shows one error and
    leaves the database as it was. *)
Theorem form_answers_with_one_message
    (now : timestamp) (farmer_name father_name : string)
    (loan_amount interest_rate : float) (start_date end_date : date)
    (db db' : database) (msgs : list st_msg) :
  add_new_loan_submitted now farmer_name father_name loan_amount interest_rate
                         start_date end_date db = (msgs, db') ->
  (msgs = [st_success "Loan added successfully!"] /\
   List.length (loans db') = S (List.length (loans db)) /\
   List.length (loan_history db') = S (List.length (loan_history db))) \/
  ((exists text, msgs = [st_error text]) /\ db' = db).
Proof.
  unfold add_new_loan_submitted.
  destruct (PyDate.leb end_date start_date).
  { intros H. injection H as <- <-. right. eauto. }
  destruct (PyFloat.leb loan_amount PyFloat.zero).
  { intros H. injection H as <- <-. right. eauto. }
  destruct (String.eqb farmer_name "" || String.eqb father_name "").
  { intros H. injection H as <- <-. right. eauto. }
  destruct (add_loan now farmer_name father_name loan_amount interest_rate
                     start_date end_date db) as [[[|] ms] d] eqn:Hadd.
  - intros H. injection H as <- <-. left.
    assert (Hms : ms = []).
    { unfold add_loan, try_commit in Hadd.
      destruct (sql_bind _ _ db) as [e|[u d0]]; [discriminate|].
      injection Hadd as <- _. reflexivity. }
    apply add_loan_success in Hadd. subst d ms. simpl.
    rewrite !length_app. simpl. split; [reflexivity|]. split; lia.
  - intros H. injection H as <- <-. right.
    unfold add_loan, try_commit in Hadd.
    destruct (sql_bind _ _ db) as [e|[u d0]]; [|discriminate].
    injection Hadd as <- <-. eauto.
Qed.

Lemma form_answers_with_one_message_witness :
  ([st_success "Loan added successfully!"]
     = [st_success "Loan added successfully!"] /\
   List.length (loans sample_db) = S (List.length (loans init_db)) /\
   List.length (loan_history sample_db) = S (List.length (loan_history init_db))) \/
  ((exists text, [st_success "Loan added successfully!"] = [st_error text]) /\
   sample_db = init_db).
Proof.
  apply (form_answers_with_one_message 1000 "Asha" "Devi" ten_thousand ten_percent
           (PyDate.mkdate 2024 1 1) (PyDate.mkdate 2024 12 31) init_db sample_db
           [st_success "Loan added successfully!"]).
  vm_compute. reflexivity.
Defined.

Section ListingFacts.

Lemma filter_map_comm {A B} (f : A -> B) (p : B -> bool) (l : list A) :
  filter p (map f l) = map f (filter (fun x => p (f x)) l).
Proof.
  induction l as [|x l IH]; simpl; [reflexivity|].
  destruct (p (f x)); simpl; rewrite IH; reflexivity.
Qed.

End ListingFacts.

(** X24: a deletion hides the loan and nothing else.  After [delete_loan]
    has succeeded, [get_all_loans] returns the rows it returned before, in
    the same order and with the same values, without those of the deleted
    id. *)
Theorem delete_hides_only_that_loan
    (now : timestamp) (loan_id : Z) (reason : string) (db db' : database)
    (msgs : list st_msg) (today : date) :
  delete_loan now loan_id reason db = (true, msgs, db') ->
  get_all_loans today db'
  = filter (fun v => negb (Loans.id (view_row v) =? loan_id))
           (get_all_loans today db).
Proof.
  intros H.
  destruct (sqlite_integer loan_id) eqn:E.
  2:{ rewrite delete_loan_unbound in H by assumption. discriminate. }
  rewrite delete_loan_bound in H by assumption. injection H as _ <-.
  unfold get_all_loans, deleted; simpl.
  rewrite (filter_map_comm _ (fun v => negb (Loans.id (view_row v) =? loan_id))).
  simpl. f_equal.
  induction (loans db) as [|r rows IH]; simpl; [reflexivity|].
  destruct (Loans.id r =? loan_id) eqn:Eid; simpl.
  - destruct (active r); simpl; rewrite ?Eid; simpl; exact IH.
  - destruct (active r); simpl; rewrite ?Eid; simpl; rewrite IH; reflexivity.
Qed.

Lemma delete_hides_only_that_loan_witness :
  get_all_loans (PyDate.mkdate 2024 7 1)
                (snd (delete_loan 2000 1 "repaid" sample_db))
  = filter (fun v => negb (Loans.id (view_row v) =? 1))
           (get_all_loans (PyDate.mkdate 2024 7 1) sample_db).
Proof.
  apply (delete_hides_only_that_loan 2000 1 "repaid" sample_db _ []).
  vm_compute. reflexivity.
Defined.



(** ** The accrual calculator against its specification *)

Section AccrualFacts.

(** The day count is not clamped: a period that ends before it starts
    gives the interest of the reversed period with the opposite sign. *)
Lemma calculate_interest_reversed amount rate start_date end_date :
  PyDate.toordinal end_date < PyDate.toordinal start_date ->
  calculate_interest amount rate start_date end_date
  = FloatSign.neg (calculate_interest amount rate end_date start_date).
Proof.
  intros Hd. unfold calculate_interest, PyDate.sub_days.
  replace (PyDate.toordinal end_date - PyDate.toordinal start_date)
    with (- (PyDate.toordinal start_date - PyDate.toordinal end_date)) by lia.
  rewrite FloatSignFacts.of_int_neg by lia.
  rewrite FloatSignFacts.mul_neg_r, FloatSignFacts.div_neg_l,
    FloatSignFacts.round2_neg.
  reflexivity.
Qed.

End AccrualFacts.

(** C1: [calculate_interest] returns
    [round(amount * rate * days / (100 * 365), 2)] with [days] the
    whole-day difference of the two dates, and this difference is not
    clamped.  For an as-of date that is not before the start date the
    result is the one of the specification, with its clamp, and it is not
    below zero for an amount and a rate that are not below zero.  For an
    as-of date before the start date the result is the interest of the
    reversed period with the opposite sign, which is not above zero for
    such an amount and rate. *)
Theorem accrued_interest_is_not_clamped
    (amount rate : float) (start_date as_of_date : date) :
  PyDate.valid start_date = true ->
  PyDate.valid as_of_date = true ->
  (PyDate.leb start_date as_of_date = true ->
   calculate_interest amount rate start_date as_of_date
   = spec_accrued_interest amount rate start_date as_of_date /\
   (PyFloat.leb PyFloat.zero amount = true ->
    PyFloat.leb PyFloat.zero rate = true ->
    PyFloat.ltb (calculate_interest amount rate start_date as_of_date)
                PyFloat.zero = false)) /\
  (PyDate.ltb as_of_date start_date = true ->
   calculate_interest amount rate start_date as_of_date
   = FloatSign.neg (calculate_interest amount rate as_of_date start_date) /\
   (PyFloat.leb PyFloat.zero amount = true ->
    PyFloat.leb PyFloat.zero rate = true ->
    PyFloat.ltb PyFloat.zero
                (calculate_interest amount rate start_date as_of_date)
    = false)).
Proof.
  intros Vs Va. split.
  - intros Hle. split.
    + pose proof (PyDateFacts.toordinal_le _ _ Vs Va Hle) as Hd.
      unfold calculate_interest, spec_accrued_interest, PyDate.sub_days.
      rewrite Z.max_l by lia. reflexivity.
    + intros Pa Pr. apply FloatSignFacts.not_negative_not_below_zero.
      apply calculate_interest_not_negative; assumption.
  - intros Hlt.
    pose proof (PyDateFacts.ltb_toordinal _ _ Va Vs Hlt) as Hd.
    split; [apply calculate_interest_reversed; exact Hd|].
    intros Pa Pr. rewrite calculate_interest_reversed by exact Hd.
    apply FloatSignFacts.not_positive_not_above_zero.
    apply FloatSignFacts.neg_not_negative.
    apply calculate_interest_not_negative; try assumption.
    unfold PyDate.ltb in Hlt. unfold PyDate.leb.
    destruct (PyDate.compare as_of_date start_date);
      [discriminate|reflexivity|discriminate].
Qed.

Lemma accrued_interest_is_not_clamped_witness :
  calculate_interest ten_thousand ten_percent
    (PyDate.mkdate 2024 1 1) (PyDate.mkdate 2024 7 1)
  = spec_accrued_interest ten_thousand ten_percent
      (PyDate.mkdate 2024 1 1) (PyDate.mkdate 2024 7 1) /\
  PyFloat.ltb (calculate_interest ten_thousand ten_percent
                 (PyDate.mkdate 2024 1 1) (PyDate.mkdate 2024 7 1))
              PyFloat.zero = false.
Proof.
  destruct (accrued_interest_is_not_clamped ten_thousand ten_percent
              (PyDate.mkdate 2024 1 1) (PyDate.mkdate 2024 7 1))
    as [[Heq Hsign] _]; try reflexivity.
  split; [exact Heq|apply Hsign; reflexivity].
Defined.

(** C1 fails as stated for an as-of date before the start date: 10000 at
    10 percent from 2024-01-06, as of 2024-01-01, gives -13.7, where the
    clamp of the specification gives zero. *)
Lemma accrued_interest_clamp_counterexample :
  PyFloat.leb PyFloat.zero ten_thousand = true /\
  PyFloat.leb PyFloat.zero ten_percent = true /\
  PyDate.ltb (PyDate.mkdate 2024 1 1) (PyDate.mkdate 2024 1 6) = true /\
  PyDate.sub_days (PyDate.mkdate 2024 1 1) (PyDate.mkdate 2024 1 6) = -5 /\
  calculate_interest ten_thousand ten_percent
    (PyDate.mkdate 2024 1 6) (PyDate.mkdate 2024 1 1)
  = S754_finite true 7712414361871974 (-49) /\
  PyFloat.ltb (calculate_interest ten_thousand ten_percent
                 (PyDate.mkdate 2024 1 6) (PyDate.mkdate 2024 1 1))
              PyFloat.zero = true /\
  spec_accrued_interest ten_thousand ten_percent
    (PyDate.mkdate 2024 1 6) (PyDate.mkdate 2024 1 1)
  = S754_zero false.
Proof. repeat split; vm_compute; reflexivity. Qed.

(** C9: the interest does not decrease as the as-of date advances, for an
    amount and a rate that are numbers not below zero and whose product is
    finite: for two as-of dates in ascending order, before or after the
    start date, the interest at the first is at most the interest at the
    second. *)
Theorem accrued_interest_monotone_in_as_of_date
    (amount rate : float) (start_date d1 d2 : date) :
  PyFloat.valid amount = true ->
  PyFloat.valid rate = true ->
  PyFloat.leb PyFloat.zero amount = true ->
  PyFloat.leb PyFloat.zero rate = true ->
  FloatSign.is_finite (PyFloat.mul amount rate) = true ->
  PyDate.valid start_date = true ->
  PyDate.valid d1 = true ->
  PyDate.valid d2 = true ->
  PyDate.leb d1 d2 = true ->
  PyFloat.leb (calculate_interest amount rate start_date d1)
              (calculate_interest amount rate start_date d2) = true.
Proof.
  intros Va Vr Pa Pr F Vs V1 V2 Hle.
  destruct (PipelineFacts.mul_ordered amount rate Va Vr Pa Pr F) as [Oc Nc].
  pose proof (toordinal_bounds _ Vs). pose proof (toordinal_bounds _ V1).
  pose proof (toordinal_bounds _ V2).
  pose proof (PyDateFacts.toordinal_le _ _ V1 V2 Hle).
  rewrite !calculate_interest_accrue.
  apply PipelineFacts.accrue_mono; try assumption;
    unfold PyDate.sub_days; lia.
Qed.

Lemma accrued_interest_monotone_in_as_of_date_witness :
  PyFloat.leb
    (calculate_interest ten_thousand ten_percent
       (PyDate.mkdate 2024 1 1) (PyDate.mkdate 2023 12 1))
    (calculate_interest ten_thousand ten_percent
       (PyDate.mkdate 2024 1 1) (PyDate.mkdate 2024 7 1)) = true.
Proof.
  apply accrued_interest_monotone_in_as_of_date; reflexivity.
Defined.

(** C9 fails as stated for a principal below zero, and for a principal
    and a rate whose product overflows.  -10000 at 10 percent from
    2024-01-01 gives -0.0 on the start date and -13.7 five days later;
    1e308 at 100 percent gives NaN on the start date, which compares with
    nothing, and infinity a day later. *)
Lemma accrued_interest_monotone_counterexample :
  (PyFloat.leb PyFloat.zero ten_percent = true /\
   PyDate.leb (PyDate.mkdate 2024 1 1) (PyDate.mkdate 2024 1 6) = true /\
   calculate_interest (S754_finite true 5497558138880000 (-39)) ten_percent
     (PyDate.mkdate 2024 1 1) (PyDate.mkdate 2024 1 1)
   = S754_zero true /\
   calculate_interest (S754_finite true 5497558138880000 (-39)) ten_percent
     (PyDate.mkdate 2024 1 1) (PyDate.mkdate 2024 1 6)
   = S754_finite true 7712414361871974 (-49) /\
   PyFloat.leb
     (calculate_interest (S754_finite true 5497558138880000 (-39)) ten_percent
        (PyDate.mkdate 2024 1 1) (PyDate.mkdate 2024 1 1))
     (calculate_interest (S754_finite true 5497558138880000 (-39)) ten_percent
        (PyDate.mkdate 2024 1 1) (PyDate.mkdate 2024 1 6)) = false) /\
  (PyFloat.valid (S754_finite false 5010420900022432 971) = true /\
   PyFloat.leb PyFloat.zero (S754_finite false 5010420900022432 971) = true /\
   PyFloat.leb PyFloat.zero (S754_finite false 7036874417766400 (-46)) = true /\
   PyDate.leb (PyDate.mkdate 2024 1 1) (PyDate.mkdate 2024 1 2) = true /\
   calculate_interest (S754_finite false 5010420900022432 971)
     (S754_finite false 7036874417766400 (-46))
     (PyDate.mkdate 2024 1 1) (PyDate.mkdate 2024 1 1)
   = S754_nan /\
   calculate_interest (S754_finite false 5010420900022432 971)
     (S754_finite false 7036874417766400 (-46))
     (PyDate.mkdate 2024 1 1) (PyDate.mkdate 2024 1 2)
   = S754_infinity false /\
   PyFloat.leb
     (calculate_interest (S754_finite false 5010420900022432 971)
        (S754_finite false 7036874417766400 (-46))
        (PyDate.mkdate 2024 1 1) (PyDate.mkdate 2024 1 1))
     (calculate_interest (S754_finite false 5010420900022432 971)
        (S754_finite false 7036874417766400 (-46))
        (PyDate.mkdate 2024 1 1) (PyDate.mkdate 2024 1 2)) = false).
Proof. repeat split; vm_compute; reflexivity. Qed.
